(** * Status reconciliation engine of [track_message_status.py]

    A shallow embedding of the WhatsApp message-status tracker: the
    resilient HTTP client, the paginated execution fetcher, the status
    extractor, the reconciler and the MongoDB upserter, then the list mode
    of the tracker, the retry script [retry_failed_executions.py] and the
    loaders of the [.env] file, followed by the properties proved about
    them.

    Python values are embedded as the inductive type [value]; code that can
    raise returns in the error monad [exc]; the HTTP session and the random
    source are explicit parameters, and every effect that a property talks
    about (requests sent, sleeps, executions scanned) is recorded in an
    explicit [world]. *)

From Stdlib Require Import ZArith QArith Lia Lqa List Ascii String Permutation Sorted.
From stdpp Require Import base decidable countable gmap strings list pretty.

Set Warnings "-register-all".

Local Open Scope string_scope.
Local Open Scope list_scope.
Local Open Scope Z_scope.

(* ===================================================================== *)
(** ** Python values and exceptions *)
(* ===================================================================== *)

(** The exception classes the program can meet.  All of them derive from
    [Exception]; [JSONDecodeError] is a [ValueError] in Python and is
    folded into it. *)
Inductive exn : Type :=
  | AttributeError
  | TypeError
  | ValueError
  | OSError
  | OverflowError
  | IndexError
  | RuntimeError (msg : string)
  | TransportError (msg : string).

Inductive exc (A : Type) : Type :=
  | Ok (a : A)
  | Raise (e : exn).
Arguments Ok {A} a.
Arguments Raise {A} e.

#[global] Instance exn_eq_dec : EqDecision exn.
Proof. solve_decision. Defined.


Definition ebind {A B : Type} (m : exc A) (k : A -> exc B) : exc B :=
  match m with
  | Ok a => k a
  | Raise e => Raise e
  end.

Notation "'do' x <- m ; k" := (ebind m (fun x => k))
  (at level 10, x name, m at level 100, k at level 200).


(** JSON-shaped Python values.  A [dict] is an association list in
    insertion order (iteration order matters to the extractor); numbers
    are Python [int]s.  Python [float]s are outside the model. *)
Inductive value : Type :=
  | VNone
  | VBool (b : bool)
  | VInt (z : Z)
  | VStr (s : string)
  | VList (l : list value)
  | VDict (d : list (string * value)).

(** Truth value of an object, as used by [if x], [not x] and [x or y]. *)
Definition truthy (v : value) : bool :=
  match v with
  | VNone => false
  | VBool b => b
  | VInt z => negb (z =? 0)
  | VStr s => negb (String.eqb s "")
  | VList l => match l with [] => false | _ => true end
  | VDict d => match d with [] => false | _ => true end
  end.

(** [x or y] *)
Definition py_or (x y : value) : value := if truthy x then x else y.

Fixpoint assoc (k : string) (d : list (string * value)) : option value :=
  match d with
  | [] => None
  | (k', v) :: d' => if String.eqb k k' then Some v else assoc k d'
  end.

(** [d.get(k, default)]: only a dict has a [get] attribute. *)
Definition py_get_default (v : value) (k : string) (default : value) : exc value :=
  match v with
  | VDict d => Ok (match assoc k d with Some x => x | None => default end)
  | _ => Raise AttributeError
  end.

(** [d.get(k)] *)
Definition py_get (v : value) (k : string) : exc value :=
  py_get_default v k VNone.

(** [d.items()] *)
Definition py_items (v : value) : exc (list (string * value)) :=
  match v with
  | VDict d => Ok d
  | _ => Raise AttributeError
  end.

Definition chars (s : string) : list value :=
  map (fun c => VStr (String c EmptyString)) (list_ascii_of_string s).

(** [for x in v]: lists yield their elements, strings their characters,
    dicts their keys; nothing else in the model is iterable. *)
Definition py_iter (v : value) : exc (list value) :=
  match v with
  | VList l => Ok l
  | VStr s => Ok (chars s)
  | VDict d => Ok (map (fun kv => VStr (fst kv)) d)
  | _ => Raise TypeError
  end.


Definition isinstance_dict (v : value) : bool :=
  match v with VDict _ => true | _ => false end.

(** [a == b].  [bool] is a subclass of [int] ([True == 1]); lists compare
    pointwise and dicts as sets of items. *)
Fixpoint py_eq (a b : value) {struct a} : bool :=
  match a, b with
  | VNone, VNone => true
  | VBool x, VBool y => Bool.eqb x y
  | VBool x, VInt y => Z.b2z x =? y
  | VInt x, VBool y => x =? Z.b2z y
  | VInt x, VInt y => x =? y
  | VStr x, VStr y => String.eqb x y
  | VList la, VList lb =>
      (fix go (la lb : list value) {struct la} : bool :=
         match la, lb with
         | [], [] => true
         | x :: xs, y :: ys => py_eq x y && go xs ys
         | _, _ => false
         end) la lb
  | VDict da, VDict db =>
      (length da =? length db)%nat &&
      (fix go (da : list (string * value)) {struct da} : bool :=
         match da with
         | [] => true
         | (k, x) :: da' =>
             match assoc k db with
             | Some y => py_eq x y && go da'
             | None => false
             end
         end) da
  | _, _ => false
  end.

(** [a > b]: defined between numbers, between strings and between lists;
    every other pairing raises [TypeError]. *)
Fixpoint py_gt (a b : value) {struct a} : exc bool :=
  match a, b with
  | VBool x, VBool y => Ok (Z.b2z x >? Z.b2z y)
  | VBool x, VInt y => Ok (Z.b2z x >? y)
  | VInt x, VBool y => Ok (x >? Z.b2z y)
  | VInt x, VInt y => Ok (x >? y)
  | VStr x, VStr y => Ok (match String.compare x y with Gt => true | _ => false end)
  | VList la, VList lb =>
      (fix go (la lb : list value) {struct la} : exc bool :=
         match la, lb with
         | [], _ => Ok false
         | _ :: _, [] => Ok true
         | x :: xs, y :: ys => if py_eq x y then go xs ys else py_gt x y
         end) la lb
  | _, _ => Raise TypeError
  end.

(** [str(v)].  Exact on [None], booleans, integers and strings; inside a
    container a string is quoted without escape processing. *)
Fixpoint py_repr (v : value) : string :=
  match v with
  | VNone => "None"
  | VBool true => "True"
  | VBool false => "False"
  | VInt z => pretty z
  | VStr s => "'" +:+ s +:+ "'"
  | VList l =>
      "[" +:+ (fix go (l : list value) : string :=
                match l with
                | [] => ""
                | [x] => py_repr x
                | x :: xs => py_repr x +:+ ", " +:+ go xs
                end) l +:+ "]"
  | VDict d =>
      "{" +:+ (fix go (d : list (string * value)) : string :=
                match d with
                | [] => ""
                | [(k, x)] => "'" +:+ k +:+ "': " +:+ py_repr x
                | (k, x) :: d' => "'" +:+ k +:+ "': " +:+ py_repr x +:+ ", " +:+ go d'
                end) d +:+ "}"
  end.

Definition py_str (v : value) : string :=
  match v with
  | VStr s => s
  | _ => py_repr v
  end.

(* ===================================================================== *)
(** ** The outside world *)
(* ===================================================================== *)

Record request : Type := mkRequest {
  req_method : string;
  req_url : string
}.

(** What the program looks at in a [requests.Response]. *)
Record response : Type := mkResponse {
  status_code : Z;
  text : string;
  json : exc value
}.

(** The observable effects, in the order they happen. *)
Inductive event : Type :=
  | EvRequest (r : request)
  | EvSleep (seconds : Q)
  | EvScan (execution : value).

(** [calls] counts the [session.request] calls made so far and [draws]
    the [random.random()] draws; the session and the random source answer
    by these counters, so they may behave differently at every call. *)
Record world : Type := mkWorld {
  calls : nat;
  draws : nat;
  trace : list event
}.

Definition sleeps_of (t : list event) : list Q :=
  flat_map (fun ev => match ev with EvSleep d => [d] | _ => [] end) t.

Definition requests_of (t : list event) : list request :=
  flat_map (fun ev => match ev with EvRequest r => [r] | _ => [] end) t.

Definition scans_of (t : list event) : list value :=
  flat_map (fun ev => match ev with EvScan x => [x] | _ => [] end) t.

(* ===================================================================== *)
(** ** HTTP helpers: [request_with_retry] *)
(* ===================================================================== *)

Section Http.

(** [session.request(...)] as a function of the number of earlier calls,
    and [random.random()] as a function of the number of earlier draws. *)
Variable session : nat -> request -> exc response.
Variable random : nat -> Q.

(** [resp.status_code in (429, 500, 502, 503, 504)] *)
Definition transient (code : Z) : bool :=
  existsb (Z.eqb code) [429; 500; 502; 503; 504].

(** The body of the [try]: the call itself, then the classification of
    the transient status codes as a [RuntimeError]. *)
Definition classify (r : exc response) : exc response :=
  match r with
  | Ok resp =>
      if transient (status_code resp)
      then Raise (RuntimeError ("HTTP " +:+ pretty (status_code resp) +:+ ": "
                                +:+ substring 0 200 (text resp)))
      else Ok resp
  | Raise e => Raise e
  end.

Definition attempt_once (req : request) (w : world) : exc response * world :=
  (classify (session (calls w) req),
   {| calls := S (calls w); draws := draws w;
      trace := trace w ++ [EvRequest req] |}).

(** [(2 ** (attempt - 1)) * 0.6 + random.random() * 0.3], over the
    rationals. *)
Definition backoff (attempt : Z) (r : Q) : Q :=
  (inject_Z (2 ^ (attempt - 1)) * (6 # 10) + r * (3 # 10))%Q.

Definition sleep_after (attempt : Z) (w : world) : world :=
  {| calls := calls w; draws := S (draws w);
     trace := trace w ++ [EvSleep (backoff attempt (random (draws w)))] |}.

(** The [for attempt in range(...)] loop, [n] iterations being left. *)
Fixpoint retry_from (n : nat) (attempt max_retries : Z)
    (req : request) (w : world) : exc response * world :=
  match n with
  | O => (Raise (RuntimeError "unreachable"), w)
  | S n' =>
      let '(r, w1) := attempt_once req w in
      match r with
      | Ok resp => (Ok resp, w1)
      | Raise e =>
          if attempt =? max_retries then (Raise e, w1)
          else retry_from n' (attempt + 1) max_retries req (sleep_after attempt w1)
      end
  end.

Definition request_with_retry (max_retries : Z)
    (req : request) (w : world) : exc response * world :=
  retry_from (Z.to_nat max_retries) 1 max_retries req w.

(** [max_retries: int = 5] *)
Definition default_max_retries : Z := 5.

(** The events of [m] failed attempts, the first of them being attempt
    number [attempt] made after [d0] random draws, each followed by its
    sleep. *)
Definition failed_rounds (req : request) (attempt : Z) (d0 m : nat)
    : list event :=
  flat_map (fun k => [EvRequest req;
                      EvSleep (backoff (attempt + Z.of_nat k) (random (d0 + k)))])
           (seq 0 m).

End Http.

(* ===================================================================== *)
(** ** n8n API: [fetch_executions] *)
(* ===================================================================== *)

Fixpoint dropwhile_slash (l : list ascii) : list ascii :=
  match l with
  | c :: l' => if Ascii.eqb c "/"%char then dropwhile_slash l' else l
  | [] => []
  end.

(** [s.rstrip('/')] *)
Definition rstrip_slash (s : string) : string :=
  string_of_list_ascii
    (rev (dropwhile_slash (rev (list_ascii_of_string s)))).

(** [out[:n]] on a list, with Python's reading of a negative bound. *)
Definition slice_to (out : list value) (n : Z) : list value :=
  if n >=? 0 then firstn (Z.to_nat n) out
  else firstn (Z.to_nat (Z.of_nat (length out) + n)) out.

Definition py_len (l : list value) : Z := Z.of_nat (length l).

Section Fetch.

Variable session : nat -> request -> exc response.
Variable random : nat -> Q.
(** [requests.utils.quote] on a string *)
Variable quote : string -> string.

Variables (base_url api_prefix workflow_id : string).
Variable limit : Z.

(** [quote(cursor)] accepts text only. *)
Definition quote_value (v : value) : exc string :=
  match v with
  | VStr s => Ok (quote s)
  | _ => Raise TypeError
  end.

(** The query string and the URL of one page request. *)
Definition executions_url (batch_limit : Z) (cursor : value) : exc string :=
  let q := "workflowId=" +:+ quote workflow_id
           +:+ "&limit=" +:+ quote (pretty batch_limit)
           +:+ "&includeData=" +:+ quote "true" in
  do q' <- (if truthy cursor
            then do c <- quote_value cursor; Ok (q +:+ "&cursor=" +:+ c)
            else Ok q);
  Ok (rstrip_slash base_url +:+ api_prefix +:+ "/executions?" +:+ q').

(** One iteration of the loop up to the assignment of [cursor]: the
    batch as received, its elements, and the next cursor. *)
Definition fetch_page (cursor : value) (fetched : Z) (w : world)
    : exc (value * list value * value) * world :=
  let batch_limit := Z.min 100 (limit - fetched) in
  match executions_url batch_limit cursor with
  | Raise e => (Raise e, w)
  | Ok url =>
      let '(r, w1) := request_with_retry session random default_max_retries
                        (mkRequest "GET" url) w in
      (do resp <- r;
       if negb (status_code resp =? 200)
       then Raise (RuntimeError ("List executions failed (" +:+ workflow_id +:+ "): "
                                 +:+ pretty (status_code resp) +:+ " " +:+ text resp))
       else
         do data <- json resp;
         do d1 <- py_get data "data";
         do batch <- (if truthy d1 then Ok d1
                      else do d2 <- py_get data "executions";
                           Ok (py_or d2 (VList [])));
         do items <- py_iter batch;
         do c <- py_get data "nextCursor";
         Ok (batch, items, py_or c VNone),
       w1)
  end.

(** The [while fetched < limit] loop; [None] when the fuel runs out
    before the loop ends. *)
Fixpoint fetch_loop (fuel : nat) (out : list value) (cursor : value)
    (fetched : Z) (w : world) : option (exc (list value) * world) :=
  if negb (fetched <? limit) then Some (Ok out, w)
  else
    match fuel with
    | O => None
    | S fuel' =>
        match fetch_page cursor fetched w with
        | (Raise e, w1) => Some (Raise e, w1)
        | (Ok (batch, items, cursor'), w1) =>
            let out' := out ++ items in
            let fetched' := fetched + py_len items in
            if negb (truthy cursor') || negb (truthy batch)
            then Some (Ok out', w1)
            else fetch_loop fuel' out' cursor' fetched' w1
        end
    end.

Definition fetch_executions (fuel : nat) (w : world)
    : option (exc (list value) * world) :=
  match fetch_loop fuel [] VNone 0 w with
  | Some (Ok out, w') => Some (Ok (slice_to out limit), w')
  | Some (Raise e, w') => Some (Raise e, w')
  | None => None
  end.

End Fetch.

(* ===================================================================== *)
(** ** WhatsApp status extraction *)
(* ===================================================================== *)

(** *** [int(s)] on ASCII text: optional surrounding white space, an
    optional sign, decimal digits with single underscores between them. *)

Definition is_space (c : ascii) : bool :=
  let n := nat_of_ascii c in
  ((9 <=? n) && (n <=? 13) || (28 <=? n) && (n <=? 32))%nat.

Definition is_digit (c : ascii) : bool :=
  let n := nat_of_ascii c in ((48 <=? n) && (n <=? 57))%nat.

Definition digit_val (c : ascii) : Z := Z.of_nat (nat_of_ascii c) - 48.

Fixpoint lstrip (cs : list ascii) : list ascii :=
  match cs with
  | c :: cs' => if is_space c then lstrip cs' else cs
  | [] => []
  end.

Definition strip (cs : list ascii) : list ascii :=
  rev (lstrip (rev (lstrip cs))).

Fixpoint digits_from (acc : Z) (cs : list ascii) : option Z :=
  match cs with
  | [] => Some acc
  | c :: cs' =>
      if is_digit c then digits_from (10 * acc + digit_val c) cs'
      else if Ascii.eqb c "_"%char then
        match cs' with
        | d :: _ => if is_digit d then digits_from acc cs' else None
        | [] => None
        end
      else None
  end.

Definition digits (cs : list ascii) : option Z :=
  match cs with
  | c :: _ => if is_digit c then digits_from 0 cs else None
  | [] => None
  end.

Definition parse_int (s : string) : option Z :=
  match strip (list_ascii_of_string s) with
  | "+"%char :: ds => digits ds
  | "-"%char :: ds => option_map Z.opp (digits ds)
  | ds => digits ds
  end.

(** [normalize_timestamp].  A [bool] is an [int] for [isinstance], and is
    kept as its integer value. *)
Definition normalize_timestamp (ts : value) : option Z :=
  match ts with
  | VNone => None
  | VInt z => Some z
  | VBool b => Some (Z.b2z b)
  | VStr s => parse_int s
  | _ => None
  end.

(** *** [datetime.fromtimestamp(ts, tz=RIYADH_TZ)] and [strftime] *)

(** [RIYADH_TZ]: the fixed offset of three hours, in seconds. *)
Definition RIYADH_OFFSET : Z := 3 * 3600.

Record datetime : Type := mkDatetime {
  dt_year : Z; dt_month : Z; dt_day : Z; dt_hour : Z; dt_minute : Z
}.

(** Proleptic Gregorian date of a day number counted from 1970-01-01. *)
Definition civil_from_days (days : Z) : Z * Z * Z :=
  let z := days + 719468 in
  let era := z / 146097 in
  let doe := z - era * 146097 in
  let yoe := (doe - doe / 1460 + doe / 36524 - doe / 146096) / 365 in
  let doy := doe - (365 * yoe + yoe / 4 - yoe / 100) in
  let mp := (5 * doy + 2) / 153 in
  let d := doy - (153 * mp + 2) / 5 + 1 in
  let m := if mp <? 10 then mp + 3 else mp - 9 in
  let y := yoe + era * 400 + (if m <=? 2 then 1 else 0) in
  (y, m, d).

Definition civil (secs : Z) : datetime :=
  let '(y, m, d) := civil_from_days (secs / 86400) in
  let s := secs mod 86400 in
  mkDatetime y m d (s / 3600) (s mod 3600 / 60).

(** The time zone aware constructor of the standard library: the argument
    must fit the platform's 64-bit [time_t] ([OverflowError]), the C
    library must be able to break it down ([OSError] when the year does
    not fit a C [int]), the UTC year must lie in 1..9999 ([ValueError]),
    and so must the year after the offset is added ([OverflowError]). *)
Definition fromtimestamp (ts : Z) : exc datetime :=
  if negb ((- 2 ^ 63 <=? ts) && (ts <? 2 ^ 63)) then Raise OverflowError
  else
    let utc := civil ts in
    if negb ((- 2 ^ 31 <=? dt_year utc - 1900) && (dt_year utc - 1900 <? 2 ^ 31))
    then Raise OSError
    else if negb ((1 <=? dt_year utc) && (dt_year utc <=? 9999)) then Raise ValueError
    else
      let local := civil (ts + RIYADH_OFFSET) in
      if 9999 <? dt_year local then Raise OverflowError else Ok local.

(** Zero padding to a width, as [%m], [%d], [%H] and [%M] do (width 2);
    the C library prints the year of [%Y] without padding. *)
Fixpoint pad (width : nat) (s : string) : string :=
  match width with
  | O => s
  | S w' => if (String.length s <=? w')%nat then pad w' ("0" +:+ s) else s
  end.

(** [dt.strftime("%Y-%m-%d %H:%M")] *)
Definition strftime (dt : datetime) : string :=
  pretty (dt_year dt) +:+ "-" +:+ pad 2 (pretty (dt_month dt)) +:+ "-"
  +:+ pad 2 (pretty (dt_day dt)) +:+ " " +:+ pad 2 (pretty (dt_hour dt)) +:+ ":"
  +:+ pad 2 (pretty (dt_minute dt)).

(** [format_timestamp]: the handler is [except (ValueError, OSError)];
    every other exception leaves the function. *)
Definition format_timestamp (ts : option Z) : exc (option string) :=
  match ts with
  | None => Ok None
  | Some t =>
      match fromtimestamp t with
      | Ok dt => Ok (Some (strftime dt))
      | Raise ValueError => Ok None
      | Raise OSError => Ok None
      | Raise e => Raise e
      end
  end.

(** *** [extract_status_updates] *)

(** The dict built for every status update found; all six keys are always
    present, so the later [.get] calls never use their defaults. *)
Record status_update : Type := mkStatus {
  status : value;
  timestamp : option Z;
  timestampFormatted : option string;
  recipient_id : value;
  executionId : string;
  recipientMismatch : bool
}.

(** A [for] loop that appends to [results], stopping at the first
    exception. *)
Fixpoint eflat_map {A B : Type} (f : A -> exc (list B)) (l : list A)
    : exc (list B) :=
  match l with
  | [] => Ok []
  | x :: xs => do r <- f x; do rs <- eflat_map f xs; Ok (r ++ rs)
  end.

Section Extract.

Variables (message_id wa_id : string).
Variable execution_id : string.

(** Body of [for status_obj in statuses]. *)
Definition scan_status (status_obj : value) : exc (list status_update) :=
  if negb (isinstance_dict status_obj) then Ok []
  else
    do status_msg_id <- py_get_default status_obj "id" (VStr "");
    if negb (py_eq status_msg_id (VStr message_id)) then Ok []
    else
      do st <- py_get_default status_obj "status" (VStr "unknown");
      do raw_ts <- py_get status_obj "timestamp";
      let ts := normalize_timestamp raw_ts in
      do rid <- py_get status_obj "recipient_id";
      let recipient_mismatch := truthy rid && negb (py_eq rid (VStr wa_id)) in
      do formatted <- format_timestamp ts;
      Ok [mkStatus st ts formatted rid execution_id recipient_mismatch].

(** Body of [for item in main_item]. *)
Definition scan_item (item : value) : exc (list status_update) :=
  if negb (isinstance_dict item) then Ok []
  else
    do j <- py_get_default item "json" (VDict []);
    do b <- py_get j "body";
    let body := py_or b j in
    let body := match body with VList (x :: _) => x | _ => body end in
    do s <- py_get body "statuses";
    match py_or s (VList []) with
    | VList statuses => eflat_map scan_status statuses
    | _ => Ok []
    end.

(** Body of [for main_item in main_data]. *)
Definition scan_main_item (main_item : value) : exc (list status_update) :=
  match main_item with
  | VList items => eflat_map scan_item items
  | _ => Ok []
  end.

(** Body of [for run in node_runs]. *)
Definition scan_run (run : value) : exc (list status_update) :=
  if negb (isinstance_dict run) then Ok []
  else
    do d <- py_get_default run "data" (VDict []);
    do m <- py_get d "main";
    do main_data <- py_iter (py_or m (VList []));
    eflat_map scan_main_item main_data.

(** Body of [for node_name, node_runs in run_data.items()]. *)
Definition scan_node (node : string * value) : exc (list status_update) :=
  match snd node with
  | VList node_runs => eflat_map scan_run node_runs
  | _ => Ok []
  end.

End Extract.

Definition extract_status_updates (execution : value)
    (message_id wa_id : string) : exc (list status_update) :=
  do id <- py_get_default execution "id" (VStr "unknown");
  let execution_id := py_str id in
  do d1 <- py_get execution "data";
  do exec_data <- (if truthy d1 then Ok d1
                   else do d2 <- py_get execution "executionData";
                        Ok (py_or d2 (VDict [])));
  do rd <- py_get exec_data "resultData";
  do rn <- py_get (py_or rd (VDict [])) "runData";
  do nodes <- py_items (py_or rn (VDict []));
  eflat_map (scan_node message_id wa_id execution_id) nodes.

(* ===================================================================== *)
(** ** Status priority and latest-status resolution *)
(* ===================================================================== *)

Definition lower_ascii (c : ascii) : ascii :=
  let n := nat_of_ascii c in
  if ((65 <=? n) && (n <=? 90))%nat then ascii_of_nat (n + 32) else c.

(** [s.lower()], on ASCII letters. *)
Fixpoint lower (s : string) : string :=
  match s with
  | EmptyString => EmptyString
  | String c s' => String (lower_ascii c) (lower s')
  end.

Definition priority_map : list (string * Z) :=
  [("failed", 100); ("undelivered", 100); ("read", 50);
   ("delivered", 40); ("sent", 30); ("unknown", 10)].

Fixpoint map_get (k : string) (m : list (string * Z)) (default : Z) : Z :=
  match m with
  | [] => default
  | (k', v) :: m' => if String.eqb k k' then v else map_get k m' default
  end.

(** [get_status_priority]: [status.lower()] exists on strings only. *)
Definition get_status_priority (st : value) : exc Z :=
  match st with
  | VStr s => Ok (map_get (lower s) priority_map 10)
  | _ => Raise AttributeError
  end.

(** [is_terminal_status] *)
Definition is_terminal_status (st : value) : exc bool :=
  match st with
  | VStr s => Ok (existsb (String.eqb (lower s)) ["failed"; "undelivered"; "read"])
  | _ => Raise AttributeError
  end.

(** *** [sorted(..., key=..., reverse=True)]

    The sort of the standard library is stable, also under [reverse=True]:
    elements with equal keys keep their input order.  The result of a
    stable sort is determined by the input, so insertion from the right,
    placing each element before the first one whose key is not larger,
    computes it. *)
Section Sorted.

Context {K A : Type}.
Variable ltb : K -> K -> bool.

Fixpoint insert_desc (x : K * A) (l : list (K * A)) : list (K * A) :=
  match l with
  | [] => [x]
  | y :: l' => if ltb (fst x) (fst y) then y :: insert_desc x l' else x :: l
  end.

Definition sort_keyed (l : list (K * A)) : list (K * A) :=
  fold_right insert_desc [] l.

Definition sorted_desc (key : A -> K) (l : list A) : list A :=
  map snd (sort_keyed (map (fun x => (key x, x)) l)).

End Sorted.

(** [<] on the key tuples [(timestamp or 0, priority)]. *)
Definition key_ltb (a b : Z * Z) : bool :=
  (fst a <? fst b) || ((fst a =? fst b) && (snd a <? snd b)).

(** [x.get("timestamp") or 0] *)
Definition ts_or_0 (x : status_update) : Z :=
  match timestamp x with
  | Some t => if t =? 0 then 0 else t
  | None => 0
  end.

(** The key function of the sort in [determine_latest_status]. *)
Definition sort_key (x : status_update) : exc (Z * Z) :=
  do p <- get_status_priority (status x);
  Ok (ts_or_0 x, p).

(** The keys are computed for every element, in order, before sorting. *)
Fixpoint decorate (l : list status_update) : exc (list (Z * Z * status_update)) :=
  match l with
  | [] => Ok []
  | x :: l' => do k <- sort_key x; do r <- decorate l'; Ok ((k, x) :: r)
  end.

Definition determine_latest_status (history : list status_update)
    : exc (value * option Z) :=
  match history with
  | [] => Ok (VStr "not_found", None)
  | first :: _ =>
      if forallb recipientMismatch history
      then Ok (VStr "wa_id_mismatch", timestamp first)
      else
        let valid_history :=
          List.filter (fun h => negb (recipientMismatch h)) history in
        match valid_history with
        | [] => Ok (VStr "wa_id_mismatch", timestamp first)
        | _ =>
            do keyed <- decorate valid_history;
            match sort_keyed key_ltb keyed with
            | (_, latest) :: _ => Ok (status latest, timestamp latest)
            | [] => Raise IndexError
            end
        end
  end.

(* ===================================================================== *)
(** ** Main logic: [track_message_status] *)
(* ===================================================================== *)

(** What a value contributes to the hash and equality of a tuple key:
    [True] and [1] are the same key, lists and dicts are unhashable. *)
Inductive atom : Type :=
  | ANone
  | AInt (z : Z)
  | AStr (s : string).

#[global] Instance atom_eq_dec : EqDecision atom.
Proof. solve_decision. Defined.

#[global] Instance atom_countable : Countable atom.
Proof.
  refine (inj_countable'
    (fun a => match a with
              | ANone => inl ()
              | AInt z => inr (inl z)
              | AStr s => inr (inr s)
              end)
    (fun x => match x with
              | inl _ => ANone
              | inr (inl z) => AInt z
              | inr (inr s) => AStr s
              end) _).
  by intros [].
Defined.

Definition hash_atom (v : value) : exc atom :=
  match v with
  | VNone => Ok ANone
  | VBool b => Ok (AInt (Z.b2z b))
  | VInt z => Ok (AInt z)
  | VStr s => Ok (AStr s)
  | VList _ | VDict _ => Raise TypeError
  end.

(** [(status, timestamp, recipient_id, executionId)] *)
Definition track_key : Type := atom * option Z * atom * string.

Definition unique_key (s : status_update) : exc track_key :=
  do st <- hash_atom (status s);
  do rid <- hash_atom (recipient_id s);
  Ok (st, timestamp s, rid, executionId s).

(** The deduplication loops of the program share one shape: a [seen] set
    of tuple keys, the first element of every key being kept.  Building or
    hashing a key can raise. *)
Section Dedup.

Context {K : Type} `{Countable K}.
Variable key : status_update -> exc K.

Fixpoint dedup_from (seen : gset K) (l : list status_update)
    : exc (list status_update) :=
  match l with
  | [] => Ok []
  | s :: l' =>
      do k <- key s;
      if decide (k ∈ seen) then dedup_from seen l'
      else do r <- dedup_from ({[k]} ∪ seen) l'; Ok (s :: r)
  end.

End Dedup.

(** The loop at the end of the scan in [track_message_status]. *)
Definition deduplicate_statuses (all_statuses : list status_update)
    : exc (list status_update) :=
  dedup_from unique_key ∅ all_statuses.

(** [for s in statuses: if is_terminal_status(...): found_terminal = True];
    the flag as it stands when the loop ends or raises. *)
Fixpoint check_terminal (found : bool) (statuses : list status_update)
    : bool * option exn :=
  match statuses with
  | [] => (found, None)
  | s :: rest =>
      match is_terminal_status (status s) with
      | Ok b => check_terminal (found || b) rest
      | Raise e => (found, Some e)
      end
  end.

Record track_result : Type := mkResult {
  waId : string;
  messageId : string;
  workflowId : string;
  latestStatus : value;
  latestTimestamp : option Z;
  latestTimestampFormatted : option string;
  history : list status_update;
  foundInExecutionsCount : Z
}.

Definition log_scan (execution : value) (w : world) : world :=
  {| calls := calls w; draws := draws w;
     trace := trace w ++ [EvScan execution] |}.

Section Track.

Variable session : nat -> request -> exc response.
Variable random : nat -> Q.
Variable quote : string -> string.
Variables (wa_id message_id workflow_id base_url api_prefix : string).
Variable limit : Z.
Variable since : option Z.

(** [if since: statuses = [s for s in statuses if (ts or 0) >= since]] *)
Definition since_filter (statuses : list status_update) : list status_update :=
  match since with
  | Some t =>
      if t =? 0 then statuses
      else List.filter (fun s => ts_or_0 s >=? t) statuses
  | None => statuses
  end.

(** The scan loop.  The handler of the [try] formats [execution.get('id')]
    into its warning, which raises in turn when the execution is not a
    dict. *)
Fixpoint scan_executions (executions : list value)
    (all_statuses : list status_update) (found_terminal : bool) (w : world)
    : exc (list status_update) * world :=
  match executions with
  | [] => (Ok all_statuses, w)
  | execution :: rest =>
      let w1 := log_scan execution w in
      let handler (all' : list status_update) (found' : bool) :=
        match py_get execution "id" with
        | Ok _ => scan_executions rest all' found' w1
        | Raise e => (Raise e, w1)
        end in
      match extract_status_updates execution message_id wa_id with
      | Raise _ => handler all_statuses found_terminal
      | Ok extracted =>
          match since_filter extracted with
          | [] => scan_executions rest all_statuses found_terminal w1
          | statuses =>
              let all' := all_statuses ++ statuses in
              match check_terminal found_terminal statuses with
              | (found', Some _) => handler all' found'
              | (true, None) => (Ok all', w1)
              | (false, None) => scan_executions rest all' false w1
              end
          end
      end
  end.

(** Everything after the scan: deduplication, the sort of the history,
    the latest status and the result dict. *)
Definition resolve (all_statuses : list status_update) : exc track_result :=
  do deduplicated <- deduplicate_statuses all_statuses;
  let all_statuses := sorted_desc Z.ltb ts_or_0 deduplicated in
  do latest <- determine_latest_status all_statuses;
  do formatted <- format_timestamp (snd latest);
  Ok (mkResult wa_id message_id workflow_id (fst latest) (snd latest)
        formatted all_statuses (Z.of_nat (length all_statuses))).

(** Everything after the executions have been fetched. *)
Definition reconcile (executions : list value) (w : world)
    : exc track_result * world :=
  let '(r, w1) := scan_executions executions [] false w in
  (do all_statuses <- r; resolve all_statuses, w1).

Definition track_message_status (fuel : nat) (w : world)
    : option (exc track_result * world) :=
  match fetch_executions session random quote base_url api_prefix
          workflow_id limit fuel w with
  | None => None
  | Some (Raise e, w1) => Some (Raise e, w1)
  | Some (Ok executions, w1) => Some (reconcile executions w1)
  end.

End Track.

(* ===================================================================== *)
(** ** MongoDB helpers: [deduplicate_history], [save_messages_to_mongodb] *)
(* ===================================================================== *)

(** [(status, timestamp, executionId)] *)
Definition history_key (item : status_update) : exc (atom * option Z * string) :=
  do st <- hash_atom (status item);
  Ok (st, timestamp item, executionId item).

Definition deduplicate_history (history : list status_update)
    : exc (list status_update) :=
  dedup_from history_key ∅ history.

(** The message dicts handed to the upserter; [main] and
    [list_recent_messages] build them with all seven keys. *)
Record message : Type := mkMessage {
  msg_messageId : value;
  msg_waId : value;
  msg_latestStatus : value;
  msg_latestTimestamp : option Z;
  msg_latestTimestampFormatted : option string;
  msg_statusCount : Z;
  msg_history : list status_update
}.

Definition opt_int (o : option Z) : value :=
  match o with Some z => VInt z | None => VNone end.

Definition opt_str (o : option string) : value :=
  match o with Some s => VStr s | None => VNone end.

(** A status update as the dict it is, for storage. *)
Definition event_to_value (s : status_update) : value :=
  VDict [("status", status s);
         ("timestamp", opt_int (timestamp s));
         ("timestampFormatted", opt_str (timestampFormatted s));
         ("recipient_id", recipient_id s);
         ("executionId", VStr (executionId s));
         ("recipientMismatch", VBool (recipientMismatch s))].

Definition history_to_value (h : list status_update) : value :=
  VList (map event_to_value h).

(** A stored document: field name to value. *)
Abbreviation document := (gmap string value).

(** [pymongo.UpdateOne({"messageId": id}, {"$set": ..., "$setOnInsert": ...},
    upsert=...)] *)
Record update_one : Type := UpdateOne {
  u_messageId : value;
  u_set : list (string * value);
  u_setOnInsert : list (string * value);
  u_upsert : bool
}.

Definition matches (id : value) (d : document) : bool :=
  match d !! "messageId" with
  | Some v => py_eq v id
  | None => false
  end.

(** [collection.find_one({"messageId": id})] *)
Definition find_one (coll : list document) (id : value) : option document :=
  List.find (matches id) coll.

Definition set_fields (fields : list (string * value)) (d : document) : document :=
  fold_left (fun d kv => <[fst kv := snd kv]> d) fields d.

Fixpoint update_first (id : value) (fields : list (string * value))
    (coll : list document) : option (list document) :=
  match coll with
  | [] => None
  | d :: coll' =>
      if matches id d then Some (set_fields fields d :: coll')
      else option_map (cons d) (update_first id fields coll')
  end.

(** One update of the store: the first matching document gets the [$set]
    fields; without a match and with [upsert], a document made of the
    filter, the [$set] and the [$setOnInsert] fields is added. *)
Definition apply_update (u : update_one) (coll : list document) : list document :=
  match update_first (u_messageId u) (u_set u) coll with
  | Some coll' => coll'
  | None =>
      if u_upsert u
      then coll ++ [set_fields (u_setOnInsert u)
                      (set_fields (u_set u) {[ "messageId" := u_messageId u ]})]
      else coll
  end.

(** [collection.bulk_write(updates, ordered=False)] *)
Definition bulk_write (updates : list update_one) (coll : list document)
    : list document :=
  fold_left (fun c u => apply_update u c) updates coll.

Section Save.

Variable workflow_id : string.
(** [datetime.now(RIYADH_TZ)] *)
Variable now : value.
(** The collection as [find_one] sees it during the loop. *)
Variable coll : list document.

(** The [statusHistory] and [statusCount] entries added when the message
    carries a history. *)
Definition history_fields (msg : message) : exc (list (string * value)) :=
  match msg_history msg with
  | [] => Ok []
  | h =>
      do deduplicated_history <- deduplicate_history h;
      Ok [("statusHistory", history_to_value deduplicated_history);
          ("statusCount", VInt (Z.of_nat (length deduplicated_history)))]
  end.

(** Body of [for msg in messages]: the updates it appends. *)
Definition build_update (msg : message) : exc (list update_one) :=
  let message_id := msg_messageId msg in
  if negb (truthy message_id) then Ok []
  else
    match find_one coll message_id with
    | Some existing =>
        let existing_ts := default (VInt 0) (existing !! "latestTimestamp") in
        let new_ts := opt_int (msg_latestTimestamp msg) in
        do newer <- py_gt new_ts existing_ts;
        if newer || negb (py_eq (msg_latestStatus msg)
                            (default VNone (existing !! "latestStatus")))
        then
          do hist <- history_fields msg;
          Ok [UpdateOne message_id
                ([("conversation_id", msg_waId msg);
                  ("latestStatus", msg_latestStatus msg);
                  ("latestTimestamp", opt_int (msg_latestTimestamp msg));
                  ("latestTimestampFormatted",
                     opt_str (msg_latestTimestampFormatted msg));
                  ("statusCount", VInt (msg_statusCount msg));
                  ("workflowId", VStr workflow_id);
                  ("lastUpdatedAt", now);
                  ("lastScannedAt", now)] ++ hist)
                [("firstSeenAt", default now (existing !! "firstSeenAt"))]
                true]
        else
          Ok [UpdateOne message_id [("lastScannedAt", now)] [] false]
    | None =>
        do hist <- history_fields msg;
        Ok [UpdateOne message_id []
              ([("messageId", message_id);
                ("conversation_id", msg_waId msg);
                ("latestStatus", msg_latestStatus msg);
                ("latestTimestamp", opt_int (msg_latestTimestamp msg));
                ("latestTimestampFormatted",
                   opt_str (msg_latestTimestampFormatted msg));
                ("statusCount", VInt (msg_statusCount msg));
                ("workflowId", VStr workflow_id);
                ("firstSeenAt", now);
                ("lastUpdatedAt", now);
                ("lastScannedAt", now)] ++ hist)
              true]
    end.

(** [save_messages_to_mongodb] once the client is connected: the new
    contents of the collection and the returned count.  Any exception
    raised while the updates are built is caught, nothing is written
    and 0 is returned. *)
Definition save_messages_to_mongodb (messages : list message)
    : list document * Z :=
  match eflat_map build_update messages with
  | Raise _ => (coll, 0)
  | Ok [] => (coll, 0)
  | Ok updates => (bulk_write updates coll, Z.of_nat (length updates))
  end.

End Save.


(* ===================================================================== *)
(** ** Sample data *)
(* ===================================================================== *)

(** An execution in the usual shape of a webhook run: one node, one run,
    one output slot, one item whose body carries the [statuses] array. *)
Definition webhook_execution (id : value) (statuses : list value) : value :=
  VDict
    [("id", id);
     ("data", VDict
        [("resultData", VDict
           [("runData", VDict
              [("Webhook", VList
                 [VDict
                    [("data", VDict
                       [("main", VList
                          [VList
                             [VDict
                                [("json", VDict
                                   [("body", VDict
                                      [("statuses", VList statuses)])])]]])])]])])])])].

(** A status object of a webhook body. *)
Definition status_object (id st : string) (ts : value) (recipient : string) : value :=
  VDict [("id", VStr id); ("status", VStr st); ("timestamp", ts);
         ("recipient_id", VStr recipient)].

(** Three executions, most recent first, of a message that was sent,
    delivered and read. *)
Definition execution_read : value :=
  webhook_execution (VInt 103)
    [status_object "wamid.1" "read" (VStr "1767096060") "966532127070"].

Definition execution_delivered : value :=
  webhook_execution (VInt 102)
    [status_object "wamid.1" "delivered" (VStr "1767096000") "966532127070"].

Definition execution_sent : value :=
  webhook_execution (VInt 101)
    [status_object "wamid.1" "sent" (VStr "1767095940") "966532127070"].

(** A server that answers every listing request with these three
    executions on one page. *)
Definition one_page_session (n : nat) (r : request) : exc response :=
  Ok (mkResponse 200 ""
        (Ok (VDict [("data", VList [execution_read; execution_delivered;
                                    execution_sent])]))).

(** A server that is always overloaded. *)
Definition overloaded_session (n : nat) (r : request) : exc response :=
  Ok (mkResponse 503 "busy" (Raise ValueError)).

(** A server that answers every request with two records and the same
    cursor. *)
Definition echo_session (n : nat) (r : request) : exc response :=
  Ok (mkResponse 200 ""
        (Ok (VDict [("data", VList [VDict [("id", VInt 1)]; VDict [("id", VInt 2)]]);
                    ("nextCursor", VStr "same")]))).

Definition no_quote (s : string) : string := s.

Definition no_jitter (n : nat) : Q := 0%Q.

Definition initial_world : world := mkWorld 0 0 [].

Definition listing_request : request :=
  mkRequest "GET"
    "https://n8n.example/api/v1/executions?workflowId=wf1&limit=100&includeData=true".

(** A stored document of a message last seen as sent, and an incoming
    record of the same message, now delivered, that carries no history. *)
Definition stored_sent : document :=
  <["messageId" := VStr "wamid.1"]>
  (<["latestStatus" := VStr "sent"]>
  (<["latestTimestamp" := VInt 1767095940]>
  (<["statusCount" := VInt 1]>
  (<["statusHistory" := VList [VDict [("status", VStr "sent")]]]>
  (<["firstSeenAt" := VStr "2025-12-30 14:59"]> ∅))))).


(** The status update the extractor finds in [execution_read]. *)
Definition update_read : status_update :=
  mkStatus (VStr "read") (Some 1767096060) (Some "2025-12-30 15:01")
    (VStr "966532127070") "103" false.

Definition update_delivered : status_update :=
  mkStatus (VStr "delivered") (Some 1767096000) (Some "2025-12-30 15:00")
    (VStr "966532127070") "102" false.

(** The same delivery as reported to another recipient. *)
Definition update_other_recipient : status_update :=
  mkStatus (VStr "delivered") (Some 1767096000) (Some "2025-12-30 15:00")
    (VStr "966500000000") "102" true.

Definition incoming_read : message :=
  mkMessage (VStr "wamid.1") (VStr "966532127070") (VStr "read")
    (Some 1767096060) (Some "2025-12-30 15:01") 3
    [update_read; update_delivered; update_other_recipient].

(* ===================================================================== *)
(** ** [retry_failed_executions.py] *)
(* ===================================================================== *)

(** [200 <= resp.status_code < 300] *)
Definition is_success (resp : response) : bool :=
  (200 <=? status_code resp) && (status_code resp <? 300).

Record retry_summary : Type := mkSummary {
  s_tried : Z;
  s_ok : Z;
  s_fail : Z
}.

Section RetryScript.

(** Here the body of a request matters, so the session also receives the
    [json] argument. *)
Variable session : nat -> request -> value -> exc response.
Variable random : nat -> Q.
Variable quote : string -> string.
Variables (base_url api_prefix : string).

(** [request_with_retry(session, method, url, ..., json_body=body)]; the
    script has its own copy of the function, the same text as the one of
    the tracker. *)
Definition request_with_body (method url : string) (json_body : value)
    (w : world) : exc response * world :=
  request_with_retry (fun n r => session n r json_body) random
    default_max_retries (mkRequest method url) w.

Definition failed_executions_url (workflow_id : string) (limit : Z)
    (cursor : value) : exc string :=
  let q := "status=" +:+ quote "error"
           +:+ "&workflowId=" +:+ quote workflow_id
           +:+ "&limit=" +:+ quote (pretty limit)
           +:+ "&includeData=" +:+ quote "false" in
  do q' <- (if truthy cursor
            then do c <- quote_value quote cursor; Ok (q +:+ "&cursor=" +:+ c)
            else Ok q);
  Ok (rstrip_slash base_url +:+ api_prefix +:+ "/executions?" +:+ q').

(** One iteration of [while True] up to the assignment of [cursor]. *)
Definition failed_page (workflow_id : string) (limit : Z) (cursor : value)
    (w : world) : exc (value * list value * value) * world :=
  match failed_executions_url workflow_id limit cursor with
  | Raise e => (Raise e, w)
  | Ok url =>
      let '(r, w1) := request_with_body "GET" url VNone w in
      (do resp <- r;
       if negb (status_code resp =? 200)
       then Raise (RuntimeError ("List executions failed (" +:+ workflow_id +:+ "): "
                                 +:+ pretty (status_code resp) +:+ " " +:+ text resp))
       else
         do data <- json resp;
         do d1 <- py_get data "data";
         do batch <- (if truthy d1 then Ok d1
                      else do d2 <- py_get data "executions";
                           Ok (py_or d2 (VList [])));
         do items <- py_iter batch;
         do c <- py_get data "nextCursor";
         Ok (batch, items, py_or c VNone),
       w1)
  end.

(** The [while True] loop of [list_failed_executions]; [None] when the
    fuel runs out before the loop ends. *)
Fixpoint failed_loop (workflow_id : string) (limit : Z) (fuel : nat)
    (out : list value) (cursor : value) (w : world)
    : option (exc (list value) * world) :=
  match fuel with
  | O => None
  | S fuel' =>
      match failed_page workflow_id limit cursor w with
      | (Raise e, w1) => Some (Raise e, w1)
      | (Ok (batch, items, cursor'), w1) =>
          if negb (truthy cursor') || negb (truthy batch)
          then Some (Ok (out ++ items), w1)
          else failed_loop workflow_id limit fuel' (out ++ items) cursor' w1
      end
  end.

Definition list_failed_executions (workflow_id : string) (limit : Z)
    (fuel : nat) (w : world) : option (exc (list value) * world) :=
  failed_loop workflow_id limit fuel [] VNone w.

(** [retry_execution] *)
Definition retry_execution (execution_id : string) (load_workflow : bool)
    (w : world) : exc bool * world :=
  let url := rstrip_slash base_url +:+ api_prefix +:+ "/executions/"
             +:+ execution_id +:+ "/retry" in
  let body := VDict [("loadWorkflow", VBool load_workflow)] in
  let '(r, w1) := request_with_body "POST" url body w in
  match r with
  | Raise e => (Raise e, w1)
  | Ok resp =>
      if existsb (Z.eqb (status_code resp)) [400; 404; 422]
      then
        let '(r2, w2) := request_with_body "POST" url (VDict []) w1 in
        (do resp2 <- r2; Ok (is_success resp2), w2)
      else (Ok (is_success resp), w1)
  end.

(** [time.sleep(sleep_ms / 1000.0)], which refuses a negative length. *)
Definition sleep_ms_after (sleep_ms : Z) (w : world) : exc world :=
  if sleep_ms =? 0 then Ok w
  else if sleep_ms <? 0 then Raise ValueError
  else Ok {| calls := calls w; draws := draws w;
             trace := trace w ++ [EvSleep (inject_Z sleep_ms / 1000)%Q] |}.

(** [str(e.get("id") or e.get("executionId") or "")] *)
Definition execution_id_of (e : value) : exc string :=
  do a <- py_get e "id";
  if truthy a then Ok (py_str a)
  else do b <- py_get e "executionId"; Ok (py_str (py_or b (VStr ""))).

(** The [for e in executions] loop of [run_for_workflow], with its three
    counters. *)
Fixpoint retry_all (max_exec sleep_ms : Z) (load_workflow : bool)
    (executions : list value) (tried ok failed : Z) (w : world)
    : exc retry_summary * world :=
  match executions with
  | [] => (Ok (mkSummary tried ok failed), w)
  | e :: rest =>
      if negb (max_exec =? 0) && (tried >=? max_exec)
      then (Ok (mkSummary tried ok failed), w)
      else
        match execution_id_of e with
        | Raise ex => (Raise ex, w)
        | Ok exec_id =>
            if String.eqb exec_id "" then
              retry_all max_exec sleep_ms load_workflow rest tried ok failed w
            else
              let '(r, w1) := retry_execution exec_id load_workflow w in
              let ok' := match r with Ok true => ok + 1 | _ => ok end in
              let failed' := match r with Ok true => failed | _ => failed + 1 end in
              match sleep_ms_after sleep_ms w1 with
              | Raise ex => (Raise ex, w1)
              | Ok w2 =>
                  retry_all max_exec sleep_ms load_workflow rest
                    (tried + 1) ok' failed' w2
              end
        end
  end.

(** [run_for_workflow]: the summary it prints. *)
Definition run_for_workflow (workflow_id : string) (limit max_exec : Z)
    (load_workflow : bool) (sleep_ms : Z) (fuel : nat) (w : world)
    : option (exc retry_summary * world) :=
  match list_failed_executions workflow_id limit fuel w with
  | None => None
  | Some (Raise e, w1) => Some (Raise e, w1)
  | Some (Ok executions, w1) =>
      Some (retry_all max_exec sleep_ms load_workflow executions 0 0 0 w1)
  end.

End RetryScript.

(* ===================================================================== *)
(** ** Main logic: [list_recent_messages] *)
(* ===================================================================== *)

(** The dict appended to [all_statuses] in list mode. *)
Record listed_status : Type := mkListed {
  ls_messageId : value;
  ls_waId : value;
  ls_status : value;
  ls_timestamp : option Z;
  ls_timestampFormatted : option string;
  ls_executionId : string
}.

(** The dict built for every message. *)
Record listed_message : Type := mkListedMessage {
  lm_messageId : value;
  lm_waId : value;
  lm_latestStatus : value;
  lm_latestTimestamp : option Z;
  lm_latestTimestampFormatted : option string;
  lm_statusCount : Z;
  lm_history : list listed_status
}.

Record list_result : Type := mkListResult {
  lr_workflowId : string;
  lr_filterWaId : option string;
  lr_totalMessages : Z;
  lr_messages : list listed_message
}.

(** Loops that append to a list shared with the handler of the enclosing
    [try]: what was appended before an exception stays. *)
Fixpoint pflat_map {A B : Type} (f : A -> list B * option exn) (l : list A)
    : list B * option exn :=
  match l with
  | [] => ([], None)
  | x :: xs =>
      match f x with
      | (r, Some e) => (r, Some e)
      | (r, None) => let '(rs, oe) := pflat_map f xs in (r ++ rs, oe)
      end
  end.

(** A step that raises before it appends anything. *)
Definition pbind {A B : Type} (m : exc A) (k : A -> list B * option exn)
    : list B * option exn :=
  match m with
  | Ok a => k a
  | Raise e => ([], Some e)
  end.

(** [o or 0] on an optional integer. *)
Definition opt_or_0 (o : option Z) : Z :=
  match o with
  | Some t => if t =? 0 then 0 else t
  | None => 0
  end.

(** [l[:n]] *)
Definition py_slice_to {A : Type} (l : list A) (n : Z) : list A :=
  if n >=? 0 then firstn (Z.to_nat n) l
  else firstn (Z.to_nat (Z.of_nat (length l) + n)) l.

Section Listing.

Variable wa_id : option string.
Variable since : option Z.

(** [since and (timestamp or 0) < since] *)
Definition too_old (ts : option Z) : bool :=
  match since with
  | Some t => negb (t =? 0) && (opt_or_0 ts <? t)
  | None => false
  end.

(** [wa_id and recipient_id and recipient_id != wa_id] *)
Definition other_recipient (rid : value) : bool :=
  match wa_id with
  | Some w => negb (String.eqb w "") && truthy rid && negb (py_eq rid (VStr w))
  | None => false
  end.

Section ListingOfExecution.

Variable execution_id : string.

(** Body of [for status_obj in statuses]. *)
Definition list_status (status_obj : value) : list listed_status * option exn :=
  if negb (isinstance_dict status_obj) then ([], None)
  else
    pbind (py_get_default status_obj "id" (VStr "")) (fun msg_id =>
    if negb (truthy msg_id) then ([], None)
    else
      pbind (py_get_default status_obj "status" (VStr "unknown")) (fun st =>
      pbind (py_get status_obj "timestamp") (fun raw_ts =>
      let ts := normalize_timestamp raw_ts in
      pbind (py_get status_obj "recipient_id") (fun rid =>
      if too_old ts then ([], None)
      else if other_recipient rid then ([], None)
      else
        pbind (format_timestamp ts) (fun formatted =>
        ([mkListed msg_id rid st ts formatted execution_id], None)))))).

(** Body of [for item in main_item]. *)
Definition list_item (item : value) : list listed_status * option exn :=
  if negb (isinstance_dict item) then ([], None)
  else
    pbind (py_get_default item "json" (VDict [])) (fun j =>
    pbind (py_get j "body") (fun b =>
    let body := py_or b j in
    let body := match body with VList (x :: _) => x | _ => body end in
    pbind (py_get body "statuses") (fun s =>
    match py_or s (VList []) with
    | VList statuses => pflat_map list_status statuses
    | _ => ([], None)
    end))).

(** Body of [for main_item in main_data]. *)
Definition list_main_item (main_item : value) : list listed_status * option exn :=
  match main_item with
  | VList items => pflat_map list_item items
  | _ => ([], None)
  end.

(** Body of [for run in node_runs]. *)
Definition list_run (run : value) : list listed_status * option exn :=
  if negb (isinstance_dict run) then ([], None)
  else
    pbind (py_get_default run "data" (VDict [])) (fun d =>
    pbind (py_get d "main") (fun m =>
    pbind (py_iter (py_or m (VList []))) (fun main_data =>
    pflat_map list_main_item main_data))).

(** Body of [for node_name, node_runs in run_data.items()]. *)
Definition list_node (node : string * value) : list listed_status * option exn :=
  match snd node with
  | VList node_runs => pflat_map list_run node_runs
  | _ => ([], None)
  end.

End ListingOfExecution.

(** Body of the [try] for one execution: the statuses appended, and the
    exception that ended it, if any. *)
Definition collect_execution (execution : value) : list listed_status * option exn :=
  pbind (py_get_default execution "id" (VStr "unknown")) (fun id =>
  let execution_id := py_str id in
  pbind (py_get execution "data") (fun d1 =>
  pbind (if truthy d1 then Ok d1
         else do d2 <- py_get execution "executionData";
              Ok (py_or d2 (VDict []))) (fun exec_data =>
  pbind (py_get exec_data "resultData") (fun rd =>
  pbind (py_get (py_or rd (VDict [])) "runData") (fun rn =>
  pbind (py_items (py_or rn (VDict []))) (fun nodes =>
  pflat_map (list_node execution_id) nodes)))))).

(** [for execution in executions]; the handler formats
    [execution.get('id')] into its warning. *)
Fixpoint collect_statuses (executions : list value) : exc (list listed_status) :=
  match executions with
  | [] => Ok []
  | execution :: rest =>
      match collect_execution execution with
      | (found, None) => do r <- collect_statuses rest; Ok (found ++ r)
      | (found, Some _) =>
          do _id <- py_get execution "id";
          do r <- collect_statuses rest; Ok (found ++ r)
      end
  end.

End Listing.

(** [messages_map]: a dict in insertion order; the key object of an entry
    is the one it was created with, keys are compared as they hash. *)
Definition same_key (a : atom) (k : value) : bool :=
  match hash_atom k with
  | Ok b => bool_decide (a = b)
  | Raise _ => false
  end.

Fixpoint group_add (a : atom) (s : listed_status)
    (m : list (value * list listed_status)) : list (value * list listed_status) :=
  match m with
  | [] => [(ls_messageId s, [s])]
  | (k, l) :: m' =>
      if same_key a k then (k, l ++ [s]) :: m'
      else (k, l) :: group_add a s m'
  end.

(** [for status in all_statuses: ... messages_map[msg_id].append(status)] *)
Fixpoint group_from (m : list (value * list listed_status))
    (all_statuses : list listed_status)
    : exc (list (value * list listed_status)) :=
  match all_statuses with
  | [] => Ok m
  | s :: rest =>
      do a <- hash_atom (ls_messageId s);
      group_from (group_add a s m) rest
  end.

(** The key function of the sort of one message's statuses. *)
Definition listed_key (x : listed_status) : exc (Z * Z) :=
  do p <- get_status_priority (ls_status x);
  Ok (opt_or_0 (ls_timestamp x), p).

Fixpoint decorate_listed (l : list listed_status)
    : exc (list (Z * Z * listed_status)) :=
  match l with
  | [] => Ok []
  | x :: l' => do k <- listed_key x; do r <- decorate_listed l'; Ok ((k, x) :: r)
  end.

(** Body of [for msg_id, statuses in messages_map.items()]. *)
Definition build_message (entry : value * list listed_status) : exc listed_message :=
  do keyed <- decorate_listed (snd entry);
  match sort_keyed key_ltb keyed with
  | (_, latest) :: _ =>
      Ok (mkListedMessage (fst entry) (ls_waId latest) (ls_status latest)
            (ls_timestamp latest) (ls_timestampFormatted latest)
            (Z.of_nat (length (snd entry)))
            (map snd (sort_keyed key_ltb keyed)))
  | [] => Raise IndexError
  end.

Fixpoint build_messages (entries : list (value * list listed_status))
    : exc (list listed_message) :=
  match entries with
  | [] => Ok []
  | e :: rest => do m <- build_message e; do r <- build_messages rest; Ok (m :: r)
  end.

(** Everything after the executions have been fetched. *)
Definition summarize (wa_id : option string) (workflow_id : string)
    (max_messages : Z) (since : option Z) (executions : list value)
    : exc list_result :=
  do all_statuses <- collect_statuses wa_id since executions;
  do messages_map <- group_from [] all_statuses;
  do messages <- build_messages messages_map;
  let messages :=
    sorted_desc Z.ltb (fun m => opt_or_0 (lm_latestTimestamp m)) messages in
  Ok (mkListResult workflow_id wa_id (Z.of_nat (length messages_map))
        (py_slice_to messages max_messages)).

Definition list_recent_messages
    (session : nat -> request -> exc response) (random : nat -> Q)
    (quote : string -> string) (wa_id : option string)
    (workflow_id base_url api_prefix : string) (limit max_messages : Z)
    (since : option Z) (fuel : nat) (w : world)
    : option (exc list_result * world) :=
  match fetch_executions session random quote base_url api_prefix
          workflow_id limit fuel w with
  | None => None
  | Some (Raise e, w1) => Some (Raise e, w1)
  | Some (Ok executions, w1) =>
      Some (summarize wa_id workflow_id max_messages since executions, w1)
  end.

(* ===================================================================== *)
(** ** Environment and configuration helpers *)
(* ===================================================================== *)

(** [os.environ] *)
Abbreviation environ := (gmap string string).

















(* ===================================================================== *)
(** ** [main]: saving a tracked message *)
(* ===================================================================== *)



(* ===================================================================== *)
(** ** Notions used in the statements *)
(* ===================================================================== *)


(** What holds of every status update built for an execution. *)
Definition well_formed_update (wa_id execution_id : string) (u : status_update)
    : Prop :=
  executionId u = execution_id /\
  recipientMismatch u =
    truthy (recipient_id u) && negb (py_eq (recipient_id u) (VStr wa_id)) /\
  format_timestamp (timestamp u) = Ok (timestampFormatted u).

(** A status update passes the [since] filter. *)
Definition passes_since (since : option Z) (u : status_update) : Prop :=
  match since with
  | Some t => t = 0 \/ t <= default 0 (timestamp u)
  | None => True
  end.

(** A status update comes from one of the executions of [source] and
    passes the [since] filter. *)
Definition extracted_from (wa_id message_id : string) (since : option Z)
    (source : list value) (u : status_update) : Prop :=
  exists execution updates,
    In execution source /\
    extract_status_updates execution message_id wa_id = Ok updates /\
    In u updates /\ passes_since since u.

(** No document of the collection has the messageId of a document stored
    before it. *)
Fixpoint unique_ids (coll : list document) : Prop :=
  match coll with
  | [] => True
  | d :: rest =>
      Forall (fun x => forall v, x !! "messageId" = Some v -> matches v d = false)
        rest /\
      unique_ids rest
  end.

(** An update that neither rewrites a messageId nor inserts a document
    under another messageId than the one it filters on. *)
Definition keeps_id (u : update_one) : Prop :=
  ~ In "messageId" (map fst (u_set u)) /\
  Forall (fun kv => fst kv = "messageId" -> snd kv = u_messageId u)
    (u_setOnInsert u).

(** What holds of every status collected in list mode: it names a
    message, passes the [since] and recipient filters, and its formatted
    timestamp is the formatting of its timestamp. *)
Definition listed_ok (wa_id : option string) (since : option Z)
    (s : listed_status) : Prop :=
  truthy (ls_messageId s) = true /\
  too_old since (ls_timestamp s) = false /\
  other_recipient wa_id (ls_waId s) = false /\
  format_timestamp (ls_timestamp s) = Ok (ls_timestampFormatted s).

(** The collected statuses whose message id hashes to [a], in the order
    collected. *)
Definition statuses_of (a : atom) (all_statuses : list listed_status)
    : list listed_status :=
  List.filter (fun s => same_key a (ls_messageId s)) all_statuses.

(** An entry of [messages_map] once the statuses [pre] have been grouped:
    its list holds the statuses of its key, in the order collected. *)
Definition group_entry_ok (pre : list listed_status)
    (e : value * list listed_status) : Prop :=
  exists b, hash_atom (fst e) = Ok b /\
    snd e = statuses_of b pre /\
    snd e <> [].

(** The order of a message's history: the newer timestamp first, an absent
    timestamp counting as 0; at equal timestamps the higher priority
    first. *)
Definition listed_before (a b : listed_status) : Prop :=
  exists pa pb,
    get_status_priority (ls_status a) = Ok pa /\
    get_status_priority (ls_status b) = Ok pb /\
    (opt_or_0 (ls_timestamp b) < opt_or_0 (ls_timestamp a) \/
     (opt_or_0 (ls_timestamp b) = opt_or_0 (ls_timestamp a) /\ pb <= pa)).

(** What holds of a message of the listing built from the collected
    statuses [all_statuses]. *)
Definition message_ok (all_statuses : list listed_status)
    (m : listed_message) : Prop :=
  exists a latest rest,
    hash_atom (lm_messageId m) = Ok a /\
    lm_history m = latest :: rest /\
    Permutation (lm_history m) (statuses_of a all_statuses) /\
    StronglySorted listed_before (lm_history m) /\
    lm_statusCount m = Z.of_nat (length (lm_history m)) /\
    lm_waId m = ls_waId latest /\
    lm_latestStatus m = ls_status latest /\
    lm_latestTimestamp m = ls_timestamp latest /\
    lm_latestTimestampFormatted m = ls_timestampFormatted latest.

(* ===================================================================== *)
(** ** Further sample data *)
(* ===================================================================== *)

(** A server that refuses the API key. *)
Definition unauthorized_session (n : nat) (r : request) : exc response :=
  Ok (mkResponse 401 "unauthorized" (Raise ValueError)).

(** Servers as the retry script sees them: one that accepts every request,
    one that answers every request with two records and the same cursor. *)
Definition accepting_session (n : nat) (r : request) (body : value)
    : exc response :=
  Ok (mkResponse 200 "" (Ok (VDict []))).

Definition endless_session (n : nat) (r : request) (body : value)
    : exc response :=
  echo_session n r.


(** An incoming record of the stored message that carries no timestamp. *)
Definition incoming_undated : message :=
  mkMessage (VStr "wamid.1") (VStr "966532127070") (VStr "delivered")
    None None 0 [].



(* ===================================================================== *)
(** * Properties *)
(* ===================================================================== *)

(** ** The retry loop *)

Section HttpFacts.

Variable session : nat -> request -> exc response.
Variable random : nat -> Q.

Lemma failed_rounds_S req attempt d0 m :
  failed_rounds random req attempt d0 (S m) =
  [EvRequest req; EvSleep (backoff attempt (random d0))]
  ++ failed_rounds random req (attempt + 1) (S d0) m.
Proof.
  unfold failed_rounds. cbn [seq flat_map].
  rewrite Z.add_0_r, Nat.add_0_r. f_equal. 
  rewrite <- seq_shift, flat_map_concat_map, map_map, <- flat_map_concat_map.
  apply flat_map_ext. intros k.
  replace (attempt + 1 + Z.of_nat k) with (attempt + Z.of_nat (S k)) by lia.
  replace (S d0 + k)%nat with (d0 + S k)%nat by lia. reflexivity.
Qed.

Lemma retry_from_spec req max_retries :
  forall (n : nat) (attempt : Z) (w : world),
    Z.of_nat n = max_retries - attempt + 1 -> (0 < n)%nat ->
    exists m : nat,
      (m < n)%nat /\
      (forall k, (k < m)%nat ->
         exists e, classify (session (calls w + k) req) = Raise e) /\
      (forall e, classify (session (calls w + m) req) = Raise e -> S m = n) /\
      retry_from session random n attempt max_retries req w =
        (classify (session (calls w + m) req),
         {| calls := calls w + S m; draws := draws w + m;
            trace := trace w ++ failed_rounds random req attempt (draws w) m
                             ++ [EvRequest req] |}).
Proof.
  induction n as [|n IH]; intros attempt w Hn Hpos; [lia|].
  cbn [retry_from attempt_once].
  destruct (classify (session (calls w) req)) as [resp|e] eqn:Hc.
  - exists 0%nat. rewrite !Nat.add_0_r, Hc. 
    split; [lia|]. split; [intros; lia|]. split; [discriminate|].
    do 2 f_equal. lia. 
  - destruct (Z.eqb_spec attempt max_retries) as [->|Hne].
    + exists 0%nat. rewrite !Nat.add_0_r, Hc.
      split; [lia|]. split; [intros; lia|]. split; [intros; lia|].
      do 2 f_equal. lia. 
    + destruct (IH (attempt + 1) (sleep_after random attempt
                 {| calls := S (calls w); draws := draws w;
                    trace := trace w ++ [EvRequest req] |}))
        as (m & Hm & Hfail & Hlast & Heq); [lia | lia |].
      cbn [calls draws trace sleep_after] in *.
      exists (S m).
      replace (calls w + S m)%nat with (S (calls w) + m)%nat by lia.
      split; [lia|]. split; [|split].
      * intros [|k] Hk.
        -- rewrite Nat.add_0_r. eauto.
        -- replace (calls w + S k)%nat with (S (calls w) + k)%nat by lia.
           apply Hfail. lia.
      * intros e' He'. f_equal. eauto.
      * rewrite Heq. f_equal. f_equal; [lia | lia |].
        rewrite failed_rounds_S. rewrite <- !app_assoc. reflexivity.
Qed.

End HttpFacts.

Lemma sleeps_of_app t1 t2 : sleeps_of (t1 ++ t2) = sleeps_of t1 ++ sleeps_of t2.
Proof. apply flat_map_app. Qed.

Lemma requests_of_app t1 t2 : requests_of (t1 ++ t2) = requests_of t1 ++ requests_of t2.
Proof. apply flat_map_app. Qed.

Lemma scans_of_app t1 t2 : scans_of (t1 ++ t2) = scans_of t1 ++ scans_of t2.
Proof. apply flat_map_app. Qed.

Lemma sleeps_of_failed_rounds random req attempt d0 m :
  sleeps_of (failed_rounds random req attempt d0 m) =
  map (fun k => backoff (attempt + Z.of_nat k) (random (d0 + k)%nat)) (seq 0 m).
Proof.
  unfold failed_rounds. induction (seq 0 m) as [|k l IH]; [reflexivity|].
  cbn [flat_map map]. rewrite sleeps_of_app, IH. reflexivity.
Qed.

Lemma requests_of_failed_rounds random req attempt d0 m :
  requests_of (failed_rounds random req attempt d0 m) = repeat req m.
Proof.
  unfold failed_rounds. generalize 0%nat.
  induction m as [|m IH]; intros s; [reflexivity|].
  cbn [seq flat_map repeat]. rewrite requests_of_app, IH. reflexivity.
Qed.

Lemma scans_of_failed_rounds random req attempt d0 m :
  scans_of (failed_rounds random req attempt d0 m) = [].
Proof.
  unfold failed_rounds. induction (seq 0 m) as [|k l IH]; [reflexivity|].
  cbn [flat_map]. rewrite scans_of_app, IH. reflexivity.
Qed.






(** ** The pagination loop *)

Section FetchFacts.

Variable session : nat -> request -> exc response.
Variable random : nat -> Q.
Variable quote : string -> string.
Variables (base_url api_prefix workflow_id : string).
Variable limit : Z.

Local Abbreviation page :=
  (fetch_page session random quote base_url api_prefix workflow_id limit).
Local Abbreviation loop :=
  (fetch_loop session random quote base_url api_prefix workflow_id limit).
Local Abbreviation fetch :=
  (fetch_executions session random quote base_url api_prefix workflow_id limit).

Lemma truthy_iter_nonempty batch items :
  truthy batch = true -> py_iter batch = Ok items -> (1 <= length items)%nat.
Proof.
  destruct batch as [| b | z | s | l | d]; cbn; try discriminate.
  - destruct s as [|c s]; [discriminate|]. intros _ [= <-]. cbn. lia.
  - destruct l; [discriminate|]. intros _ [= <-]. cbn. lia.
  - destruct d; [discriminate|]. intros _ [= <-]. cbn. lia.
Qed.

Lemma request_with_retry_calls req w :
  (calls (snd (request_with_retry session random default_max_retries req w))
     <= calls w + 5)%nat.
Proof.
  destruct (retry_from_spec session random req default_max_retries 5 1 w)
    as (m & Hm & _ & _ & Heq); [reflexivity | lia |].
  unfold request_with_retry. change (Z.to_nat default_max_retries) with 5%nat.
  rewrite Heq. cbn. lia.
Qed.

Lemma fetch_page_calls cursor fetched w :
  (calls (snd (page cursor fetched w)) <= calls w + 5)%nat.
Proof.
  unfold fetch_page.
  destruct (executions_url _ _ _ _ _ _) as [url|e]; [|cbn; lia].
  pose proof (request_with_retry_calls (mkRequest "GET" url) w) as Hc.
  destruct (request_with_retry _ _ _ _ _) as [r w1]. exact Hc.
Qed.

(** A page that lets the loop go on has brought at least one record. *)
Lemma fetch_page_items cursor fetched w batch items cursor' w1 :
  page cursor fetched w = (Ok (batch, items, cursor'), w1) ->
  py_iter batch = Ok items.
Proof.
  unfold fetch_page.
  destruct (executions_url _ _ _ _ _ _) as [url|e]; [|discriminate].
  destruct (request_with_retry _ _ _ _ _) as [[resp|e] w2]; [|discriminate].
  cbn [ebind]. destruct (negb _); [discriminate|].
  destruct (json resp) as [data|e]; [|discriminate]. cbn [ebind].
  destruct (py_get data "data") as [d1|e]; [|discriminate]. cbn [ebind].
  destruct (if truthy d1 then _ else _) as [b|e]; [|discriminate]. cbn [ebind].
  destruct (py_iter b) as [its|e] eqn:Hit; [|discriminate]. cbn [ebind].
  destruct (py_get data "nextCursor") as [c|e]; [|discriminate]. cbn [ebind].
  intros [= <- <- _ _]. exact Hit.
Qed.

Lemma fetch_loop_terminates :
  forall (fuel : nat) out cursor fetched w,
    limit - fetched <= Z.of_nat fuel ->
    exists r w',
      loop fuel out cursor fetched w = Some (r, w') /\
      (calls w' <= calls w + 5 * fuel)%nat.
Proof.
  induction fuel as [|fuel IH]; intros out cursor fetched w Hfuel.
  - exists (Ok out), w. cbn [fetch_loop].
    destruct (Z.ltb_spec fetched limit); [lia|]. cbn. split; [reflexivity | lia].
  - cbn [fetch_loop].
    destruct (Z.ltb_spec fetched limit) as [Hlt|Hge]; cbn [negb];
      [|exists (Ok out), w; split; [reflexivity | lia]].
    pose proof (fetch_page_calls cursor fetched w) as Hc.
    destruct (page cursor fetched w) as [[[[batch items] cursor']|e] w1] eqn:Hp;
      cbn [snd] in Hc; [|exists (Raise e), w1; split; [reflexivity | lia]].
    destruct (truthy cursor') eqn:Hcur; cbn [negb orb];
      [|exists (Ok (out ++ items)), w1; split; [reflexivity | lia]].
    destruct (truthy batch) eqn:Hb; cbn [negb];
      [|exists (Ok (out ++ items)), w1; split; [reflexivity | lia]].
    pose proof (truthy_iter_nonempty _ _ Hb (fetch_page_items _ _ _ _ _ _ _ Hp)) as Hlen.
    destruct (IH (out ++ items) cursor' (fetched + py_len items) w1)
      as (r & w' & Heq & Hcalls); [unfold py_len; lia|].
    exists r, w'. split; [exact Heq | lia].
Qed.

Lemma fetch_loop_fuel_mono :
  forall (fuel fuel' : nat) out cursor fetched w x,
    loop fuel out cursor fetched w = Some x -> (fuel <= fuel')%nat ->
    loop fuel' out cursor fetched w = Some x.
Proof.
  induction fuel as [|fuel IH]; intros fuel' out cursor fetched w x Hx Hle.
  - cbn [fetch_loop] in Hx. destruct fuel'; cbn [fetch_loop];
      destruct (negb (fetched <? limit)); congruence.
  - destruct fuel' as [|fuel']; [lia|]. cbn [fetch_loop] in *.
    destruct (negb (fetched <? limit)); [exact Hx|].
    destruct (page cursor fetched w) as [[[[batch items] cursor']|e] w1];
      [|exact Hx].
    destruct (negb (truthy cursor') || negb (truthy batch)); [exact Hx|].
    apply (IH fuel'); [exact Hx | lia].
Qed.

Lemma slice_to_length out n :
  0 <= n -> Z.of_nat (length (slice_to out n)) <= n.
Proof.
  intros Hn. unfold slice_to. destruct (Z.geb_spec n 0); [|lia].
  rewrite length_firstn. lia.
Qed.

End FetchFacts.

(** C5: for every target count and every behaviour of the server, also one
    that repeats the same cursor with non-empty pages forever, the
    pagination loop of [fetch_executions] ends within [limit] iterations
    (so [limit] units of fuel, or any larger amount, give the same result,
    after at most [5 * limit] calls of the session); it leaves the loop
    without a request once [fetched] has reached [limit], and right after
    a page that has no next cursor or no records; and the list it returns
    has at most [limit] elements. *)
Theorem fetch_executions_terminates
    (session : nat -> request -> exc response) (random : nat -> Q)
    (quote : string -> string) (base_url api_prefix workflow_id : string)
    (limit : Z) (w : world) :
  (exists r w',
     (forall fuel, (Z.to_nat limit <= fuel)%nat ->
        fetch_executions session random quote base_url api_prefix workflow_id
          limit fuel w = Some (r, w')) /\
     (calls w' <= calls w + 5 * Z.to_nat limit)%nat /\
     (forall out, r = Ok out -> Z.of_nat (length out) <= Z.max 0 limit)) /\
  (forall fuel out cursor fetched w0,
     limit <= fetched ->
     fetch_loop session random quote base_url api_prefix workflow_id limit
       fuel out cursor fetched w0 = Some (Ok out, w0)) /\
  (forall fuel out cursor fetched w0 batch items cursor' w1,
     fetched < limit ->
     fetch_page session random quote base_url api_prefix workflow_id limit
       cursor fetched w0 = (Ok (batch, items, cursor'), w1) ->
     truthy cursor' = false \/ truthy batch = false ->
     fetch_loop session random quote base_url api_prefix workflow_id limit
       (S fuel) out cursor fetched w0 = Some (Ok (out ++ items), w1)).
Proof.
  split; [|split].
  - destruct (fetch_loop_terminates session random quote base_url api_prefix
                workflow_id limit (Z.to_nat limit) [] VNone 0 w)
      as (r & w' & Heq & Hcalls); [lia|].
    assert (Hall : forall fuel, (Z.to_nat limit <= fuel)%nat ->
              fetch_loop session random quote base_url api_prefix workflow_id
                limit fuel [] VNone 0 w = Some (r, w')).
    { intros fuel Hle. eapply fetch_loop_fuel_mono; eauto. }
    destruct r as [out|e].
    + exists (Ok (slice_to out limit)), w'. split; [|split].
      * intros fuel Hle. unfold fetch_executions. rewrite (Hall fuel Hle). reflexivity.
      * exact Hcalls.
      * intros out' [= <-]. destruct (Z.le_gt_cases 0 limit) as [Hpos|Hneg].
        -- pose proof (slice_to_length out limit Hpos). lia.
        -- specialize (Hall 0%nat ltac:(lia)). cbn [fetch_loop] in Hall.
           destruct (Z.ltb_spec 0 limit); [lia|]. cbn in Hall.
           injection Hall as <- _. unfold slice_to.
           destruct (limit >=? 0); rewrite firstn_nil; cbn [length]; lia.
    + exists (Raise e), w'. split; [|split].
      * intros fuel Hle. unfold fetch_executions. rewrite (Hall fuel Hle). reflexivity.
      * exact Hcalls.
      * discriminate.
  - intros fuel out cursor fetched w0 Hge.
    destruct fuel; cbn [fetch_loop]; destruct (Z.ltb_spec fetched limit);
      first [lia | reflexivity].
  - intros fuel out cursor fetched w0 batch items cursor' w1 Hlt Hp Hstop.
    cbn [fetch_loop]. destruct (Z.ltb_spec fetched limit); [|lia]. cbn [negb].
    rewrite Hp. destruct Hstop as [-> | ->]; cbn [negb orb]; [reflexivity|].
    rewrite orb_true_r. reflexivity.
Qed.

(** ** The stable descending sort *)

Section SortedFacts.

Context {K A : Type}.
Variable ltb : K -> K -> bool.
Hypothesis ltb_asym : forall a b, ltb a b = true -> ltb b a = false.
Hypothesis ltb_cotrans :
  forall a b c, ltb a b = false -> ltb b c = false -> ltb a c = false.

Lemma insert_desc_perm (x : K * A) l : Permutation (insert_desc ltb x l) (x :: l).
Proof.
  induction l as [|y l IH]; cbn [insert_desc]; [reflexivity|].
  destruct (ltb (fst x) (fst y)); [|reflexivity].
  rewrite IH. apply perm_swap.
Qed.

Lemma sort_keyed_perm (l : list (K * A)) : Permutation (sort_keyed ltb l) l.
Proof.
  induction l as [|x l IH]; cbn [sort_keyed fold_right]; [reflexivity|].
  rewrite insert_desc_perm. constructor. exact IH.
Qed.

Lemma sorted_desc_perm (key : A -> K) (l : list A) :
  Permutation (sorted_desc ltb key l) l.
Proof.
  unfold sorted_desc. rewrite sort_keyed_perm, map_map. cbn [snd].
  rewrite map_id. reflexivity.
Qed.

(** The head of the sorted list is the first element, in input order,
    among those whose key no other key exceeds. *)
Lemma sort_keyed_head (x : K * A) (l : list (K * A)) :
  exists top rest l1 l2,
    sort_keyed ltb (x :: l) = top :: rest /\
    x :: l = l1 ++ top :: l2 /\
    Forall (fun y => ltb (fst y) (fst top) = true) l1 /\
    Forall (fun y => ltb (fst top) (fst y) = false) (x :: l).
Proof.
  revert x. induction l as [|y l IH]; intros x.
  - exists x, [], [], []. cbn. repeat split; auto.
    constructor; [|constructor].
    destruct (ltb (fst x) (fst x)) eqn:E; [|reflexivity].
    rewrite (ltb_asym _ _ E) in E. discriminate.
  - destruct (IH y) as (top & rest & l1 & l2 & Hs & Hl & Hlt & Hmax).
    change (sort_keyed ltb (x :: y :: l))
      with (insert_desc ltb x (sort_keyed ltb (y :: l))).
    rewrite Hs. cbn [insert_desc].
    destruct (ltb (fst x) (fst top)) eqn:E.
    + exists top, (insert_desc ltb x rest), (x :: l1), l2.
      split; [reflexivity|]. split; [rewrite Hl; reflexivity|].
      split; [constructor; assumption|].
      constructor; [apply ltb_asym; exact E | exact Hmax].
    + exists x, (top :: rest), [], (y :: l).
      split; [reflexivity|]. split; [reflexivity|]. split; [constructor|].
      constructor.
      * destruct (ltb (fst x) (fst x)) eqn:E'; [|reflexivity].
        rewrite (ltb_asym _ _ E') in E'. discriminate.
      * eapply Forall_impl; [exact Hmax|].
        intros z Hz. eapply ltb_cotrans; eassumption.
Qed.

End SortedFacts.

Lemma key_ltb_asym a b : key_ltb a b = true -> key_ltb b a = false.
Proof. unfold key_ltb. destruct a, b; cbn. lia. Qed.

Lemma key_ltb_cotrans a b c :
  key_ltb a b = false -> key_ltb b c = false -> key_ltb a c = false.
Proof. unfold key_ltb. destruct a, b, c; cbn. lia. Qed.

Lemma key_ltb_false a b :
  key_ltb a b = false <->
  fst b < fst a \/ (fst b = fst a /\ snd b <= snd a).
Proof. unfold key_ltb. destruct a, b; cbn. lia. Qed.

(** ** Latest-status resolution *)

Lemma lower_ascii_idem c : lower_ascii (lower_ascii c) = lower_ascii c.
Proof. destruct c as [[] [] [] [] [] [] [] []]; reflexivity. Qed.

Lemma lower_idem s : lower (lower s) = lower s.
Proof.
  induction s as [|c s IH]; [reflexivity|].
  cbn [lower]. rewrite lower_ascii_idem, IH. reflexivity.
Qed.

Lemma ts_or_0_spec x :
  ts_or_0 x = match timestamp x with Some t => t | None => 0 end.
Proof.
  unfold ts_or_0. destruct (timestamp x) as [t|]; [|reflexivity].
  destruct (Z.eqb_spec t 0); congruence.
Qed.

Lemma decorate_spec l keyed :
  decorate l = Ok keyed ->
  map snd keyed = l /\ Forall (fun kx => sort_key (snd kx) = Ok (fst kx)) keyed.
Proof.
  revert keyed. induction l as [|x l IH]; intros keyed; cbn [decorate].
  - intros [= <-]. split; [reflexivity | constructor].
  - destruct (sort_key x) as [k|e] eqn:Hk; [|discriminate]. cbn [ebind].
    destruct (decorate l) as [r|e]; [|discriminate]. cbn [ebind].
    intros [= <-]. destruct (IH r eq_refl) as [Hm Hf].
    split; [cbn; congruence | constructor; assumption].
Qed.

Lemma decorate_total l :
  Forall (fun h => exists s, status h = VStr s) l ->
  exists keyed, decorate l = Ok keyed.
Proof.
  induction 1 as [|x l [s Hs] _ [keyed IH]]; cbn [decorate]; [eauto|].
  unfold sort_key. rewrite Hs. cbn [get_status_priority ebind].
  rewrite IH. cbn [ebind]. eauto.
Qed.

Lemma forallb_mismatch_false history :
  (exists h, In h history /\ recipientMismatch h = false) ->
  forallb recipientMismatch history = false.
Proof.
  intros (h & Hin & Hh).
  destruct (forallb recipientMismatch history) eqn:E; [|reflexivity].
  rewrite forallb_forall in E. rewrite (E h Hin) in Hh. discriminate.
Qed.

(** Ranking with at least one valid event: the selected event is the
    first of the valid events whose key none of them exceeds. *)
Lemma determine_latest_status_valid history :
  (exists h, In h history /\ recipientMismatch h = false) ->
  (forall h, In h history -> recipientMismatch h = false ->
     exists s, status h = VStr s) ->
  exists latest l1 l2 kl,
    List.filter (fun h => negb (recipientMismatch h)) history = l1 ++ latest :: l2 /\
    determine_latest_status history = Ok (status latest, timestamp latest) /\
    sort_key latest = Ok kl /\
    (forall h, In h l1 ->
       exists kh, sort_key h = Ok kh /\ key_ltb kh kl = true) /\
    (forall h, In h history -> recipientMismatch h = false ->
       exists kh, sort_key h = Ok kh /\ key_ltb kl kh = false).
Proof.
  intros Hex Hstr.
  pose proof (forallb_mismatch_false history Hex) as Hall.
  set (vh := List.filter (fun h => negb (recipientMismatch h)) history).
  assert (Hvh : forall h, In h vh <-> In h history /\ recipientMismatch h = false).
  { intros h. unfold vh. rewrite filter_In, negb_true_iff. reflexivity. }
  destruct (decorate_total vh) as [keyed Hdec].
  { apply List.Forall_forall. intros h Hh. apply Hvh in Hh as [Hin Hv]. eauto. }
  destruct (decorate_spec _ _ Hdec) as [Hsnd Hkeys].
  destruct Hex as (h0 & Hin0 & Hv0).
  assert (Hne : In h0 vh) by (apply Hvh; auto).
  destruct keyed as [|kx keyed'].
  { cbn in Hsnd. rewrite <- Hsnd in Hne. destruct Hne. }
  destruct (sort_keyed_head key_ltb key_ltb_asym key_ltb_cotrans kx keyed')
    as (top & rest & k1 & k2 & Hs & Hl & Hlt & Hmax).
  assert (Htop : sort_key (snd top) = Ok (fst top)).
  { rewrite List.Forall_forall in Hkeys. apply Hkeys. rewrite Hl.
    apply in_or_app. right. left. reflexivity. }
  exists (snd top), (map snd k1), (map snd k2), (fst top).
  split; [|split; [|split; [|split]]].
  - fold vh. rewrite <- Hsnd, Hl, map_app. reflexivity.
  - unfold determine_latest_status. destruct history as [|first tl]; [destruct Hin0|].
    rewrite Hall. fold vh. destruct vh as [|v vs] eqn:Evh; [destruct Hne|].
    rewrite Hdec. cbn [ebind]. rewrite Hs. destruct top. reflexivity.
  - exact Htop.
  - intros h Hh. apply in_map_iff in Hh as (kh & <- & Hin).
    exists (fst kh). split.
    + rewrite List.Forall_forall in Hkeys. apply Hkeys. rewrite Hl.
      apply in_or_app. left. exact Hin.
    + rewrite List.Forall_forall in Hlt. apply Hlt. exact Hin.
  - intros h Hin Hv. assert (Hh : In h vh) by (apply Hvh; auto).
    rewrite <- Hsnd in Hh. apply in_map_iff in Hh as (kh & <- & Hkin).
    exists (fst kh). split.
    + rewrite List.Forall_forall in Hkeys. apply Hkeys. exact Hkin.
    + rewrite List.Forall_forall in Hmax. apply Hmax. exact Hkin.
Qed.

Lemma sort_key_inv h k :
  sort_key h = Ok k ->
  get_status_priority (status h) = Ok (snd k) /\
  fst k = default 0 (timestamp h).
Proof.
  unfold sort_key. destruct (get_status_priority (status h)) as [p|e]; [|discriminate].
  cbn [ebind]. intros [= <-]. split; [reflexivity|].
  cbn [fst]. rewrite ts_or_0_spec. destruct (timestamp h); reflexivity.
Qed.

Lemma priority_table s :
  exists p,
    get_status_priority (VStr s) = Ok p /\
    get_status_priority (VStr (lower s)) = Ok p /\
    (lower s = "failed" \/ lower s = "undelivered" -> p = 100) /\
    (lower s = "read" -> p = 50) /\
    (lower s = "delivered" -> p = 40) /\
    (lower s = "sent" -> p = 30) /\
    (~ In (lower s) ["failed"; "undelivered"; "read"; "delivered"; "sent"] ->
     p = 10).
Proof.
  exists (map_get (lower s) priority_map 10).
  split; [reflexivity|]. split; [cbn; rewrite lower_idem; reflexivity|].
  unfold priority_map, map_get.
  repeat match goal with
         | |- context [String.eqb ?a ?b] => destruct (String.eqb_spec a b)
         end;
    repeat split; intros; try reflexivity; try congruence;
    try (exfalso; cbn [In] in *; intuition congruence).
Qed.

(** C1 (as amended): when at least one event is not flagged as a recipient
    mismatch (the statuses of those events being strings),
    [determine_latest_status] returns the status and the timestamp of an
    unflagged event that is greatest among the unflagged ones under the
    lexicographic order on (timestamp, or 0 when absent; priority), where
    the priority of a status is taken after lower-casing and is 100 for
    failed and undelivered, 50 for read, 40 for delivered, 30 for sent and
    10 otherwise; sent at 100, delivered at 200 and read at 150 resolve to
    delivered at 200; and an event whose timestamp is present and positive
    outranks one whose timestamp is absent, in either input order. *)
Theorem determine_latest_status_ordering :
  (forall history,
     (exists h, In h history /\ recipientMismatch h = false) ->
     (forall h, In h history -> recipientMismatch h = false ->
        exists s, status h = VStr s) ->
     exists latest pl,
       In latest history /\ recipientMismatch latest = false /\
       determine_latest_status history = Ok (status latest, timestamp latest) /\
       get_status_priority (status latest) = Ok pl /\
       forall h, In h history -> recipientMismatch h = false ->
         exists ph,
           get_status_priority (status h) = Ok ph /\
           (default 0 (timestamp h) < default 0 (timestamp latest) \/
            (default 0 (timestamp h) = default 0 (timestamp latest) /\ ph <= pl))) /\
  (forall s, exists p,
     get_status_priority (VStr s) = Ok p /\
     get_status_priority (VStr (lower s)) = Ok p /\
     (lower s = "failed" \/ lower s = "undelivered" -> p = 100) /\
     (lower s = "read" -> p = 50) /\
     (lower s = "delivered" -> p = 40) /\
     (lower s = "sent" -> p = 30) /\
     (~ In (lower s) ["failed"; "undelivered"; "read"; "delivered"; "sent"] ->
      p = 10)) /\
  (forall f1 f2 f3 r1 r2 r3 e1 e2 e3,
     determine_latest_status
       [mkStatus (VStr "sent") (Some 100) f1 r1 e1 false;
        mkStatus (VStr "delivered") (Some 200) f2 r2 e2 false;
        mkStatus (VStr "read") (Some 150) f3 r3 e3 false]
     = Ok (VStr "delivered", Some 200)) /\
  (forall a b sa sb t,
     status a = VStr sa -> status b = VStr sb ->
     recipientMismatch a = false -> recipientMismatch b = false ->
     timestamp a = Some t -> 0 < t -> timestamp b = None ->
     determine_latest_status [a; b] = Ok (status a, timestamp a) /\
     determine_latest_status [b; a] = Ok (status a, timestamp a)).
Proof.
  split; [|split; [|split]].
  - intros history Hex Hstr.
    destruct (determine_latest_status_valid history Hex Hstr)
      as (latest & l1 & l2 & kl & Hf & Hres & Hkl & _ & Hmax).
    assert (Hin : In latest history /\ recipientMismatch latest = false).
    { assert (Hl : In latest (List.filter (fun h => negb (recipientMismatch h)) history)).
      { rewrite Hf. apply in_or_app. right. left. reflexivity. }
      apply filter_In in Hl as [? Hv]. apply negb_true_iff in Hv. auto. }
    destruct Hin as [Hin Hv]. destruct (sort_key_inv _ _ Hkl) as [Hpl Htl].
    exists latest, (snd kl). repeat split; try assumption.
    intros h Hh Hvh. destruct (Hmax h Hh Hvh) as (kh & Hkh & Hle).
    destruct (sort_key_inv _ _ Hkh) as [Hph Hth].
    exists (snd kh). split; [exact Hph|].
    apply key_ltb_false in Hle. rewrite <- Hth, <- Htl. exact Hle.
  - exact priority_table.
  - reflexivity.
  - intros [sta tsa fa ra ea ma] [stb tsb fb rb eb mb] sa sb t. cbn.
    intros -> -> -> -> -> Ht ->.
    unfold determine_latest_status, sort_key, ts_or_0; cbn.
    destruct (Z.eqb_spec t 0) as [->|Hne]; [lia|].
    unfold key_ltb; cbn.
    destruct (Z.ltb_spec t 0); [lia|]. destruct (Z.ltb_spec 0 t); [|lia].
    destruct (Z.eqb_spec t 0); [lia|]. cbn. split; reflexivity.
Qed.

(** The extractor run on a webhook payload with two [sent] updates for the
    message, the first stamped -5 and the second without a timestamp: the
    update without a timestamp is ranked first. *)
Lemma present_timestamp_outranked :
  let a := mkStatus (VStr "sent") (Some (-5)) (Some "1970-01-01 02:59")
             VNone "7" false in
  let b := mkStatus (VStr "sent") None None VNone "7" false in
  extract_status_updates
    (webhook_execution (VInt 7)
       [VDict [("id", VStr "wamid.1"); ("status", VStr "sent");
               ("timestamp", VInt (-5))];
        VDict [("id", VStr "wamid.1"); ("status", VStr "sent")]])
    "wamid.1" "966532127070" = Ok [a; b] /\
  timestamp a = Some (-5) /\ timestamp b = None /\
  get_status_priority (status a) = get_status_priority (status b) /\
  sort_key a = Ok (-5, 30) /\ sort_key b = Ok (0, 30) /\
  key_ltb (-5, 30) (0, 30) = true /\
  determine_latest_status [a; b] = Ok (VStr "sent", None) /\
  determine_latest_status [b; a] = Ok (VStr "sent", None).
Proof. vm_compute. repeat split. Qed.

(** ** Deduplication *)

Section DedupFacts.

Context {K : Type} `{Countable K}.
Variable key : status_update -> exc K.


Lemma dedup_from_spec l :
  forall seen r,
    dedup_from key seen l = Ok r ->
    sublist r l /\
    (forall y, In y r -> exists k, key y = Ok k /\ k ∉ seen) /\
    NoDup (map key r) /\
    (forall x, In x l ->
       exists k, key x = Ok k /\
                 (k ∈ seen \/ exists y, In y r /\ key y = Ok k)) /\
    (forall y, In y r ->
       exists l1 l2, l = l1 ++ y :: l2 /\
                     forall z, In z l1 -> key z <> key y).
Proof.
  induction l as [|s l IH]; intros seen r; cbn [dedup_from].
  - intros [= <-]. split; [constructor|]. split; [intros y []|].
    split; [constructor|]. split; intros y [].
  - destruct (key s) as [k|e] eqn:Hk; [|discriminate]. cbn [ebind].
    destruct (decide (k ∈ seen)) as [Hin|Hnin].
    + intros Hr. destruct (IH seen r Hr) as (Hsub & Hfresh & Hnd & Hcov & Hfirst).
      split; [apply sublist_cons; exact Hsub|]. split; [exact Hfresh|].
      split; [exact Hnd|]. split.
      * intros x [<-|Hx]; [exists k; auto | apply Hcov; exact Hx].
      * intros y Hy. destruct (Hfirst y Hy) as (l1 & l2 & -> & Hl1).
        exists (s :: l1), l2. split; [reflexivity|].
        intros z [<-|Hz]; [|apply Hl1; exact Hz].
        destruct (Hfresh y Hy) as (ky & Hky & Hnew).
        rewrite Hk, Hky. intros [= ->]. contradiction.
    + destruct (dedup_from key ({[k]} ∪ seen) l) as [r'|e] eqn:Hr'; [|discriminate].
      cbn [ebind]. intros [= <-].
      destruct (IH _ r' Hr') as (Hsub & Hfresh & Hnd & Hcov & Hfirst).
      split; [apply sublist_skip; exact Hsub|]. split; [|split; [|split]].
      * intros y [<-|Hy]; [exists k; auto|].
        destruct (Hfresh y Hy) as (ky & Hky & Hnew).
        exists ky. split; [exact Hky|].
        intros Hs. apply Hnew. apply elem_of_union. right. exact Hs.
      * cbn [map]. constructor; [|exact Hnd].
        rewrite Hk. intros Hin. apply list_elem_of_In in Hin.
        apply in_map_iff in Hin as (y & Hy & Hyin).
        destruct (Hfresh y Hyin) as (ky & Hky & Hnew).
        rewrite Hky in Hy. injection Hy as ->.
        apply Hnew. apply elem_of_union. left. apply elem_of_singleton. reflexivity.
      * intros x [<-|Hx].
        -- exists k. split; [exact Hk|]. right. exists s.
           split; [left; reflexivity | exact Hk].
        -- destruct (Hcov x Hx) as (kx & Hkx & Hcase). exists kx. split; [exact Hkx|].
           destruct Hcase as [Hseen|(y & Hy & Hky)].
           ++ apply elem_of_union in Hseen as [Heq|Hseen]; [|left; exact Hseen].
              apply elem_of_singleton in Heq as ->.
              right. exists s. split; [left; reflexivity | exact Hk].
           ++ right. exists y. split; [right; exact Hy | exact Hky].
      * intros y [<-|Hy].
        -- exists [], l. split; [reflexivity | intros z []].
        -- destruct (Hfirst y Hy) as (l1 & l2 & -> & Hl1).
           exists (s :: l1), l2. split; [reflexivity|].
           intros z [<-|Hz]; [|apply Hl1; exact Hz].
           destruct (Hfresh y Hy) as (ky & Hky & Hnew).
           rewrite Hk, Hky. intros [= ->].
           apply Hnew. apply elem_of_union. left. apply elem_of_singleton. reflexivity.
Qed.

End DedupFacts.


Lemma resolve_history wa_id message_id workflow_id all_statuses res :
  resolve wa_id message_id workflow_id all_statuses = Ok res ->
  exists d,
    deduplicate_statuses all_statuses = Ok d /\
    history res = sorted_desc Z.ltb ts_or_0 d /\
    determine_latest_status (history res) = Ok (latestStatus res, latestTimestamp res).
Proof.
  unfold resolve.
  destruct (deduplicate_statuses all_statuses) as [d|e]; [|discriminate]. cbn [ebind].
  destruct (determine_latest_status _) as [[st ts]|e] eqn:Hl; [|discriminate].
  cbn [ebind fst snd].
  destruct (format_timestamp ts) as [f|e]; [|discriminate]. cbn [ebind].
  intros [= <-]. exists d. cbn. auto.
Qed.


(** ** Recipient mismatches *)

Lemma filter_valid_idem history :
  List.filter (fun h => negb (recipientMismatch h))
    (List.filter (fun h => negb (recipientMismatch h)) history) =
  List.filter (fun h => negb (recipientMismatch h)) history.
Proof.
  induction history as [|h l IH]; [reflexivity|]. cbn [List.filter].
  destruct (negb (recipientMismatch h)) eqn:E; [|exact IH].
  cbn [List.filter]. rewrite E, IH. reflexivity.
Qed.

Lemma determine_latest_status_filter history :
  (exists h, In h history /\ recipientMismatch h = false) ->
  determine_latest_status history =
  determine_latest_status
    (List.filter (fun h => negb (recipientMismatch h)) history).
Proof.
  intros Hex. pose proof (forallb_mismatch_false history Hex) as Hall.
  destruct Hex as (h0 & Hin0 & Hv0).
  assert (Hne : In h0 (List.filter (fun h => negb (recipientMismatch h)) history)).
  { apply filter_In. rewrite Hv0. auto. }
  pose proof (filter_valid_idem history) as Hidem.
  destruct history as [|first tl]; [destruct Hin0|].
  unfold determine_latest_status at 1. rewrite Hall.
  destruct (List.filter _ (first :: tl)) as [|v vs] eqn:Evh; [destruct Hne|].
  unfold determine_latest_status.
  assert (Hv : recipientMismatch v = false).
  { assert (Hin : In v (List.filter (fun h => negb (recipientMismatch h)) (first :: tl)))
      by (rewrite Evh; left; reflexivity).
    apply filter_In in Hin as [_ Hin]. apply negb_true_iff in Hin. exact Hin. }
  cbn [forallb]. rewrite Hv. cbn [andb]. rewrite Hidem. reflexivity.
Qed.

(** C3: when at least one event is not flagged, the resolution is that of
    the unflagged events alone, hence the status and timestamp of an
    unflagged event (their statuses being strings), while every event that
    survives deduplication, flagged or not, is in the returned history;
    when every event of a non-empty collection is flagged, the resolution
    is the status [wa_id_mismatch] with the timestamp of the first event. *)
Theorem recipient_mismatch_policy
    (wa_id message_id workflow_id : string) :
  (forall history,
     (exists h, In h history /\ recipientMismatch h = false) ->
     determine_latest_status history =
       determine_latest_status
         (List.filter (fun h => negb (recipientMismatch h)) history) /\
     ((forall h, In h history -> recipientMismatch h = false ->
         exists s, status h = VStr s) ->
      exists latest,
        In latest history /\ recipientMismatch latest = false /\
        determine_latest_status history = Ok (status latest, timestamp latest))) /\
  (forall all_statuses res,
     resolve wa_id message_id workflow_id all_statuses = Ok res ->
     (forall d e, deduplicate_statuses all_statuses = Ok d ->
        In e d -> In e (history res)) /\
     (forall x, In x all_statuses -> recipientMismatch x = true ->
        exists y, In y (history res) /\ unique_key y = unique_key x)) /\
  (forall first rest,
     forallb recipientMismatch (first :: rest) = true ->
     determine_latest_status (first :: rest) =
       Ok (VStr "wa_id_mismatch", timestamp first)).
Proof.
  split; [|split].
  - intros history Hex. split; [apply determine_latest_status_filter; exact Hex|].
    intros Hstr.
    destruct (determine_latest_status_valid history Hex Hstr)
      as (latest & l1 & l2 & kl & Hf & Hres & _).
    exists latest.
    assert (Hl : In latest (List.filter (fun h => negb (recipientMismatch h)) history)).
    { rewrite Hf. apply in_or_app. right. left. reflexivity. }
    apply filter_In in Hl as [Hin Hv]. apply negb_true_iff in Hv. auto.
  - intros all_statuses res Hres.
    destruct (resolve_history _ _ _ _ _ Hres) as (d & Hd & Hhist & _).
    assert (Hperm : Permutation d (history res)).
    { rewrite Hhist. symmetry. apply sorted_desc_perm. }
    split.
    + intros d' e Hd' He. rewrite Hd in Hd'. injection Hd' as <-.
      eapply Permutation_in; eassumption.
    + intros x Hx _.
      destruct (dedup_from_spec unique_key all_statuses ∅ d Hd)
        as (_ & _ & _ & Hcov & _).
      destruct (Hcov x Hx) as (k & Hk & [Hemp|(y & Hy & Hky)]).
      * exfalso. exact (not_elem_of_empty k Hemp).
      * exists y. split; [eapply Permutation_in; eassumption | congruence].
  - intros first rest Hall. unfold determine_latest_status. rewrite Hall. reflexivity.
Qed.

(** ** The scan loop and its early exit *)

Lemma check_terminal_strings statuses :
  Forall (fun s => exists str, status s = VStr str) statuses ->
  forall found,
    exists b,
      check_terminal found statuses = (b, None) /\
      (found = true -> b = true) /\
      (Exists (fun s => is_terminal_status (status s) = Ok true) statuses ->
       b = true).
Proof.
  induction 1 as [|s l [str Hs] _ IH]; intros found; cbn [check_terminal].
  - exists found. split; [reflexivity|]. split; [auto|]. intros Hex. inversion Hex.
  - rewrite Hs. cbn [is_terminal_status].
    set (t := existsb _ _).
    destruct (IH (found || t)) as (b & Hb & Hfound & Hex).
    exists b. split; [exact Hb|]. split.
    + intros ->. apply Hfound. reflexivity.
    + intros Hex'. inversion Hex' as [? ? Hhd|? ? Htl]; subst.
      * rewrite Hs in Hhd. cbn [is_terminal_status] in Hhd. injection Hhd as Hhd.
        change (t = true) in Hhd. apply Hfound. rewrite Hhd. apply orb_true_r.
      * apply Hex. exact Htl.
Qed.

Section ScanFacts.

Variables (wa_id message_id : string).
Variable since : option Z.

Local Abbreviation scan := (scan_executions wa_id message_id since).

Lemma scan_executions_exit execution rest all_statuses found w extracted :
  extract_status_updates execution message_id wa_id = Ok extracted ->
  Forall (fun s => exists str, status s = VStr str) (since_filter since extracted) ->
  Exists (fun s => is_terminal_status (status s) = Ok true)
    (since_filter since extracted) ->
  scan (execution :: rest) all_statuses found w =
    (Ok (all_statuses ++ since_filter since extracted), log_scan execution w).
Proof.
  intros Hext Hstr Hterm. cbn [scan_executions]. rewrite Hext.
  destruct (check_terminal_strings _ Hstr found) as (b & Hb & _ & Hex).
  rewrite (Hex Hterm) in Hb.
  destruct (since_filter since extracted) as [|s l] eqn:Hf; [inversion Hterm|].
  rewrite Hb. reflexivity.
Qed.

Lemma scan_executions_trace executions :
  forall all_statuses found w,
    exists k,
      trace (snd (scan executions all_statuses found w)) =
        trace w ++ map EvScan (firstn k executions) /\
      calls (snd (scan executions all_statuses found w)) = calls w.
Proof.
  induction executions as [|e rest IH]; intros all_statuses found w.
  - exists 0%nat. cbn. rewrite app_nil_r. auto.
  - assert (Hnext : forall a f,
              exists k, trace (snd (scan rest a f (log_scan e w))) =
                          trace w ++ map EvScan (firstn k (e :: rest)) /\
                        calls (snd (scan rest a f (log_scan e w))) = calls w).
    { intros a f. destruct (IH a f (log_scan e w)) as (k & Hk & Hc).
      exists (S k). cbn [firstn map]. rewrite Hk. cbn [log_scan trace calls] in *.
      rewrite <- app_assoc. auto. }
    assert (Hstop : forall r : exc (list status_update),
              exists k, trace (snd (r, log_scan e w)) =
                          trace w ++ map EvScan (firstn k (e :: rest)) /\
                        calls (snd (r, log_scan e w)) = calls w).
    { intros r. exists 1%nat. cbn. rewrite firstn_0. auto. }
    cbn [scan_executions].
    destruct (extract_status_updates e message_id wa_id) as [extracted|err].
    + destruct (since_filter since extracted) as [|s l]; [apply Hnext|].
      destruct (check_terminal found (s :: l)) as [found' [err|]].
      * destruct found'; destruct (py_get e "id"); first [apply Hnext | apply Hstop].
      * destruct found'; [apply Hstop | apply Hnext].
    + destruct (py_get e "id"); [apply Hnext | apply Hstop].
Qed.

End ScanFacts.

Section TrackFacts.

Variable session : nat -> request -> exc response.
Variable random : nat -> Q.
Variable quote : string -> string.
Variables (wa_id message_id workflow_id base_url api_prefix : string).
Variable limit : Z.
Variable since : option Z.

(** The fetcher sends requests and sleeps; it scans nothing. *)
Lemma request_with_retry_no_scan req w :
  scans_of (trace (snd (request_with_retry session random default_max_retries req w)))
  = scans_of (trace w).
Proof.
  destruct (retry_from_spec session random req default_max_retries 5 1 w)
    as (m & _ & _ & _ & Heq); [reflexivity | lia |].
  unfold request_with_retry. change (Z.to_nat default_max_retries) with 5%nat.
  rewrite Heq. cbn [snd trace].
  rewrite !scans_of_app, scans_of_failed_rounds. cbn. apply app_nil_r.
Qed.

Lemma fetch_page_no_scan cursor fetched w :
  scans_of (trace (snd (fetch_page session random quote base_url api_prefix
                          workflow_id limit cursor fetched w)))
  = scans_of (trace w).
Proof.
  unfold fetch_page.
  destruct (executions_url _ _ _ _ _ _) as [url|e]; [|reflexivity].
  pose proof (request_with_retry_no_scan (mkRequest "GET" url) w) as Hs.
  destruct (request_with_retry _ _ _ _ _) as [r w1]. exact Hs.
Qed.

Lemma fetch_loop_no_scan fuel :
  forall out cursor fetched w r w',
    fetch_loop session random quote base_url api_prefix workflow_id limit
      fuel out cursor fetched w = Some (r, w') ->
    scans_of (trace w') = scans_of (trace w).
Proof.
  induction fuel as [|fuel IH]; intros out cursor fetched w r w';
    cbn [fetch_loop]; destruct (negb (fetched <? limit));
    try (intros [= _ <-]; reflexivity); try discriminate.
  pose proof (fetch_page_no_scan cursor fetched w) as Hp.
  destruct (fetch_page _ _ _ _ _ _ _ _ _ _) as [[[[batch items] cursor']|e] w1];
    cbn [snd] in Hp; [|intros [= _ <-]; exact Hp].
  destruct (negb (truthy cursor') || negb (truthy batch));
    [intros [= _ <-]; exact Hp|].
  intros Hl. rewrite (IH _ _ _ _ _ _ Hl). exact Hp.
Qed.

Lemma fetch_executions_no_scan fuel w r w' :
  fetch_executions session random quote base_url api_prefix workflow_id limit
    fuel w = Some (r, w') ->
  scans_of (trace w') = scans_of (trace w).
Proof.
  unfold fetch_executions.
  destruct (fetch_loop _ _ _ _ _ _ _ _ _ _ _ _) as [[[out|e] w1]|] eqn:Hl;
    [| |discriminate]; intros [= _ <-]; eapply fetch_loop_no_scan; exact Hl.
Qed.

End TrackFacts.

(** C4 (as amended): in [track_message_status] every execution is fetched
    before the scan starts, and the scan sends no request; the scan visits
    the fetched executions in order and stops after the first one whose
    status updates for the message (those that pass the [since] filter,
    all with a string status) contain a terminal status, so that no later
    execution is scanned: of three executions whose first yields a [read]
    update, only the first is scanned. *)
Theorem early_exit_stops_scanning
    (session : nat -> request -> exc response) (random : nat -> Q)
    (quote : string -> string)
    (wa_id message_id workflow_id base_url api_prefix : string)
    (limit : Z) (since : option Z) :
  (forall execution rest all_statuses found w extracted,
     extract_status_updates execution message_id wa_id = Ok extracted ->
     Forall (fun s => exists str, status s = VStr str) (since_filter since extracted) ->
     Exists (fun s => is_terminal_status (status s) = Ok true)
       (since_filter since extracted) ->
     scan_executions wa_id message_id since (execution :: rest) all_statuses found w
       = (Ok (all_statuses ++ since_filter since extracted), log_scan execution w)) /\
  (forall e1 e2 e3 w extracted,
     extract_status_updates e1 message_id wa_id = Ok extracted ->
     Forall (fun s => exists str, status s = VStr str) (since_filter since extracted) ->
     Exists (fun s => status s = VStr "read") (since_filter since extracted) ->
     scans_of (trace (snd (scan_executions wa_id message_id since [e1; e2; e3]
                             [] false w)))
       = scans_of (trace w) ++ [e1]) /\
  (forall fuel w r w2,
     track_message_status session random quote wa_id message_id workflow_id
       base_url api_prefix limit since fuel w = Some (r, w2) ->
     exists fetched w1,
       fetch_executions session random quote base_url api_prefix workflow_id
         limit fuel w = Some (fetched, w1) /\
       scans_of (trace w1) = scans_of (trace w) /\
       calls w2 = calls w1 /\
       match fetched with
       | Raise e => r = Raise e /\ w2 = w1
       | Ok executions =>
           exists k, trace w2 = trace w1 ++ map EvScan (firstn k executions)
       end).
Proof.
  split; [|split].
  - intros. apply scan_executions_exit; assumption.
  - intros e1 e2 e3 w extracted Hext Hstr Hread.
    rewrite (scan_executions_exit wa_id message_id since e1 [e2; e3] [] false w
               extracted Hext Hstr).
    + cbn [snd log_scan trace]. rewrite scans_of_app. reflexivity.
    + eapply Exists_impl; [exact Hread|]. intros s ->. reflexivity.
  - intros fuel w r w2. unfold track_message_status.
    destruct (fetch_executions _ _ _ _ _ _ _ _ _) as [[[executions|e] w1]|] eqn:Hf;
      [| |discriminate].
    + intros [= Hr]. exists (Ok executions), w1.
      split; [reflexivity|]. split; [eapply fetch_executions_no_scan; exact Hf|].
      unfold reconcile in Hr.
      destruct (scan_executions_trace wa_id message_id since executions [] false w1)
        as (k & Hk & Hc).
      destruct (scan_executions _ _ _ _ _ _ _) as [sr w3].
      injection Hr as _ <-. cbn [snd] in *. eauto.
    + intros [= <- <-]. exists (Raise e), w1.
      split; [reflexivity|]. split; [eapply fetch_executions_no_scan; exact Hf|]. auto.
Qed.

(** With the three sample executions on one page and the first of them
    yielding [read], the one request made has brought all three before the
    scan starts; only the first is scanned. *)
Lemma later_executions_are_fetched :
  fetch_executions one_page_session no_jitter no_quote
    "https://n8n.example/" "/api/v1" "wf1" 200 200 initial_world
  = Some (Ok [execution_read; execution_delivered; execution_sent],
          mkWorld 1 0 [EvRequest listing_request]) /\
  (fun p => trace (snd p)) <$>
    track_message_status one_page_session no_jitter no_quote
      "966532127070" "wamid.1" "wf1" "https://n8n.example/" "/api/v1" 200 None
      200 initial_world
  = Some [EvRequest listing_request; EvScan execution_read].
Proof. vm_compute. split; reflexivity. Qed.

Example echo_session_terminates :
  fetch_executions echo_session no_jitter no_quote
    "https://n8n.example/" "/api/v1" "wf1" 5 5 initial_world
  = Some (Ok [VDict [("id", VInt 1)]; VDict [("id", VInt 2)];
              VDict [("id", VInt 1)]; VDict [("id", VInt 2)];
              VDict [("id", VInt 1)]],
          mkWorld 3 0
            [EvRequest (mkRequest "GET"
               "https://n8n.example/api/v1/executions?workflowId=wf1&limit=5&includeData=true");
             EvRequest (mkRequest "GET"
               "https://n8n.example/api/v1/executions?workflowId=wf1&limit=3&includeData=true&cursor=same");
             EvRequest (mkRequest "GET"
               "https://n8n.example/api/v1/executions?workflowId=wf1&limit=1&includeData=true&cursor=same")]).
Proof. vm_compute. reflexivity. Qed.

(** ** The extractor on malformed payloads *)






(** ** Display timestamps *)

(** C9: [format_timestamp] lets [OverflowError] through.  A timestamp that
    does not fit the platform's [time_t], or one in the last three hours
    of the year 9999, is not formatted to [None]: the exception leaves the
    function, also when the value comes out of [normalize_timestamp], and
    the extractor run on an execution that carries it raises as well.  The
    two errors named in the handler are caught. *)
Theorem format_timestamp_overflow :
  format_timestamp (Some (2 ^ 63)) = Raise OverflowError /\
  format_timestamp (Some 253402290000) = Raise OverflowError /\
  normalize_timestamp (VStr "9223372036854775808") = Some (2 ^ 63) /\
  extract_status_updates
    (webhook_execution (VInt 103)
       [status_object "wamid.1" "read" (VStr "9223372036854775808") "966532127070"])
    "wamid.1" "966532127070" = Raise OverflowError /\
  format_timestamp (Some (10 ^ 12)) = Ok None /\
  format_timestamp (Some (10 ^ 18)) = Ok None /\
  format_timestamp None = Ok None /\
  format_timestamp (Some 1767096060) = Ok (Some "2025-12-30 15:01").
Proof. vm_compute. repeat split. Qed.

(** ** The store *)

Lemma set_fields_frame fs :
  forall (d : document) k,
    ~ In k (map fst fs) -> set_fields fs d !! k = d !! k.
Proof.
  induction fs as [|[k' v] fs IH]; intros d k Hk; [reflexivity|].
  cbn [set_fields fold_left fst snd]. cbn [map fst In] in Hk.
  change (set_fields fs (<[k':=v]> d) !! k = d !! k).
  rewrite IH by tauto. apply lookup_insert_ne. tauto.
Qed.

Lemma set_fields_snoc fs k v (d : document) :
  set_fields (fs ++ [(k, v)]) d = <[k:=v]> (set_fields fs d).
Proof. unfold set_fields. rewrite fold_left_app. reflexivity. Qed.

(** The last assignment of a field wins. *)
Lemma set_fields_lookup fs :
  forall (d : document) k,
    set_fields fs d !! k =
    match assoc k (rev fs) with Some v => Some v | None => d !! k end.
Proof.
  induction fs as [|[k' v] fs IH] using rev_ind; intros d k; [reflexivity|].
  rewrite set_fields_snoc, rev_app_distr. cbn [rev app assoc].
  destruct (String.eqb_spec k k') as [->|Hne].
  - apply lookup_insert_eq.
  - rewrite lookup_insert_ne by congruence. apply IH.
Qed.













(** A message without a timestamp cannot be compared with the stored
    document: the comparison raises, nothing is written and 0 is
    returned. *)
Lemma absent_timestamp_blocks_upsert :
  save_messages_to_mongodb "wf1" (VStr "2025-12-30 15:05") [stored_sent]
    [mkMessage (VStr "wamid.1") (VStr "966532127070") (VStr "not_found")
       None None 0 []]
  = ([stored_sent], 0).
Proof. reflexivity. Qed.


(** ** The properties at the sample data *)


Lemma fetch_executions_terminates_witness :
  (5 <= 7) /\
  fetch_loop echo_session no_jitter no_quote "https://n8n.example/" "/api/v1"
    "wf1" 5 3 [] VNone 7 initial_world = Some (Ok [], initial_world) /\
  exists r w',
    fetch_executions echo_session no_jitter no_quote "https://n8n.example/"
      "/api/v1" "wf1" 5 5 initial_world = Some (r, w') /\
    (calls w' <= calls initial_world + 5 * Z.to_nat 5)%nat.
Proof.
  destruct (fetch_executions_terminates echo_session no_jitter no_quote
              "https://n8n.example/" "/api/v1" "wf1" 5 initial_world)
    as ((r & w' & Hf & Hc & _) & Hstop & _).
  assert (H57 : 5 <= 7) by (intros Hc'; discriminate Hc').
  split; [exact H57|]. split; [exact (Hstop 3%nat [] VNone 7 initial_world H57)|].
  exists r, w'. split; [apply Hf; apply Nat.le_refl | exact Hc].
Defined.

Lemma determine_latest_status_ordering_witness :
  (exists h, In h [update_delivered; update_read; update_other_recipient] /\
             recipientMismatch h = false) /\
  exists latest pl,
    In latest [update_delivered; update_read; update_other_recipient] /\
    recipientMismatch latest = false /\
    determine_latest_status [update_delivered; update_read; update_other_recipient]
      = Ok (status latest, timestamp latest) /\
    get_status_priority (status latest) = Ok pl.
Proof.
  assert (Hex : exists h, In h [update_delivered; update_read; update_other_recipient]
                          /\ recipientMismatch h = false).
  { exists update_read. split; [right; left; reflexivity | reflexivity]. }
  split; [exact Hex|].
  destruct determine_latest_status_ordering as (Hgreatest & _).
  destruct (Hgreatest [update_delivered; update_read; update_other_recipient] Hex)
    as (latest & pl & Hin & Hv & Hres & Hp & _).
  { intros h [<-|[<-|[<-|[]]]] Hm; try discriminate Hm; eexists; reflexivity. }
  exists latest, pl. repeat split; assumption.
Defined.


Lemma recipient_mismatch_policy_witness :
  forallb recipientMismatch [update_other_recipient; update_other_recipient] = true /\
  determine_latest_status [update_other_recipient; update_other_recipient]
    = Ok (VStr "wa_id_mismatch", timestamp update_other_recipient) /\
  (exists h, In h [update_other_recipient; update_read] /\
             recipientMismatch h = false) /\
  determine_latest_status [update_other_recipient; update_read]
    = determine_latest_status
        (List.filter (fun h => negb (recipientMismatch h))
           [update_other_recipient; update_read]).
Proof.
  destruct (recipient_mismatch_policy "966532127070" "wamid.1" "wf1")
    as (Hvalid & _ & Hall).
  assert (Hex : exists h, In h [update_other_recipient; update_read] /\
                          recipientMismatch h = false).
  { exists update_read. split; [right; left; reflexivity | reflexivity]. }
  split; [reflexivity|].
  split; [exact (Hall update_other_recipient [update_other_recipient] eq_refl)|].
  split; [exact Hex|].
  exact (proj1 (Hvalid [update_other_recipient; update_read] Hex)).
Defined.

Lemma early_exit_stops_scanning_witness :
  extract_status_updates execution_read "wamid.1" "966532127070" = Ok [update_read] /\
  Forall (fun s => exists str, status s = VStr str) (since_filter None [update_read]) /\
  Exists (fun s => status s = VStr "read") (since_filter None [update_read]) /\
  scans_of (trace (snd (scan_executions "966532127070" "wamid.1" None
                          [execution_read; execution_delivered; execution_sent]
                          [] false initial_world)))
    = scans_of (trace initial_world) ++ [execution_read].
Proof.
  destruct (early_exit_stops_scanning one_page_session no_jitter no_quote
              "966532127070" "wamid.1" "wf1" "https://n8n.example/" "/api/v1"
              200 None) as (_ & Hthree & _).
  assert (Hext : extract_status_updates execution_read "wamid.1" "966532127070"
                 = Ok [update_read]) by reflexivity.
  assert (Hstr : Forall (fun s => exists str, status s = VStr str)
                   (since_filter None [update_read])).
  { repeat constructor. eexists. reflexivity. }
  assert (Hread : Exists (fun s => status s = VStr "read")
                    (since_filter None [update_read])).
  { constructor. reflexivity. }
  split; [exact Hext|]. split; [exact Hstr|]. split; [exact Hread|].
  exact (Hthree execution_read execution_delivered execution_sent initial_world
           [update_read] Hext Hstr Hread).
Defined.




(* ===================================================================== *)
(** * Further properties *)
(* ===================================================================== *)

(** ** Decimal strings and [int] *)






Lemma forallb_rev {A : Type} (p : A -> bool) l :
  forallb p (rev l) = forallb p l.
Proof.
  induction l as [|x l IH]; [reflexivity|].
  cbn [rev forallb]. rewrite forallb_app, IH. cbn. rewrite andb_true_r.
  apply andb_comm.
Qed.





(** ** What the extractor returns *)

Lemma eflat_map_Forall {A B : Type} (f : A -> exc (list B)) (P : B -> Prop) l :
  (forall x r, In x l -> f x = Ok r -> Forall P r) ->
  forall r, eflat_map f l = Ok r -> Forall P r.
Proof.
  induction l as [|x l IH]; intros Hf r; cbn [eflat_map].
  - intros [= <-]. constructor.
  - destruct (f x) as [rx|e] eqn:Hx; [|discriminate]. cbn [ebind].
    destruct (eflat_map f l) as [rl|e] eqn:Hl; [|discriminate]. cbn [ebind].
    intros [= <-]. apply Forall_app. split.
    + apply (Hf x rx); [left; reflexivity | exact Hx].
    + apply IH; [|reflexivity]. intros y ry Hy. apply Hf. right. exact Hy.
Qed.

Section ExtractFacts.

Variables (message_id wa_id execution_id : string).

Lemma scan_status_well_formed status_obj r :
  scan_status message_id wa_id execution_id status_obj = Ok r ->
  Forall (well_formed_update wa_id execution_id) r.
Proof.
  unfold scan_status. destruct (negb (isinstance_dict status_obj));
    [intros [= <-]; constructor|].
  destruct (py_get_default status_obj "id" (VStr "")) as [i|e]; [|discriminate].
  cbn [ebind]. destruct (negb (py_eq i (VStr message_id)));
    [intros [= <-]; constructor|].
  destruct (py_get_default status_obj "status" (VStr "unknown")) as [st|e];
    [|discriminate]. cbn [ebind].
  destruct (py_get status_obj "timestamp") as [ts|e]; [|discriminate]. cbn [ebind].
  destruct (py_get status_obj "recipient_id") as [rid|e]; [|discriminate].
  cbn [ebind].
  destruct (format_timestamp (normalize_timestamp ts)) as [f|e] eqn:Hf;
    [|discriminate]. cbn [ebind].
  intros [= <-]. constructor; [|constructor]. repeat split. exact Hf.
Qed.

Lemma scan_item_well_formed item r :
  scan_item message_id wa_id execution_id item = Ok r ->
  Forall (well_formed_update wa_id execution_id) r.
Proof.
  unfold scan_item. destruct (negb (isinstance_dict item));
    [intros [= <-]; constructor|].
  destruct (py_get_default item "json" (VDict [])) as [j|e]; [|discriminate].
  cbn [ebind]. destruct (py_get j "body") as [b|e]; [|discriminate]. cbn [ebind].
  destruct (py_get _ "statuses") as [s|e]; [|discriminate]. cbn [ebind].
  destruct (py_or s (VList [])); try (intros [= <-]; constructor).
  apply eflat_map_Forall. intros x rx _. apply scan_status_well_formed.
Qed.

Lemma scan_node_well_formed node r :
  scan_node message_id wa_id execution_id node = Ok r ->
  Forall (well_formed_update wa_id execution_id) r.
Proof.
  unfold scan_node. destruct (snd node); try (intros [= <-]; constructor).
  apply eflat_map_Forall. intros run rr _. unfold scan_run.
  destruct (negb (isinstance_dict run)); [intros [= <-]; constructor|].
  destruct (py_get_default run "data" (VDict [])) as [d|e]; [|discriminate].
  cbn [ebind]. destruct (py_get d "main") as [m|e]; [|discriminate]. cbn [ebind].
  destruct (py_iter _) as [main_data|e]; [|discriminate]. cbn [ebind].
  apply eflat_map_Forall. intros mi rm _. unfold scan_main_item.
  destruct mi; try (intros [= <-]; constructor).
  apply eflat_map_Forall. intros x rx _. apply scan_item_well_formed.
Qed.

End ExtractFacts.

(** X2: every status update returned by [extract_status_updates] carries
    the identifier of the execution as text, is flagged as a recipient
    mismatch exactly when its recipient identifier is present (truthy) and
    differs from the expected one, so that an absent recipient is never a
    mismatch, and has as formatted timestamp the formatting of its
    timestamp. *)
Theorem extracted_updates_well_formed
    (execution : value) (message_id wa_id : string)
    (updates : list status_update) :
  extract_status_updates execution message_id wa_id = Ok updates ->
  exists id,
    py_get_default execution "id" (VStr "unknown") = Ok id /\
    Forall (fun u =>
              executionId u = py_str id /\
              recipientMismatch u =
                truthy (recipient_id u) &&
                negb (py_eq (recipient_id u) (VStr wa_id)) /\
              (truthy (recipient_id u) = false -> recipientMismatch u = false) /\
              format_timestamp (timestamp u) = Ok (timestampFormatted u))
      updates.
Proof.
  unfold extract_status_updates.
  destruct (py_get_default execution "id" (VStr "unknown")) as [id|e];
    [|discriminate]. cbn [ebind].
  destruct (py_get execution "data") as [d1|e]; [|discriminate]. cbn [ebind].
  destruct (if truthy d1 then _ else _) as [exec_data|e]; [|discriminate].
  cbn [ebind].
  destruct (py_get exec_data "resultData") as [rd|e]; [|discriminate]. cbn [ebind].
  destruct (py_get _ "runData") as [rn|e]; [|discriminate]. cbn [ebind].
  destruct (py_items _) as [nodes|e]; [|discriminate]. cbn [ebind].
  intros Hmap. exists id. split; [reflexivity|].
  eapply Forall_impl.
  - eapply eflat_map_Forall; [|exact Hmap].
    intros node r _. apply scan_node_well_formed.
  - intros u (Hid & Hm & Hf). repeat split; try assumption.
    intros Hr. rewrite Hm, Hr. reflexivity.
Qed.

(** ** The result of [track_message_status] *)

Section SortedMore.

Context {K A : Type}.
Variable ltb : K -> K -> bool.
Hypothesis ltb_asym : forall a b, ltb a b = true -> ltb b a = false.
Hypothesis ltb_cotrans :
  forall a b c, ltb a b = false -> ltb b c = false -> ltb a c = false.

Lemma insert_desc_In (x y : K * A) l :
  In y (insert_desc ltb x l) -> y = x \/ In y l.
Proof.
  intros Hin. apply (Permutation_in _ (insert_desc_perm ltb x l)) in Hin.
  destruct Hin as [<-|Hin]; auto.
Qed.

Lemma insert_desc_sorted (x : K * A) l :
  StronglySorted (fun a b => ltb (fst a) (fst b) = false) l ->
  StronglySorted (fun a b => ltb (fst a) (fst b) = false) (insert_desc ltb x l).
Proof.
  induction 1 as [|y l Hs IH Hy]; cbn [insert_desc].
  - constructor; constructor.
  - destruct (ltb (fst x) (fst y)) eqn:E.
    + constructor; [exact IH|]. apply List.Forall_forall. intros z Hz.
      apply insert_desc_In in Hz as [->|Hz].
      * apply ltb_asym. exact E.
      * rewrite List.Forall_forall in Hy. apply Hy. exact Hz.
    + constructor; [constructor; assumption|]. constructor; [exact E|].
      eapply Forall_impl; [exact Hy|]. intros z Hz.
      eapply ltb_cotrans; eassumption.
Qed.

Lemma sort_keyed_sorted (l : list (K * A)) :
  StronglySorted (fun a b => ltb (fst a) (fst b) = false) (sort_keyed ltb l).
Proof.
  induction l as [|x l IH]; cbn [sort_keyed fold_right]; [constructor|].
  apply insert_desc_sorted. exact IH.
Qed.

Lemma StronglySorted_map_snd (key : A -> K) (l : list (K * A)) :
  Forall (fun kx => fst kx = key (snd kx)) l ->
  StronglySorted (fun a b => ltb (fst a) (fst b) = false) l ->
  StronglySorted (fun a b => ltb (key a) (key b) = false) (map snd l).
Proof.
  intros Hk Hs. induction Hs as [|y l Hs IH Hy]; cbn [map]; [constructor|].
  inversion Hk as [|? ? Hy0 Hk']; subst. constructor; [apply IH; exact Hk'|].
  rewrite List.Forall_forall in *. intros b Hb.
  apply in_map_iff in Hb as (kb & <- & Hb).
  rewrite <- Hy0, <- (Hk' kb Hb). apply Hy. exact Hb.
Qed.

Lemma sorted_desc_sorted (key : A -> K) (l : list A) :
  StronglySorted (fun a b => ltb (key a) (key b) = false) (sorted_desc ltb key l).
Proof.
  unfold sorted_desc. apply StronglySorted_map_snd; [|apply sort_keyed_sorted].
  apply List.Forall_forall. intros kx Hkx.
  apply (Permutation_in _ (sort_keyed_perm ltb _)) in Hkx.
  apply in_map_iff in Hkx as (x & <- & _). reflexivity.
Qed.

End SortedMore.

Lemma StronglySorted_weaken {A : Type} (R R' : A -> A -> Prop) l :
  (forall a b, R a b -> R' a b) -> StronglySorted R l -> StronglySorted R' l.
Proof.
  intros HR. induction 1 as [|x l Hs IH Hx]; constructor; [exact IH|].
  eapply Forall_impl; [exact Hx|]. intros b. apply HR.
Qed.

Lemma Z_ltb_asym a b : (a <? b) = true -> (b <? a) = false.
Proof. lia. Qed.

Lemma Z_ltb_cotrans a b c : (a <? b) = false -> (b <? c) = false -> (a <? c) = false.
Proof. lia. Qed.

(** X3: in a result of [track_message_status] the history is ordered by
    timestamp, newest first, an absent timestamp counting as 0; the count
    reported is the length of the history; the latest status and timestamp
    are those [determine_latest_status] derives from that history, and the
    formatted timestamp is the formatting of the latest timestamp; the
    recipient, message and workflow identifiers are the ones asked for. *)
Theorem track_result_invariants
    (wa_id message_id workflow_id : string)
    (all_statuses : list status_update) (res : track_result) :
  resolve wa_id message_id workflow_id all_statuses = Ok res ->
  StronglySorted
    (fun a b => default 0 (timestamp b) <= default 0 (timestamp a))
    (history res) /\
  foundInExecutionsCount res = Z.of_nat (length (history res)) /\
  determine_latest_status (history res)
    = Ok (latestStatus res, latestTimestamp res) /\
  format_timestamp (latestTimestamp res) = Ok (latestTimestampFormatted res) /\
  (history res = [] ->
   latestStatus res = VStr "not_found" /\ latestTimestamp res = None) /\
  waId res = wa_id /\ messageId res = message_id /\ workflowId res = workflow_id.
Proof.
  intros Hres. pose proof (resolve_history _ _ _ _ _ Hres) as (d & Hd & Hh & Hl).
  unfold resolve in Hres. rewrite Hd in Hres. cbn [ebind] in Hres.
  rewrite <- Hh, Hl in Hres. cbn [ebind fst snd] in Hres.
  destruct (format_timestamp (latestTimestamp res)) as [f|e] eqn:Hf;
    [|discriminate]. cbn [ebind] in Hres.
  split.
  - rewrite Hh.
    eapply StronglySorted_weaken;
      [|apply (sorted_desc_sorted Z.ltb Z_ltb_asym Z_ltb_cotrans)].
    intros a b Hab. cbv beta in Hab. rewrite !ts_or_0_spec in Hab.
    destruct (timestamp a), (timestamp b); cbn; lia.
  - injection Hres as Hres.
    assert (Hc : foundInExecutionsCount res = Z.of_nat (length (history res)))
      by (rewrite <- Hres at 1; reflexivity).
    assert (Hfm : latestTimestampFormatted res = f)
      by (rewrite <- Hres at 1; reflexivity).
    assert (Hw : waId res = wa_id) by (rewrite <- Hres; reflexivity).
    assert (Hm : messageId res = message_id) by (rewrite <- Hres; reflexivity).
    assert (Hwf : workflowId res = workflow_id) by (rewrite <- Hres; reflexivity).
    split; [exact Hc|]. split; [exact Hl|]. split; [congruence|].
    split; [|auto].
    intros Hempty. rewrite Hempty in Hl. cbn in Hl. injection Hl as <- <-. auto.
Qed.

Section ProvenanceFacts.

Variables (wa_id message_id : string).
Variable since : option Z.

Lemma since_filter_passes extracted u :
  In u (since_filter since extracted) ->
  In u extracted /\ passes_since since u.
Proof.
  unfold since_filter, passes_since. destruct since as [t|]; [|auto].
  destruct (Z.eqb_spec t 0) as [->|Hne]; [auto|].
  intros Hin. apply filter_In in Hin as [Hin Hge]. split; [exact Hin|].
  right. rewrite ts_or_0_spec in Hge. destruct (timestamp u); cbn; lia.
Qed.

Lemma scan_executions_provenance source executions :
  (forall e, In e executions -> In e source) ->
  forall all_statuses found w r w',
    Forall (extracted_from wa_id message_id since source) all_statuses ->
    scan_executions wa_id message_id since executions all_statuses found w
      = (Ok r, w') ->
    Forall (extracted_from wa_id message_id since source) r.
Proof.
  induction executions as [|e rest IH]; intros Hsub all_statuses found w r w' Hall.
  - cbn. intros [= <- _]. exact Hall.
  - assert (Hrest : forall x, In x rest -> In x source)
      by (intros x Hx; apply Hsub; right; exact Hx).
    cbn [scan_executions].
    destruct (extract_status_updates e message_id wa_id) as [extracted|err] eqn:Hext.
    + assert (Hnew : Forall (extracted_from wa_id message_id since source)
                       (all_statuses ++ since_filter since extracted)).
      { apply Forall_app. split; [exact Hall|]. apply List.Forall_forall.
        intros u Hu. apply since_filter_passes in Hu as [Hin Hp].
        exists e, extracted. repeat split; auto. apply Hsub. left. reflexivity. }
      destruct (since_filter since extracted) as [|s l] eqn:Hf.
      * apply IH; assumption.
      * destruct (check_terminal found (s :: l)) as [found' [err|]].
        -- destruct found'; (destruct (py_get e "id"); [|discriminate]);
             apply IH; assumption.
        -- destruct found'; [|apply IH; assumption]. intros [= <- _]. exact Hnew.
    + destruct (py_get e "id"); [|discriminate]. apply IH; assumption.
Qed.

End ProvenanceFacts.

(** X4: every status update in the history returned by
    [track_message_status] was extracted, for the tracked message, from
    one of the fetched executions, and passes the [since] filter when one
    is given: nothing is invented and nothing older than [since] is
    reported. *)
Theorem history_provenance
    (wa_id message_id workflow_id : string) (since : option Z)
    (executions : list value) (w w' : world) (res : track_result) :
  reconcile wa_id message_id workflow_id since executions w = (Ok res, w') ->
  Forall (fun u =>
            exists execution updates,
              In execution executions /\
              extract_status_updates execution message_id wa_id = Ok updates /\
              In u updates /\
              match since with
              | Some t => t = 0 \/ t <= default 0 (timestamp u)
              | None => True
              end)
    (history res).
Proof.
  unfold reconcile.
  destruct (scan_executions wa_id message_id since executions [] false w)
    as [[all_statuses|e] w1] eqn:Hscan; [|discriminate].
  cbn [ebind]. intros [= Hres _].
  pose proof (scan_executions_provenance wa_id message_id since executions
                executions (fun e H => H) [] false w all_statuses w1
                (List.Forall_nil _) Hscan) as Hall.
  destruct (resolve_history _ _ _ _ _ Hres) as (d & Hd & Hh & _).
  destruct (dedup_from_spec unique_key all_statuses ∅ d Hd)
    as (_ & _ & _ & _ & Hfirst).
  apply List.Forall_forall. intros u Hu.
  rewrite Hh in Hu. apply (Permutation_in _ (sorted_desc_perm Z.ltb ts_or_0 d)) in Hu.
  destruct (Hfirst u Hu) as (l1 & l2 & Hsplit & _).
  rewrite List.Forall_forall in Hall. apply (Hall u).
  rewrite Hsplit. apply in_or_app. right. left. reflexivity.
Qed.

Section NotFoundFacts.

Variables (wa_id message_id : string).
Variable since : option Z.

Lemma scan_executions_nothing executions :
  Forall (fun e => isinstance_dict e = true /\
                   forall updates,
                     extract_status_updates e message_id wa_id = Ok updates ->
                     since_filter since updates = []) executions ->
  forall all_statuses found w,
    scan_executions wa_id message_id since executions all_statuses found w =
      (Ok all_statuses,
       {| calls := calls w; draws := draws w;
          trace := trace w ++ map EvScan executions |}).
Proof.
  induction 1 as [|e rest [Hdict Hnone] _ IH]; intros all_statuses found w.
  - cbn. rewrite app_nil_r. destruct w; reflexivity.
  - cbn [scan_executions map].
    assert (Hid : exists v, py_get e "id" = Ok v).
    { destruct e; try discriminate. cbn. eauto. }
    destruct Hid as [v Hid].
    destruct (extract_status_updates e message_id wa_id) as [extracted|err].
    + rewrite (Hnone extracted eq_refl), IH. cbn [log_scan calls draws trace].
      rewrite <- app_assoc. reflexivity.
    + rewrite Hid, IH. cbn [log_scan calls draws trace].
      rewrite <- app_assoc. reflexivity.
Qed.

End NotFoundFacts.

(** X5: when no fetched execution (each of them a dict) yields a status
    update of the message that passes the [since] filter, be it that the
    extractor finds none or that it raises, the scan visits every
    execution, in order, and the result is the status [not_found] with no
    timestamp, an empty history and a count of 0. *)
Theorem nothing_found_is_not_found
    (wa_id message_id workflow_id : string) (since : option Z)
    (executions : list value) (w : world) :
  Forall (fun e => isinstance_dict e = true /\
                   forall updates,
                     extract_status_updates e message_id wa_id = Ok updates ->
                     since_filter since updates = []) executions ->
  reconcile wa_id message_id workflow_id since executions w =
    (Ok (mkResult wa_id message_id workflow_id (VStr "not_found") None None [] 0),
     {| calls := calls w; draws := draws w;
        trace := trace w ++ map EvScan executions |}).
Proof.
  intros Hnone. unfold reconcile.
  rewrite (scan_executions_nothing wa_id message_id since executions Hnone).
  reflexivity.
Qed.

(** ** Ranking does not depend on the order of the events *)

Lemma key_ltb_antisym a b :
  key_ltb a b = false -> key_ltb b a = false -> a = b.
Proof.
  unfold key_ltb. destruct a as [a1 a2], b as [b1 b2]; cbn. intros H1 H2.
  f_equal; lia.
Qed.

Lemma NoDup_map_eq {A B : Type} (f : A -> B) (l : list A) a b :
  NoDup (map f l) -> In a l -> In b l -> f a = f b -> a = b.
Proof.
  induction l as [|x l IH]; cbn [map]; intros Hnd Ha Hb Hf; [destruct Ha|].
  apply NoDup_cons in Hnd as [Hx Hnd].
  destruct Ha as [->|Ha], Hb as [->|Hb]; [reflexivity| | |auto].
  - exfalso. apply Hx. rewrite Hf. apply list_elem_of_In, in_map. exact Hb.
  - exfalso. apply Hx. rewrite <- Hf. apply list_elem_of_In, in_map. exact Ha.
Qed.

(** X6: when the unflagged events (their statuses being strings) have
    pairwise different sort keys (timestamp or 0, priority), the latest
    status does not depend on the order in which the events are given:
    two histories with the same events resolve to the same status and
    timestamp. *)
Theorem latest_status_order_independent (h1 h2 : list status_update) :
  Permutation h1 h2 ->
  (exists h, In h h1 /\ recipientMismatch h = false) ->
  (forall h, In h h1 -> recipientMismatch h = false ->
     exists s, status h = VStr s) ->
  NoDup (map sort_key (List.filter (fun h => negb (recipientMismatch h)) h1)) ->
  determine_latest_status h1 = determine_latest_status h2.
Proof.
  intros Hperm Hex Hstr Hnd.
  assert (Hex2 : exists h, In h h2 /\ recipientMismatch h = false).
  { destruct Hex as (h & Hin & Hv). exists h. split; [|exact Hv].
    eapply Permutation_in; eassumption. }
  assert (Hstr2 : forall h, In h h2 -> recipientMismatch h = false ->
                    exists s, status h = VStr s).
  { intros h Hin. apply Hstr. eapply Permutation_in; [symmetry|]; eassumption. }
  destruct (determine_latest_status_valid h1 Hex Hstr)
    as (l1 & a1 & b1 & k1 & Hf1 & Hr1 & Hk1 & _ & Hmax1).
  destruct (determine_latest_status_valid h2 Hex2 Hstr2)
    as (l2 & a2 & b2 & k2 & Hf2 & Hr2 & Hk2 & _ & Hmax2).
  assert (Hin1 : In l1 (List.filter (fun h => negb (recipientMismatch h)) h1)).
  { rewrite Hf1. apply in_or_app. right. left. reflexivity. }
  assert (Hin2 : In l2 (List.filter (fun h => negb (recipientMismatch h)) h2)).
  { rewrite Hf2. apply in_or_app. right. left. reflexivity. }
  pose proof Hin1 as Hv1. apply filter_In in Hv1 as [Hi1 Hv1].
  pose proof Hin2 as Hv2. apply filter_In in Hv2 as [Hi2 Hv2].
  apply negb_true_iff in Hv1, Hv2.
  assert (Hi21 : In l2 h1) by (eapply Permutation_in; [symmetry|]; eassumption).
  assert (Hi12 : In l1 h2) by (eapply Permutation_in; eassumption).
  destruct (Hmax1 l2 Hi21 Hv2) as (k2' & Hk2' & Hle1).
  destruct (Hmax2 l1 Hi12 Hv1) as (k1' & Hk1' & Hle2).
  rewrite Hk2 in Hk2'. injection Hk2' as <-.
  rewrite Hk1 in Hk1'. injection Hk1' as <-.
  assert (Hkeq : k1 = k2) by (apply key_ltb_antisym; assumption).
  assert (Hl : l1 = l2).
  { apply (NoDup_map_eq sort_key _ l1 l2 Hnd Hin1).
    - apply filter_In. split; [exact Hi21|]. rewrite Hv2. reflexivity.
    - congruence. }
  rewrite Hr1, Hr2, Hl. reflexivity.
Qed.

(** ** Errors of the listing endpoint *)

Lemma retry_all_transient session random req w :
  (forall n, exists resp,
     session n req = Ok resp /\ transient (status_code resp) = true) ->
  exists resp,
    session (calls w + 4)%nat req = Ok resp /\
    transient (status_code resp) = true /\
    request_with_retry session random default_max_retries req w =
      (classify (Ok resp),
       {| calls := calls w + 5; draws := draws w + 4;
          trace := trace w ++ failed_rounds random req 1 (draws w) 4
                           ++ [EvRequest req] |}).
Proof.
  intros Hall.
  destruct (retry_from_spec session random req default_max_retries 5 1 w)
    as (m & Hm & _ & Hlast & Heq); [reflexivity | lia |].
  destruct (Hall (calls w + m)%nat) as (resp & Hresp & Ht).
  assert (Hm4 : m = 4%nat).
  { rewrite Hresp in Hlast. unfold classify in Hlast. rewrite Ht in Hlast.
    specialize (Hlast _ eq_refl). lia. }
  subst m. exists resp. split; [exact Hresp|]. split; [exact Ht|].
  unfold request_with_retry. change (Z.to_nat default_max_retries) with 5%nat.
  rewrite Heq, Hresp. reflexivity.
Qed.

(** X7: [fetch_executions] does not retry an answer of the listing
    endpoint whose status is neither 200 nor one of the transient ones: it
    raises [RuntimeError] with the status and the body text after a single
    call and without sleeping.  When every answer has a transient status,
    it calls the session five times, sleeps four times and raises the
    [RuntimeError] made for the fifth answer. *)
Theorem fetch_executions_errors
    (session : nat -> request -> exc response) (random : nat -> Q)
    (quote : string -> string) (base_url api_prefix workflow_id : string)
    (limit : Z) (fuel : nat) (w : world) :
  0 < limit ->
  (forall resp,
     (forall req, session (calls w) req = Ok resp) ->
     transient (status_code resp) = false ->
     status_code resp <> 200 ->
     exists req,
       fetch_executions session random quote base_url api_prefix workflow_id
         limit (S fuel) w =
       Some (Raise (RuntimeError
                      ("List executions failed (" +:+ workflow_id +:+ "): "
                       +:+ pretty (status_code resp) +:+ " " +:+ text resp)),
             {| calls := S (calls w); draws := draws w;
                trace := trace w ++ [EvRequest req] |})) /\
  ((forall n req, exists resp,
      session n req = Ok resp /\ transient (status_code resp) = true) ->
   exists req resp msg w',
     session (calls w + 4)%nat req = Ok resp /\
     classify (Ok resp) = Raise (RuntimeError msg) /\
     fetch_executions session random quote base_url api_prefix workflow_id
       limit (S fuel) w = Some (Raise (RuntimeError msg), w') /\
     calls w' = (calls w + 5)%nat /\
     length (sleeps_of (trace w')) = (length (sleeps_of (trace w)) + 4)%nat).
Proof.
  intros Hlimit. split.
  - intros resp Hsess Ht Hcode.
    eexists. unfold fetch_executions. cbn [fetch_loop].
    destruct (Z.ltb_spec 0 limit); [|lia]. cbn [negb].
    unfold fetch_page, executions_url. cbn [truthy ebind].
    unfold request_with_retry. change (Z.to_nat default_max_retries) with 5%nat.
    cbn [retry_from attempt_once]. rewrite Hsess. unfold classify. rewrite Ht.
    cbn [ebind]. destruct (Z.eqb_spec (status_code resp) 200); [contradiction|].
    cbn [negb]. reflexivity.
  - intros Hall.
    set (req := mkRequest "GET"
      (rstrip_slash base_url +:+ api_prefix +:+ "/executions?" +:+
       ("workflowId=" +:+ quote workflow_id +:+ "&limit=" +:+
        quote (pretty (Z.min 100 (limit - 0))) +:+ "&includeData=" +:+
        quote "true"))).
    destruct (retry_all_transient session random req w (fun n => Hall n req))
      as (resp & Hresp & Ht & Heq).
    assert (Hcl : exists msg, classify (Ok resp) = Raise (RuntimeError msg)).
    { unfold classify. rewrite Ht. eauto. }
    destruct Hcl as [msg Hcl]. rewrite Hcl in Heq.
    exists req, resp, msg. eexists. split; [exact Hresp|]. split; [exact Hcl|].
    split.
    + unfold fetch_executions. cbn [fetch_loop].
      destruct (Z.ltb_spec 0 limit); [|lia]. cbn [negb].
      unfold fetch_page, executions_url. cbn [truthy ebind].
      fold req. rewrite Heq. cbn [ebind]. reflexivity.
    + cbn [calls trace]. split; [reflexivity|].
      rewrite !sleeps_of_app, sleeps_of_failed_rounds, !length_app, length_map,
        length_seq. cbn. lia.
Qed.

(** ** The collection *)

Lemma matches_same_id v (d d' : document) :
  d' !! "messageId" = d !! "messageId" -> matches v d' = matches v d.
Proof. unfold matches. intros ->. reflexivity. Qed.

Lemma unique_ids_same_ids coll :
  forall coll',
    Forall2 (fun d d' : document => d' !! "messageId" = d !! "messageId") coll coll' ->
    unique_ids coll -> unique_ids coll'.
Proof.
  induction coll as [|d coll IH]; intros coll' H2; inversion H2 as [|? d' ? rest' Hd Hrest];
    subst; [auto|].
  cbn [unique_ids]. intros [Hfirst Huniq]. split; [|apply IH; assumption].
  clear IH Huniq H2. induction Hrest as [|x x' l l' Hx Hl IHl]; [constructor|].
  inversion Hfirst as [|? ? Hx0 Hl0]; subst. constructor; [|apply IHl; exact Hl0].
  intros v Hv. rewrite (matches_same_id v d d' Hd). apply Hx0. congruence.
Qed.

Lemma update_first_same_ids id fs coll :
  ~ In "messageId" (map fst fs) ->
  forall coll',
    update_first id fs coll = Some coll' ->
    Forall2 (fun d d' : document => d' !! "messageId" = d !! "messageId") coll coll'.
Proof.
  intros Hfs. induction coll as [|d coll IH]; intros coll'; cbn [update_first];
    [discriminate|].
  destruct (matches id d).
  - intros [= <-]. constructor.
    + apply set_fields_frame. exact Hfs.
    + clear. induction coll; constructor; auto.
  - destruct (update_first id fs coll) as [c|]; [|discriminate].
    intros [= <-]. constructor; [reflexivity | apply IH; reflexivity].
Qed.

Lemma update_first_none_forall id fs coll :
  update_first id fs coll = None -> Forall (fun d => matches id d = false) coll.
Proof.
  induction coll as [|d coll IH]; cbn [update_first]; [constructor|].
  destruct (matches id d) eqn:Hd; [discriminate|].
  destruct (update_first id fs coll); [discriminate|].
  intros _. constructor; [exact Hd | apply IH; reflexivity].
Qed.

Lemma unique_ids_snoc coll (n : document) :
  unique_ids coll ->
  (forall v, n !! "messageId" = Some v -> Forall (fun d => matches v d = false) coll) ->
  unique_ids (coll ++ [n]).
Proof.
  induction coll as [|d coll IH]; cbn [unique_ids app]; intros Hu Hn.
  - split; [constructor | exact I].
  - destruct Hu as [Hfirst Hu]. split.
    + apply Forall_app. split; [exact Hfirst|]. constructor; [|constructor].
      intros v Hv. specialize (Hn v Hv). inversion Hn; assumption.
    + apply IH; [exact Hu|]. intros v Hv. specialize (Hn v Hv).
      inversion Hn; assumption.
Qed.

Lemma inserted_document_id u :
  keeps_id u ->
  set_fields (u_setOnInsert u)
    (set_fields (u_set u) ({[ "messageId" := u_messageId u ]} : document))
    !! "messageId" = Some (u_messageId u).
Proof.
  intros [Hset Hins]. rewrite set_fields_lookup.
  destruct (assoc "messageId" (rev (u_setOnInsert u))) as [v|] eqn:Ha.
  - f_equal. revert Ha.
    assert (Hrev : Forall (fun kv => fst kv = "messageId" -> snd kv = u_messageId u)
                     (rev (u_setOnInsert u))).
    { apply List.Forall_forall. intros kv Hkv. apply in_rev in Hkv.
      rewrite List.Forall_forall in Hins. apply Hins. exact Hkv. }
    induction Hrev as [|[k x] l Hk _ IH]; cbn [assoc]; [discriminate|].
    destruct (String.eqb_spec "messageId" k) as [<-|Hne]; [|exact IH].
    intros [= <-]. apply Hk. reflexivity.
  - rewrite set_fields_frame by exact Hset. apply lookup_singleton_eq.
Qed.

Lemma apply_update_unique u coll :
  keeps_id u -> unique_ids coll -> unique_ids (apply_update u coll).
Proof.
  intros Hk Hu. unfold apply_update.
  destruct (update_first (u_messageId u) (u_set u) coll) as [coll'|] eqn:Hf.
  - eapply unique_ids_same_ids; [|exact Hu].
    eapply update_first_same_ids; [exact (proj1 Hk) | exact Hf].
  - destruct (u_upsert u); [|exact Hu].
    apply unique_ids_snoc; [exact Hu|]. intros v Hv.
    rewrite (inserted_document_id u Hk) in Hv. injection Hv as <-.
    eapply update_first_none_forall. exact Hf.
Qed.

Lemma bulk_write_unique updates :
  Forall keeps_id updates ->
  forall coll, unique_ids coll -> unique_ids (bulk_write updates coll).
Proof.
  unfold bulk_write. induction 1 as [|u us Hu _ IH]; intros coll Hc; [exact Hc|].
  cbn [fold_left]. apply IH. apply apply_update_unique; assumption.
Qed.

Lemma history_fields_keys msg hist :
  history_fields msg = Ok hist -> ~ In "messageId" (map fst hist).
Proof.
  unfold history_fields. destruct (msg_history msg); [intros [= <-]; tauto|].
  destruct (deduplicate_history _); [|discriminate]. cbn [ebind].
  intros [= <-]. cbn. intros [H|[H|[]]]; discriminate H.
Qed.

Lemma build_update_keeps_id workflow_id now coll msg us :
  build_update workflow_id now coll msg = Ok us -> Forall keeps_id us.
Proof.
  unfold build_update. destruct (negb (truthy (msg_messageId msg)));
    [intros [= <-]; constructor|].
  destruct (find_one coll (msg_messageId msg)) as [existing|].
  - destruct (py_gt _ _) as [newer|e]; [|discriminate]. cbn [ebind].
    destruct (newer || _).
    + destruct (history_fields msg) as [hist|e] eqn:Hh; [|discriminate].
      cbn [ebind]. intros [= <-]. constructor; [|constructor].
      split; cbn [u_set u_setOnInsert u_messageId].
      * cbn [map fst In]. intros H.
        repeat (destruct H as [H|H]; [discriminate H|]).
        exact (history_fields_keys msg hist Hh H).
      * constructor; [discriminate|constructor].
    + intros [= <-]. constructor; [|constructor].
      split; cbn; [intros [H|[]]; discriminate H | constructor].
  - destruct (history_fields msg) as [hist|e] eqn:Hh; [|discriminate].
    cbn [ebind]. intros [= <-]. constructor; [|constructor].
    split; cbn [u_set u_setOnInsert u_messageId]; [cbn; tauto|].
    repeat (constructor; [cbn; first [reflexivity | discriminate]|]).
    apply List.Forall_forall. intros kv Hkv Hfst. exfalso.
    apply (history_fields_keys msg hist Hh). rewrite <- Hfst.
    apply in_map. exact Hkv.
Qed.

(** X8: [save_messages_to_mongodb] keeps the collection free of duplicate
    messageIds: if no stored document has the messageId of a document
    stored before it, the same holds after any batch, also one that names
    the same new message several times. *)
Theorem save_keeps_ids_unique
    (workflow_id : string) (now : value) (coll : list document)
    (messages : list message) :
  unique_ids coll ->
  unique_ids (fst (save_messages_to_mongodb workflow_id now coll messages)).
Proof.
  intros Hu. unfold save_messages_to_mongodb.
  destruct (eflat_map (build_update workflow_id now coll) messages)
    as [updates|e] eqn:Hb; [|exact Hu].
  assert (Hk : Forall keeps_id updates).
  { eapply eflat_map_Forall; [|exact Hb].
    intros msg us _. apply build_update_keeps_id. }
  destruct updates as [|u us]; [exact Hu|]. cbn [fst].
  apply bulk_write_unique; assumption.
Qed.



Lemma eflat_map_raises {A B : Type} (f : A -> exc (list B)) l x e :
  In x l -> f x = Raise e -> exists e', eflat_map f l = Raise e'.
Proof.
  induction l as [|y l IH]; intros Hin Hx; [destruct Hin|].
  cbn [eflat_map]. destruct Hin as [->|Hin].
  - rewrite Hx. cbn. eauto.
  - destruct (f y); [|cbn; eauto]. cbn [ebind].
    destruct (IH Hin Hx) as [e' ->]. cbn. eauto.
Qed.

(** X10: one record that cannot be compared with its stored document
    blocks the whole batch.  When any message of the batch has a stored
    document and either the message has no timestamp or the document
    stores a null timestamp, the comparison of the two raises, the
    exception is caught, no message of the batch is written, not even a
    scan time, and 0 is returned. *)
Theorem absent_timestamp_blocks_batch
    (workflow_id : string) (now : value) (coll : list document)
    (messages : list message) (msg : message) (doc : document) :
  In msg messages ->
  truthy (msg_messageId msg) = true ->
  find_one coll (msg_messageId msg) = Some doc ->
  msg_latestTimestamp msg = None \/ doc !! "latestTimestamp" = Some VNone ->
  save_messages_to_mongodb workflow_id now coll messages = (coll, 0).
Proof.
  intros Hin Hid Hfind Hnone.
  assert (Hraise : build_update workflow_id now coll msg = Raise TypeError).
  { unfold build_update. rewrite Hid, Hfind. cbn [negb].
    destruct Hnone as [-> | ->]; [reflexivity|].
    destruct (msg_latestTimestamp msg); reflexivity. }
  destruct (eflat_map_raises _ _ _ _ Hin Hraise) as [e' He'].
  unfold save_messages_to_mongodb. rewrite He'. reflexivity.
Qed.

(** ** The retry script *)

Lemma classify_ok r resp :
  classify r = Ok resp -> r = Ok resp /\ transient (status_code resp) = false.
Proof.
  destruct r as [resp'|e]; cbn [classify]; [|discriminate].
  destruct (transient (status_code resp')) eqn:Ht; [discriminate|].
  intros [= <-]. auto.
Qed.

Lemma request_with_retry_first session random req w resp :
  session (calls w) req = Ok resp -> transient (status_code resp) = false ->
  request_with_retry session random default_max_retries req w =
    (Ok resp, {| calls := S (calls w); draws := draws w;
                 trace := trace w ++ [EvRequest req] |}).
Proof.
  intros Hs Ht. unfold request_with_retry.
  change (Z.to_nat default_max_retries) with 5%nat.
  cbn [retry_from attempt_once]. rewrite Hs. unfold classify. rewrite Ht.
  reflexivity.
Qed.

Lemma request_with_retry_outcome session random req w :
  exists m : nat,
    (m < 5)%nat /\
    calls (snd (request_with_retry session random default_max_retries req w))
      = (calls w + S m)%nat /\
    requests_of (trace (snd (request_with_retry session random
                               default_max_retries req w)))
      = requests_of (trace w) ++ repeat req (S m) /\
    fst (request_with_retry session random default_max_retries req w)
      = classify (session (calls w + m)%nat req).
Proof.
  destruct (retry_from_spec session random req default_max_retries 5 1 w)
    as (m & Hm & _ & _ & Heq); [reflexivity | lia |].
  exists m. unfold request_with_retry.
  change (Z.to_nat default_max_retries) with 5%nat. rewrite Heq.
  cbn [fst snd calls trace]. repeat split; try assumption.
  rewrite !requests_of_app, requests_of_failed_rounds. f_equal.
  cbn [requests_of flat_map app]. symmetry. apply (repeat_cons m req).
Qed.

Section RetryFacts.

Variable session : nat -> request -> value -> exc response.
Variable random : nat -> Q.
Variable quote : string -> string.
Variables (base_url api_prefix : string).

Lemma failed_loop_echo workflow_id limit :
  (forall n req body, exists resp d x l c,
     session n req body = Ok resp /\ status_code resp = 200 /\
     json resp = Ok (VDict d) /\ assoc "data" d = Some (VList (x :: l)) /\
     assoc "nextCursor" d = Some (VStr c) /\ c <> "") ->
  forall fuel out cursor w,
    cursor = VNone \/ (exists c, cursor = VStr c) ->
    failed_loop session random quote base_url api_prefix workflow_id limit
      fuel out cursor w = None.
Proof.
  intros Hecho. induction fuel as [|fuel IH]; intros out cursor w Hcur;
    [reflexivity|].
  cbn [failed_loop]. unfold failed_page.
  assert (Hurl : exists url, failed_executions_url quote base_url api_prefix
                               workflow_id limit cursor = Ok url).
  { unfold failed_executions_url. destruct Hcur as [->|[c ->]]; cbn [truthy].
    - cbn. eauto.
    - destruct (negb (String.eqb c "")); cbn; eauto. }
  destruct Hurl as [url ->].
  destruct (Hecho (calls w) (mkRequest "GET" url) VNone)
    as (resp & d & x & l & c & Hs & Hcode & Hjson & Hdata & Hnext & Hc).
  unfold request_with_body.
  rewrite (request_with_retry_first _ random _ w resp Hs)
    by (rewrite Hcode; reflexivity).
  cbn [ebind]. rewrite Hcode. cbn [Z.eqb Pos.eqb negb]. rewrite Hjson.
  cbn [ebind py_get py_get_default]. rewrite Hdata. cbn [truthy ebind py_iter].
  rewrite Hnext. cbn [ebind]. unfold py_or. cbn [truthy].
  destruct (String.eqb_spec c ""); [contradiction|]. cbn [negb orb truthy].
  destruct (String.eqb_spec c ""); [contradiction|]. cbn [negb orb].
  apply IH. right. eauto.
Qed.

End RetryFacts.

(** X11: [list_failed_executions] has no bound on the number of pages.  On
    a server that answers every request with status 200, a non-empty list
    of executions and a non-empty cursor, its [while True] loop never
    ends: whatever the amount of fuel, no result is reached.  (The
    [fetch_executions] of the tracker ends on the same server, since it
    stops at its limit.) *)
Theorem list_failed_executions_never_returns
    (session : nat -> request -> value -> exc response) (random : nat -> Q)
    (quote : string -> string) (base_url api_prefix workflow_id : string)
    (limit : Z) :
  (forall n req body, exists resp d x l c,
     session n req body = Ok resp /\ status_code resp = 200 /\
     json resp = Ok (VDict d) /\ assoc "data" d = Some (VList (x :: l)) /\
     assoc "nextCursor" d = Some (VStr c) /\ c <> "") ->
  forall fuel w,
    list_failed_executions session random quote base_url api_prefix
      workflow_id limit fuel w = None.
Proof.
  intros Hecho fuel w. unfold list_failed_executions.
  apply failed_loop_echo; auto.
Qed.

(** X12: [retry_execution] calls the session between once and ten times,
    every call being a POST to the retry URL of the execution; when it
    reports success, the last call returned a response with a status from
    200 to 299 that [request_with_retry] did not classify as transient. *)
Theorem retry_execution_outcome
    (session : nat -> request -> value -> exc response) (random : nat -> Q)
    (base_url api_prefix execution_id : string) (load_workflow : bool)
    (w : world) :
  let req := mkRequest "POST"
               (rstrip_slash base_url +:+ api_prefix +:+ "/executions/"
                +:+ execution_id +:+ "/retry") in
  let r := fst (retry_execution session random base_url api_prefix
                  execution_id load_workflow w) in
  let w' := snd (retry_execution session random base_url api_prefix
                   execution_id load_workflow w) in
  exists n : nat,
    (1 <= n <= 10)%nat /\
    calls w' = (calls w + n)%nat /\
    requests_of (trace w') = requests_of (trace w) ++ repeat req n /\
    (r = Ok true ->
     exists body resp,
       session (calls w + n - 1)%nat req body = Ok resp /\
       200 <= status_code resp < 300 /\
       transient (status_code resp) = false).
Proof.
  cbv zeta. unfold retry_execution, request_with_body.
  set (req := mkRequest "POST" _).
  set (body1 := VDict [("loadWorkflow", VBool load_workflow)]).
  destruct (request_with_retry_outcome (fun n r => session n r body1) random req w)
    as (m1 & Hm1 & Hc1 & Hq1 & Hr1).
  destruct (request_with_retry (fun n r => session n r body1) random
              default_max_retries req w) as [r1 w1].
  cbn [fst snd] in Hc1, Hq1, Hr1.
  destruct r1 as [resp1|e1].
  - symmetry in Hr1. apply classify_ok in Hr1 as [Hs1 Ht1].
    destruct (existsb (Z.eqb (status_code resp1)) [400; 404; 422]).
    + destruct (request_with_retry_outcome (fun n r => session n r (VDict []))
                  random req w1) as (m2 & Hm2 & Hc2 & Hq2 & Hr2).
      destruct (request_with_retry (fun n r => session n r (VDict [])) random
                  default_max_retries req w1) as [r2 w2].
      cbn [fst snd] in Hc2, Hq2, Hr2 |- *.
      exists (S m1 + S m2)%nat. split; [lia|]. split; [lia|]. split.
      * rewrite Hq2, Hq1, <- app_assoc, <- repeat_app. reflexivity.
      * destruct r2 as [resp2|e2]; [|discriminate]. cbn [ebind].
        intros [= Hok]. symmetry in Hr2. apply classify_ok in Hr2 as [Hs2 Ht2].
        exists (VDict []), resp2. rewrite Hc1 in Hs2.
        replace (calls w + (S m1 + S m2) - 1)%nat with (calls w + S m1 + m2)%nat by lia.
        split; [exact Hs2|]. split; [|exact Ht2].
        unfold is_success in Hok. lia.
    + cbn [fst snd]. exists (S m1). split; [lia|]. split; [exact Hc1|].
      split; [exact Hq1|]. intros [= Hok]. exists body1, resp1.
      replace (calls w + S m1 - 1)%nat with (calls w + m1)%nat by lia.
      split; [exact Hs1|]. split; [|exact Ht1]. unfold is_success in Hok. lia.
  - cbn [fst snd]. exists (S m1). split; [lia|]. split; [exact Hc1|].
    split; [exact Hq1|]. discriminate.
Qed.

Section RetryAllFacts.

Variable session : nat -> request -> value -> exc response.
Variable random : nat -> Q.
Variables (base_url api_prefix : string).
Variables (max_exec sleep_ms : Z).
Variable load_workflow : bool.

Local Abbreviation run_all :=
  (retry_all session random base_url api_prefix max_exec sleep_ms load_workflow).





End RetryAllFacts.


(** ** List mode *)

Lemma pflat_map_Forall {A B : Type} (f : A -> list B * option exn)
    (P : B -> Prop) l :
  (forall x, In x l -> Forall P (fst (f x))) ->
  Forall P (fst (pflat_map f l)).
Proof.
  induction l as [|x l IH]; intros Hf; cbn [pflat_map]; [constructor|].
  pose proof (Hf x (or_introl eq_refl)) as Hx.
  destruct (f x) as [r [e|]]; cbn [fst] in *; [exact Hx|].
  assert (Hl : Forall P (fst (pflat_map f l)))
    by (apply IH; intros y Hy; apply Hf; right; exact Hy).
  destruct (pflat_map f l) as [rs oe]. cbn [fst] in *.
  apply Forall_app. auto.
Qed.

Lemma pbind_Forall {A B : Type} (m : exc A) (k : A -> list B * option exn)
    (P : B -> Prop) :
  (forall a, m = Ok a -> Forall P (fst (k a))) -> Forall P (fst (pbind m k)).
Proof.
  intros Hk. destruct m as [a|e]; cbn [pbind fst]; [apply Hk; reflexivity|constructor].
Qed.

Section ListingFacts.

Variable wa_id : option string.
Variable since : option Z.

Lemma list_status_ok execution_id status_obj :
  Forall (listed_ok wa_id since)
    (fst (list_status wa_id since execution_id status_obj)).
Proof.
  unfold list_status. destruct (negb (isinstance_dict status_obj)); [constructor|].
  apply pbind_Forall. intros msg_id _.
  destruct (negb (truthy msg_id)) eqn:Hid; [constructor|].
  apply negb_false_iff in Hid.
  apply pbind_Forall. intros st _. apply pbind_Forall. intros raw_ts _.
  apply pbind_Forall. intros rid _.
  destruct (too_old since (normalize_timestamp raw_ts)) eqn:Hold; [constructor|].
  destruct (other_recipient wa_id rid) eqn:Hrid; [constructor|].
  apply pbind_Forall. intros formatted Hf. cbn [fst].
  constructor; [|constructor]. repeat split; assumption.
Qed.

Lemma list_node_ok execution_id node :
  Forall (listed_ok wa_id since) (fst (list_node wa_id since execution_id node)).
Proof.
  unfold list_node. destruct (snd node); try constructor.
  apply pflat_map_Forall. intros run _. unfold list_run.
  destruct (negb (isinstance_dict run)); [constructor|].
  apply pbind_Forall. intros d _. apply pbind_Forall. intros m _.
  apply pbind_Forall. intros main_data _.
  apply pflat_map_Forall. intros mi _. unfold list_main_item.
  destruct mi; try constructor.
  apply pflat_map_Forall. intros item _. unfold list_item.
  destruct (negb (isinstance_dict item)); [constructor|].
  apply pbind_Forall. intros j _. apply pbind_Forall. intros b _.
  apply pbind_Forall. intros s _.
  destruct (py_or s (VList [])); try constructor.
  apply pflat_map_Forall. intros so _. apply list_status_ok.
Qed.

Lemma collect_execution_ok execution :
  Forall (listed_ok wa_id since) (fst (collect_execution wa_id since execution)).
Proof.
  unfold collect_execution.
  apply pbind_Forall. intros id _. apply pbind_Forall. intros d1 _.
  apply pbind_Forall. intros exec_data _. apply pbind_Forall. intros rd _.
  apply pbind_Forall. intros rn _. apply pbind_Forall. intros nodes _.
  apply pflat_map_Forall. intros node _. apply list_node_ok.
Qed.

Lemma collect_statuses_ok executions :
  forall all_statuses,
    collect_statuses wa_id since executions = Ok all_statuses ->
    Forall (listed_ok wa_id since) all_statuses.
Proof.
  induction executions as [|e rest IH]; intros all_statuses; cbn [collect_statuses].
  - intros [= <-]. constructor.
  - pose proof (collect_execution_ok e) as He.
    destruct (collect_execution wa_id since e) as [found [err|]]; cbn [fst] in He.
    + destruct (py_get e "id"); [|discriminate]. cbn [ebind].
      destruct (collect_statuses wa_id since rest) as [r|]; [|discriminate].
      cbn [ebind]. intros [= <-]. apply Forall_app. split; [exact He|].
      apply IH. reflexivity.
    + destruct (collect_statuses wa_id since rest) as [r|]; [|discriminate].
      cbn [ebind]. intros [= <-]. apply Forall_app. split; [exact He|].
      apply IH. reflexivity.
Qed.


End ListingFacts.

(** ** Grouping by message id *)

Lemma same_key_true a k : same_key a k = true <-> hash_atom k = Ok a.
Proof.
  unfold same_key. destruct (hash_atom k) as [b|e].
  - rewrite bool_decide_eq_true. split; [intros ->; reflexivity|intros [= ->]; reflexivity].
  - split; discriminate.
Qed.

Lemma group_add_spec a s m :
  (exists m1 k l m2,
      m = m1 ++ (k, l) :: m2 /\ same_key a k = true /\
      Forall (fun e => same_key a (fst e) = false) m1 /\
      group_add a s m = m1 ++ (k, l ++ [s]) :: m2) \/
  (Forall (fun e => same_key a (fst e) = false) m /\
   group_add a s m = m ++ [(ls_messageId s, [s])]).
Proof.
  induction m as [|[k l] m IH]; cbn [group_add].
  - right. split; [constructor|reflexivity].
  - destruct (same_key a k) eqn:Hk.
    + left. exists [], k, l, m. repeat split; auto.
    + destruct IH as [(m1 & k' & l' & m2 & -> & Hk' & Hm1 & ->)|[Hm ->]].
      * left. exists ((k, l) :: m1), k', l', m2. repeat split; auto.
      * right. split; [constructor; assumption|reflexivity].
Qed.

Lemma group_add_keys_found (s : listed_status) m1 (k : value) l m2 :
  map (fun e : value * list listed_status => hash_atom (fst e))
      (m1 ++ (k, l ++ [s]) :: m2) =
  map (fun e => hash_atom (fst e)) (m1 ++ (k, l) :: m2).
Proof. rewrite !List.map_app. reflexivity. Qed.

Lemma group_add_perm a s m :
  Permutation (concat (map snd (group_add a s m))) (concat (map snd m) ++ [s]).
Proof.
  induction m as [|[k l] m IH]; cbn [group_add map concat snd]; [reflexivity|].
  destruct (same_key a k); cbn [map concat snd].
  - rewrite <- !app_assoc. apply Permutation_app_head. apply Permutation_app_comm.
  - rewrite IH, app_assoc. reflexivity.
Qed.

Lemma filter_snoc {A : Type} (f : A -> bool) l x :
  List.filter f (l ++ [x]) = List.filter f l ++ (if f x then [x] else []).
Proof.
  induction l as [|y l IH]; cbn [app List.filter].
  - destruct (f x); reflexivity.
  - rewrite IH. destruct (f y); reflexivity.
Qed.

Lemma group_entry_other pre s a e :
  hash_atom (ls_messageId s) = Ok a ->
  hash_atom (fst e) <> Ok a ->
  group_entry_ok pre e -> group_entry_ok (pre ++ [s]) e.
Proof.
  intros Hs Hne (b & Hb & Hl & Hn). exists b. split; [exact Hb|]. split; [|exact Hn].
  unfold statuses_of in *. rewrite filter_snoc. unfold same_key at 2. rewrite Hs.
  rewrite bool_decide_eq_false_2; [rewrite app_nil_r; exact Hl|].
  intros ->. apply Hne. exact Hb.
Qed.

Lemma group_add_inv pre s a m :
  hash_atom (ls_messageId s) = Ok a ->
  Forall (group_entry_ok pre) m ->
  List.NoDup (map (fun e => hash_atom (fst e)) m) ->
  Permutation (concat (map snd m)) pre ->
  Forall (group_entry_ok (pre ++ [s])) (group_add a s m) /\
  List.NoDup (map (fun e => hash_atom (fst e)) (group_add a s m)).
Proof.
  intros Hs Hm Hnd Hperm.
  destruct (group_add_spec a s m)
    as [(m1 & k & l & m2 & -> & Hk & Hm1 & ->)|[Hnone ->]].
  - apply same_key_true in Hk. split.
    + clear Hperm Hm1. rewrite List.map_app in Hnd. cbn [map fst] in Hnd.
      rewrite Hk in Hnd. pose proof (List.NoDup_remove_2 _ _ _ Hnd) as Hnot.
      apply Forall_app in Hm as [H1 H2].
      inversion H2 as [|? ? Hkl H2']; subst.
      apply Forall_app. split; [|constructor].
      * rewrite List.Forall_forall in *. intros e He.
        apply (group_entry_other pre s a); auto.
        intros Heq. apply Hnot. apply in_or_app. left.
        rewrite <- Heq. apply (in_map (fun e => hash_atom (fst e))). exact He.
      * destruct Hkl as (b & Hb & Hl & Hn). cbn [fst snd] in *.
        rewrite Hk in Hb. injection Hb as <-. exists a. cbn [fst snd].
        split; [exact Hk|]. split.
        -- unfold statuses_of in *. rewrite filter_snoc. unfold same_key at 2. rewrite Hs.
           rewrite bool_decide_eq_true_2 by reflexivity. rewrite Hl. reflexivity.
        -- destruct l; discriminate.
      * rewrite List.Forall_forall in *. intros e He.
        apply (group_entry_other pre s a); auto.
        intros Heq. apply Hnot. apply in_or_app. right.
        rewrite <- Heq. apply (in_map (fun e => hash_atom (fst e))). exact He.
    + rewrite group_add_keys_found. exact Hnd.
  - assert (Hfresh : ~ In (Ok a) (map (fun e => hash_atom (fst e)) m)).
    { intros Hin. apply in_map_iff in Hin as (e & He & Hin).
      rewrite List.Forall_forall in Hnone. specialize (Hnone e Hin).
      apply same_key_true in He. congruence. }
    split.
    + apply Forall_app. split.
      * rewrite List.Forall_forall in *. intros e He.
        apply (group_entry_other pre s a); auto.
        intros Heq. apply Hfresh. rewrite <- Heq.
        apply (in_map (fun e => hash_atom (fst e))). exact He.
      * constructor; [|constructor]. exists a. cbn [fst snd].
        split; [exact Hs|]. split; [|discriminate].
        unfold statuses_of in *. rewrite filter_snoc. unfold same_key at 2. rewrite Hs.
        rewrite bool_decide_eq_true_2 by reflexivity.
        assert (Hnil : List.filter (fun s0 => same_key a (ls_messageId s0)) pre = []).
        { destruct (List.filter (fun s0 => same_key a (ls_messageId s0)) pre)
            as [|x r] eqn:Hf; [reflexivity|exfalso].
          assert (Hx : In x (List.filter (fun s0 => same_key a (ls_messageId s0)) pre))
            by (rewrite Hf; left; reflexivity).
          apply filter_In in Hx as [Hx Hxa]. apply same_key_true in Hxa.
          apply (Permutation_in _ (Permutation_sym Hperm)) in Hx.
          apply in_concat in Hx as (l & Hl & Hx).
          apply in_map_iff in Hl as (e & <- & He).
          rewrite List.Forall_forall in Hm. destruct (Hm e He) as (b & Hb & Hl & _).
          rewrite Hl in Hx. apply filter_In in Hx as [_ Hxb].
          apply same_key_true in Hxb. rewrite Hxa in Hxb. injection Hxb as <-.
          apply Hfresh. rewrite <- Hb.
          apply (in_map (fun e => hash_atom (fst e))). exact He. }
        rewrite Hnil. reflexivity.
    + rewrite List.map_app. cbn [map fst]. rewrite Hs.
      apply NoDup_ListNoDup. apply NoDup_app. split; [apply NoDup_ListNoDup; exact Hnd|].
      split; [|apply NoDup_singleton].
      intros x Hx Hx'. apply list_elem_of_In in Hx.
      apply list_elem_of_In in Hx'. destruct Hx' as [<-|[]]. exact (Hfresh Hx).
Qed.

Lemma group_from_inv all_statuses :
  forall pre m m',
    Forall (group_entry_ok pre) m ->
    List.NoDup (map (fun e => hash_atom (fst e)) m) ->
    Permutation (concat (map snd m)) pre ->
    group_from m all_statuses = Ok m' ->
    Forall (group_entry_ok (pre ++ all_statuses)) m' /\
    List.NoDup (map (fun e => hash_atom (fst e)) m') /\
    Permutation (concat (map snd m')) (pre ++ all_statuses).
Proof.
  induction all_statuses as [|s rest IH]; intros pre m m' Hm Hnd Hperm; cbn [group_from].
  - intros [= <-]. rewrite app_nil_r. auto.
  - destruct (hash_atom (ls_messageId s)) as [a|] eqn:Hs; [|discriminate].
    cbn [ebind]. intros Hg.
    destruct (group_add_inv pre s a m Hs Hm Hnd Hperm) as [Hm1 Hnd1].
    specialize (IH (pre ++ [s]) (group_add a s m) m' Hm1 Hnd1).
    rewrite <- app_assoc in IH. cbn [app] in IH. apply IH; [|exact Hg].
    rewrite group_add_perm. rewrite Hperm. reflexivity.
Qed.

Lemma group_from_total all_statuses :
  forall m,
    Forall (fun s => exists a, hash_atom (ls_messageId s) = Ok a) all_statuses ->
    exists m', group_from m all_statuses = Ok m'.
Proof.
  induction all_statuses as [|s rest IH]; intros m Hall; cbn [group_from]; [eauto|].
  inversion Hall as [|? ? [a Ha] Hrest]; subst. rewrite Ha. cbn [ebind].
  apply IH. exact Hrest.
Qed.

(** ** The messages of the listing *)

Lemma StronglySorted_map_in {A B : Type} (R : A -> A -> Prop)
    (R' : B -> B -> Prop) (f : A -> B) l :
  (forall a b, In a l -> In b l -> R a b -> R' (f a) (f b)) ->
  StronglySorted R l -> StronglySorted R' (map f l).
Proof.
  intros HR Hs. induction Hs as [|x l Hs IH Hx]; cbn [map]; [constructor|].
  constructor.
  - apply IH. intros a b Ha Hb. apply HR; right; assumption.
  - rewrite List.Forall_forall in *. intros b Hb.
    apply in_map_iff in Hb as (y & <- & Hy).
    apply HR; [left; reflexivity|right; exact Hy|apply Hx; exact Hy].
Qed.

Lemma StronglySorted_app_l {A : Type} (R : A -> A -> Prop) l1 l2 :
  StronglySorted R (l1 ++ l2) -> StronglySorted R l1.
Proof.
  induction l1 as [|x l1 IH]; cbn [app]; intros Hs; [constructor|].
  inversion Hs as [|? ? Hs' Hx]; subst. constructor; [apply IH; exact Hs'|].
  apply Forall_app in Hx as [Hx _]. exact Hx.
Qed.

Lemma decorate_listed_spec l :
  forall keyed, decorate_listed l = Ok keyed ->
    map snd keyed = l /\
    Forall (fun kx => listed_key (snd kx) = Ok (fst kx)) keyed.
Proof.
  induction l as [|x l IH]; intros keyed; cbn [decorate_listed].
  - intros [= <-]. split; [reflexivity|constructor].
  - destruct (listed_key x) as [k|] eqn:Hk; [|discriminate]. cbn [ebind].
    destruct (decorate_listed l) as [r|]; [|discriminate]. cbn [ebind].
    intros [= <-]. destruct (IH r eq_refl) as [Hm Hf].
    split; [cbn [map snd]; rewrite Hm; reflexivity|].
    constructor; [exact Hk|exact Hf].
Qed.

Lemma listed_key_before a b ka kb :
  listed_key a = Ok ka -> listed_key b = Ok kb ->
  key_ltb ka kb = false -> listed_before a b.
Proof.
  unfold listed_key. intros Ha Hb Hlt.
  destruct (get_status_priority (ls_status a)) as [pa|] eqn:Hpa; [|discriminate].
  destruct (get_status_priority (ls_status b)) as [pb|] eqn:Hpb; [|discriminate].
  cbn [ebind] in *. injection Ha as <-. injection Hb as <-.
  apply key_ltb_false in Hlt. cbn [fst snd] in Hlt.
  exists pa, pb. split; [exact Hpa|]. split; [exact Hpb|]. exact Hlt.
Qed.

Lemma build_message_spec all_statuses e msg :
  group_entry_ok all_statuses e ->
  build_message e = Ok msg ->
  lm_messageId msg = fst e /\ message_ok all_statuses msg.
Proof.
  intros (b & Hb & Hl & Hne). unfold build_message.
  destruct (decorate_listed (snd e)) as [keyed|] eqn:Hd; [|discriminate].
  cbn [ebind]. destruct (decorate_listed_spec _ _ Hd) as [Hmap Hkeys].
  pose proof (sort_keyed_perm key_ltb keyed) as Hperm.
  pose proof (sort_keyed_sorted key_ltb key_ltb_asym key_ltb_cotrans keyed) as Hsorted.
  destruct (sort_keyed key_ltb keyed) as [|[k latest] rest] eqn:Hs; [discriminate|].
  intros [= <-]. split; [reflexivity|].
  assert (Hhist : Permutation (map snd ((k, latest) :: rest)) (snd e)).
  { rewrite <- Hmap. apply Permutation_map. exact Hperm. }
  exists b, latest, (map snd rest). cbn [lm_messageId lm_history lm_statusCount
    lm_waId lm_latestStatus lm_latestTimestamp lm_latestTimestampFormatted].
  split; [exact Hb|]. split; [reflexivity|].
  split; [rewrite Hhist, Hl; reflexivity|].
  split.
  - change (latest :: map snd rest) with (map snd ((k, latest) :: rest)).
    eapply StronglySorted_map_in; [|exact Hsorted].
    intros x y Hx Hy Hxy.
    assert (Hin : forall z, In z ((k, latest) :: rest) ->
                    listed_key (snd z) = Ok (fst z)).
    { intros z Hz. rewrite List.Forall_forall in Hkeys. apply Hkeys.
      apply (Permutation_in _ Hperm). exact Hz. }
    eapply listed_key_before; [apply Hin; exact Hx|apply Hin; exact Hy|exact Hxy].
  - split; [|auto]. rewrite <- (Permutation_length Hhist). reflexivity.
Qed.

Lemma build_messages_spec all_statuses entries :
  forall msgs,
    Forall (group_entry_ok all_statuses) entries ->
    build_messages entries = Ok msgs ->
    map lm_messageId msgs = map fst entries /\
    Forall (message_ok all_statuses) msgs.
Proof.
  induction entries as [|e rest IH]; intros msgs Hall; cbn [build_messages].
  - intros [= <-]. split; [reflexivity|constructor].
  - inversion Hall as [|? ? He Hrest]; subst.
    destruct (build_message e) as [m|] eqn:Hm; [|discriminate]. cbn [ebind].
    destruct (build_messages rest) as [r|]; [|discriminate]. cbn [ebind].
    intros [= <-]. destruct (IH r Hrest eq_refl) as [Hids Hok].
    destruct (build_message_spec _ _ _ He Hm) as [Hid Hmok].
    split; [cbn [map]; rewrite Hid, Hids; reflexivity|].
    constructor; assumption.
Qed.

Lemma py_slice_to_firstn {A : Type} (l : list A) n :
  exists k, py_slice_to l n = firstn k l.
Proof. unfold py_slice_to. destruct (n >=? 0); eauto. Qed.

Lemma summarize_inv wa_id workflow_id max_messages since executions res :
  summarize wa_id workflow_id max_messages since executions = Ok res ->
  exists all_statuses messages_map messages,
    collect_statuses wa_id since executions = Ok all_statuses /\
    group_from [] all_statuses = Ok messages_map /\
    build_messages messages_map = Ok messages /\
    res = mkListResult workflow_id wa_id (Z.of_nat (length messages_map))
            (py_slice_to
               (sorted_desc Z.ltb (fun m => opt_or_0 (lm_latestTimestamp m)) messages)
               max_messages).
Proof.
  unfold summarize.
  destruct (collect_statuses wa_id since executions) as [a|]; [|discriminate].
  cbn [ebind]. destruct (group_from [] a) as [m|] eqn:Hg; [|discriminate].
  cbn [ebind]. destruct (build_messages m) as [ms|] eqn:Hb; [|discriminate].
  cbn [ebind]. intros [= <-]. exists a, m, ms. auto.
Qed.

Lemma group_from_nil_inv all_statuses m :
  group_from [] all_statuses = Ok m ->
  Forall (group_entry_ok all_statuses) m /\
  List.NoDup (map (fun e => hash_atom (fst e)) m) /\
  Permutation (concat (map snd m)) all_statuses.
Proof.
  intros Hg. apply (group_from_inv all_statuses [] [] m); auto; constructor.
Qed.

(** X14: every status collected in list mode names a message, is not older
    than [since] when [since] is given and not 0, is not addressed to a
    recipient other than [wa_id] when both are given, and carries the
    formatting of its own timestamp. *)
Theorem listed_statuses_pass_filters
    (wa_id : option string) (since : option Z) (executions : list value)
    (all_statuses : list listed_status) :
  collect_statuses wa_id since executions = Ok all_statuses ->
  Forall (fun s =>
    truthy (ls_messageId s) = true /\
    (forall t, since = Some t -> t <> 0 -> t <= opt_or_0 (ls_timestamp s)) /\
    (forall w, wa_id = Some w -> w <> "" -> truthy (ls_waId s) = true ->
       py_eq (ls_waId s) (VStr w) = true) /\
    format_timestamp (ls_timestamp s) = Ok (ls_timestampFormatted s))
    all_statuses.
Proof.
  intros Hc. eapply Forall_impl; [apply (collect_statuses_ok _ _ _ _ Hc)|].
  intros s (Hid & Hold & Hrid & Hf). split; [exact Hid|].
  split; [|split; [|exact Hf]].
  - intros t -> Ht. cbn [too_old] in Hold.
    destruct (Z.eqb_spec t 0); [contradiction|]. cbn [negb andb] in Hold. lia.
  - intros w -> Hw Hrid'. cbn [other_recipient] in Hrid.
    destruct (String.eqb_spec w ""); [contradiction|].
    rewrite Hrid' in Hrid. cbn [negb andb] in Hrid.
    destruct (py_eq (ls_waId s) (VStr w)); [reflexivity|discriminate].
Qed.

Lemma list_recent_messages_inv session random quote wa_id workflow_id base_url
    api_prefix limit max_messages since fuel w res w' :
  list_recent_messages session random quote wa_id workflow_id base_url api_prefix
    limit max_messages since fuel w = Some (Ok res, w') ->
  exists executions,
    fetch_executions session random quote base_url api_prefix workflow_id limit
      fuel w = Some (Ok executions, w') /\
    summarize wa_id workflow_id max_messages since executions = Ok res.
Proof.
  unfold list_recent_messages.
  destruct (fetch_executions _ _ _ _ _ _ _ _ _) as [[[executions|e] w1]|];
    [|discriminate|discriminate].
  intros [= Hs <-]. exists executions. split; [reflexivity|exact Hs].
Qed.

(** X15: every message returned by [list_recent_messages] has a non-empty
    history, which holds exactly the statuses collected for its message
    id from the fetched executions, newest timestamp first and at equal
    timestamps highest priority first; its status count is the length of
    that history and its latest status, timestamp, formatted timestamp and
    recipient are those of the first entry. *)
Theorem listed_messages_invariants
    (session : nat -> request -> exc response) (random : nat -> Q)
    (quote : string -> string) (wa_id : option string)
    (workflow_id base_url api_prefix : string) (limit max_messages : Z)
    (since : option Z) (fuel : nat) (w w' : world) (res : list_result) :
  list_recent_messages session random quote wa_id workflow_id base_url api_prefix
    limit max_messages since fuel w = Some (Ok res, w') ->
  exists executions all_statuses,
    fetch_executions session random quote base_url api_prefix workflow_id limit
      fuel w = Some (Ok executions, w') /\
    collect_statuses wa_id since executions = Ok all_statuses /\
    Forall (message_ok all_statuses) (lr_messages res).
Proof.
  intros Hl. apply list_recent_messages_inv in Hl as (executions & Hf & Hs).
  exists executions.
  apply summarize_inv in Hs as (a & m & ms & Hc & Hg & Hb & ->).
  exists a. split; [exact Hf|]. split; [exact Hc|]. cbn [lr_messages].
  destruct (group_from_nil_inv _ _ Hg) as (Hm & _ & _).
  destruct (build_messages_spec _ _ _ Hm Hb) as [_ Hok].
  set (sorted := sorted_desc Z.ltb (fun m => opt_or_0 (lm_latestTimestamp m)) ms).
  assert (Hsp : Permutation sorted ms) by apply sorted_desc_perm.
  destruct (py_slice_to_firstn sorted max_messages) as [k ->].
  rewrite List.Forall_forall in *. intros x Hx. apply Hok.
  apply (Permutation_in _ Hsp). rewrite <- (firstn_skipn k sorted).
  apply in_or_app. left. exact Hx.
Qed.

(** X16: [list_recent_messages] returns its messages newest latest
    timestamp first and no message id twice; it returns
    min(max_messages, total) messages for a max_messages that is not
    negative and drops the last -max_messages ones for a negative one; the
    total it reports is the number of distinct message ids among the
    statuses collected from the fetched executions. *)
Theorem listing_order_and_limit
    (session : nat -> request -> exc response) (random : nat -> Q)
    (quote : string -> string) (wa_id : option string)
    (workflow_id base_url api_prefix : string) (limit max_messages : Z)
    (since : option Z) (fuel : nat) (w w' : world) (res : list_result) :
  list_recent_messages session random quote wa_id workflow_id base_url api_prefix
    limit max_messages since fuel w = Some (Ok res, w') ->
  lr_workflowId res = workflow_id /\ lr_filterWaId res = wa_id /\
  StronglySorted
    (fun a b => opt_or_0 (lm_latestTimestamp b) <= opt_or_0 (lm_latestTimestamp a))
    (lr_messages res) /\
  List.NoDup (map (fun m => hash_atom (lm_messageId m)) (lr_messages res)) /\
  (0 <= max_messages ->
     Z.of_nat (length (lr_messages res)) = Z.min max_messages (lr_totalMessages res)) /\
  (max_messages < 0 ->
     Z.of_nat (length (lr_messages res)) = Z.max 0 (lr_totalMessages res + max_messages)) /\
  exists executions all_statuses ids,
    fetch_executions session random quote base_url api_prefix workflow_id limit
      fuel w = Some (Ok executions, w') /\
    collect_statuses wa_id since executions = Ok all_statuses /\
    List.NoDup ids /\
    (forall a, In a ids <->
       exists s, In s all_statuses /\ hash_atom (ls_messageId s) = Ok a) /\
    lr_totalMessages res = Z.of_nat (length ids).
Proof.
  intros Hl. apply list_recent_messages_inv in Hl as (executions & Hf & Hs).
  apply summarize_inv in Hs as (a & m & ms & Hc & Hg & Hb & ->).
  cbn [lr_workflowId lr_filterWaId lr_messages lr_totalMessages].
  destruct (group_from_nil_inv _ _ Hg) as (Hm & Hnd & Hperm).
  destruct (build_messages_spec _ _ _ Hm Hb) as [Hids _].
  set (sorted := sorted_desc Z.ltb (fun m => opt_or_0 (lm_latestTimestamp m)) ms).
  assert (Hsp : Permutation sorted ms) by apply sorted_desc_perm.
  assert (Hlen : length sorted = length m).
  { rewrite (Permutation_length Hsp). rewrite <- (length_map lm_messageId), Hids.
    apply length_map. }
  assert (Hkeys : map (fun x => hash_atom (lm_messageId x)) ms =
                  map (fun e => hash_atom (fst e)) m).
  { rewrite <- (map_map lm_messageId hash_atom), Hids, map_map. reflexivity. }
  split; [reflexivity|]. split; [reflexivity|].
  split; [|split; [|split; [|split]]].
  - destruct (py_slice_to_firstn sorted max_messages) as [k ->].
    apply (StronglySorted_app_l _ _ (skipn k sorted)). rewrite firstn_skipn.
    eapply StronglySorted_weaken;
      [|apply (sorted_desc_sorted Z.ltb Z_ltb_asym Z_ltb_cotrans)].
    cbn beta. intros x y Hxy. lia.
  - destruct (py_slice_to_firstn sorted max_messages) as [k ->].
    apply (NoDup_app_remove_r _
      (map (fun x => hash_atom (lm_messageId x)) (skipn k sorted))).
    rewrite <- List.map_app, firstn_skipn.
    apply (Permutation_NoDup (l := map (fun x => hash_atom (lm_messageId x)) ms)).
    + apply Permutation_map. symmetry. exact Hsp.
    + rewrite Hkeys. exact Hnd.
  - intros Hmax. unfold py_slice_to.
    destruct (Z.geb_spec max_messages 0); [|lia].
    rewrite length_firstn, Hlen. lia.
  - intros Hmax. unfold py_slice_to.
    destruct (Z.geb_spec max_messages 0); [lia|].
    rewrite length_firstn, Hlen. lia.
  - exists executions, a.
    assert (Hatoms : exists ids, map (fun e => hash_atom (fst e)) m = map Ok ids).
    { clear -Hm. induction Hm as [|e m (b & Hb & _) _ [ids IH]].
      - exists []. reflexivity.
      - exists (b :: ids). cbn [map]. rewrite Hb, IH. reflexivity. }
    destruct Hatoms as [ids Hatoms]. exists ids.
    split; [exact Hf|]. split; [exact Hc|]. split; [|split].
    + rewrite Hatoms in Hnd. apply NoDup_map_inv in Hnd. exact Hnd.
    + intros b. split.
      * intros Hbi. assert (Hin : In (Ok b) (map (fun e => hash_atom (fst e)) m))
          by (rewrite Hatoms; apply in_map; exact Hbi).
        apply in_map_iff in Hin as (e & He & Hin).
        rewrite List.Forall_forall in Hm.
        destruct (Hm e Hin) as (b' & Hb' & Hl & Hne).
        rewrite He in Hb'. injection Hb' as <-.
        destruct (snd e) as [|s r] eqn:Hse; [contradiction|].
        assert (Hs : In s (statuses_of b a)) by (rewrite <- Hl; left; reflexivity).
        apply filter_In in Hs as [Hs Hk]. apply same_key_true in Hk. eauto.
      * intros (s & Hs & Hk).
        apply (Permutation_in _ (Permutation_sym Hperm)) in Hs.
        apply in_concat in Hs as (l & Hl & Hs).
        apply in_map_iff in Hl as (e & <- & He).
        rewrite List.Forall_forall in Hm.
        destruct (Hm e He) as (b' & Hb' & Hl & _).
        rewrite Hl in Hs. apply filter_In in Hs as [_ Hk'].
        apply same_key_true in Hk'. rewrite Hk in Hk'. injection Hk' as <-.
        assert (Hin : In (Ok b) (map Ok ids)).
        { rewrite <- Hatoms, <- Hb'.
          apply (in_map (fun e => hash_atom (fst e))). exact He. }
        apply in_map_iff in Hin as (x & [= ->] & Hx). exact Hx.
    + rewrite <- (length_map Ok ids), <- Hatoms, length_map. reflexivity.
Qed.


(** ** Environment *)











(** ** Tracking, then saving *)




(** ** The further properties at the sample data *)

Lemma extracted_updates_well_formed_witness :
  extract_status_updates execution_read "wamid.1" "966532127070"
    = Ok [update_read] /\
  exists id,
    py_get_default execution_read "id" (VStr "unknown") = Ok id /\
    Forall (fun u =>
              executionId u = py_str id /\
              recipientMismatch u =
                truthy (recipient_id u) &&
                negb (py_eq (recipient_id u) (VStr "966532127070")) /\
              (truthy (recipient_id u) = false -> recipientMismatch u = false) /\
              format_timestamp (timestamp u) = Ok (timestampFormatted u))
      [update_read].
Proof.
  assert (H : extract_status_updates execution_read "wamid.1" "966532127070"
              = Ok [update_read]) by reflexivity.
  split; [exact H|].
  exact (extracted_updates_well_formed execution_read "wamid.1" "966532127070"
           [update_read] H).
Defined.

Lemma track_result_invariants_witness :
  exists res,
    resolve "966532127070" "wamid.1" "wf1" [update_delivered; update_read]
      = Ok res /\
    history res = [update_read; update_delivered] /\
    StronglySorted
      (fun a b => default 0 (timestamp b) <= default 0 (timestamp a))
      (history res) /\
    foundInExecutionsCount res = Z.of_nat (length (history res)) /\
    determine_latest_status (history res)
      = Ok (latestStatus res, latestTimestamp res).
Proof.
  eexists.
  assert (H : resolve "966532127070" "wamid.1" "wf1"
                [update_delivered; update_read] = Ok _)
    by (vm_compute; reflexivity).
  split; [exact H|]. split; [reflexivity|].
  destruct (track_result_invariants "966532127070" "wamid.1" "wf1"
              [update_delivered; update_read] _ H) as (Hs & Hc & Hl & _).
  split; [exact Hs|]. split; [exact Hc | exact Hl].
Defined.

Lemma history_provenance_witness :
  exists res w',
    reconcile "966532127070" "wamid.1" "wf1" (Some 1767096000)
      [execution_sent; execution_delivered] initial_world = (Ok res, w') /\
    history res = [update_delivered] /\
    Forall (fun u =>
              exists execution updates,
                In execution [execution_sent; execution_delivered] /\
                extract_status_updates execution "wamid.1" "966532127070"
                  = Ok updates /\
                In u updates /\
                (1767096000 = 0 \/ 1767096000 <= default 0 (timestamp u)))
      (history res).
Proof.
  eexists. eexists.
  assert (H : reconcile "966532127070" "wamid.1" "wf1" (Some 1767096000)
                [execution_sent; execution_delivered] initial_world = (Ok _, _))
    by (vm_compute; reflexivity).
  split; [exact H|]. split; [reflexivity|].
  exact (history_provenance "966532127070" "wamid.1" "wf1" (Some 1767096000)
           [execution_sent; execution_delivered] initial_world _ _ H).
Defined.

Lemma nothing_found_is_not_found_witness :
  Forall (fun e => isinstance_dict e = true /\
                   forall updates,
                     extract_status_updates e "wamid.2" "966532127070" = Ok updates ->
                     since_filter None updates = [])
    [execution_read; execution_sent] /\
  reconcile "966532127070" "wamid.2" "wf1" None [execution_read; execution_sent]
    initial_world =
    (Ok (mkResult "966532127070" "wamid.2" "wf1" (VStr "not_found") None None [] 0),
     {| calls := 0; draws := 0;
        trace := [EvScan execution_read; EvScan execution_sent] |}).
Proof.
  assert (H : Forall (fun e => isinstance_dict e = true /\
                   forall updates,
                     extract_status_updates e "wamid.2" "966532127070" = Ok updates ->
                     since_filter None updates = [])
                [execution_read; execution_sent]).
  { repeat constructor; intros updates Hu; injection Hu as <-; reflexivity. }
  split; [exact H|].
  exact (nothing_found_is_not_found "966532127070" "wamid.2" "wf1" None
           [execution_read; execution_sent] initial_world H).
Defined.

Lemma latest_status_order_independent_witness :
  Permutation [update_delivered; update_read] [update_read; update_delivered] /\
  determine_latest_status [update_delivered; update_read]
    = determine_latest_status [update_read; update_delivered].
Proof.
  assert (Hp : Permutation [update_delivered; update_read]
                 [update_read; update_delivered]) by apply perm_swap.
  split; [exact Hp|].
  apply (latest_status_order_independent _ _ Hp).
  - exists update_read. split; [right; left; reflexivity|reflexivity].
  - intros h [<-|[<-|[]]] _; eexists; reflexivity.
  - vm_compute. apply NoDup_ListNoDup. apply List.NoDup_cons; [intros [Hc|[]]; discriminate Hc|].
    apply List.NoDup_cons; [intros []|apply List.NoDup_nil].
Defined.

Lemma fetch_executions_errors_witness :
  0 < 100 /\
  (exists req,
     fetch_executions unauthorized_session no_jitter no_quote
       "https://n8n.example/" "/api/v1" "wf1" 100 1 initial_world =
     Some (Raise (RuntimeError "List executions failed (wf1): 401 unauthorized"),
           {| calls := 1; draws := 0; trace := [EvRequest req] |})) /\
  (exists msg w',
     fetch_executions overloaded_session no_jitter no_quote
       "https://n8n.example/" "/api/v1" "wf1" 100 1 initial_world =
     Some (Raise (RuntimeError msg), w') /\
     calls w' = 5%nat /\ length (sleeps_of (trace w')) = 4%nat).
Proof.
  assert (H : 0 < 100) by reflexivity.
  split; [exact H|]. split.
  - destruct (fetch_executions_errors unauthorized_session no_jitter no_quote
                "https://n8n.example/" "/api/v1" "wf1" 100 0 initial_world H)
      as [Hone _].
    destruct (Hone (mkResponse 401 "unauthorized" (Raise ValueError)))
      as [req Hreq]; [reflexivity|reflexivity|discriminate|].
    exists req. exact Hreq.
  - destruct (fetch_executions_errors overloaded_session no_jitter no_quote
                "https://n8n.example/" "/api/v1" "wf1" 100 0 initial_world H)
      as [_ Hall].
    destruct Hall as (req & resp & msg & w' & _ & _ & Hf & Hc & Hs).
    { intros n req. eexists. split; reflexivity. }
    exists msg, w'. split; [exact Hf|]. split; [exact Hc | exact Hs].
Defined.

Lemma save_keeps_ids_unique_witness :
  unique_ids [stored_sent] /\
  unique_ids (fst (save_messages_to_mongodb "wf1" (VStr "2025-12-30 15:05")
                     [stored_sent] [incoming_read; incoming_read])).
Proof.
  assert (H : unique_ids [stored_sent]) by (split; constructor).
  split; [exact H|].
  exact (save_keeps_ids_unique "wf1" (VStr "2025-12-30 15:05") [stored_sent]
           [incoming_read; incoming_read] H).
Defined.


Lemma absent_timestamp_blocks_batch_witness :
  In incoming_undated [incoming_read; incoming_undated] /\
  truthy (msg_messageId incoming_undated) = true /\
  find_one [stored_sent] (msg_messageId incoming_undated) = Some stored_sent /\
  msg_latestTimestamp incoming_undated = None /\
  save_messages_to_mongodb "wf1" (VStr "2025-12-30 15:05") [stored_sent]
    [incoming_read; incoming_undated] = ([stored_sent], 0).
Proof.
  assert (Hin : In incoming_undated [incoming_read; incoming_undated])
    by (right; left; reflexivity).
  assert (Hf : find_one [stored_sent] (msg_messageId incoming_undated)
               = Some stored_sent) by reflexivity.
  split; [exact Hin|]. split; [reflexivity|]. split; [exact Hf|].
  split; [reflexivity|].
  exact (absent_timestamp_blocks_batch "wf1" (VStr "2025-12-30 15:05")
           [stored_sent] [incoming_read; incoming_undated] incoming_undated
           stored_sent Hin eq_refl Hf (or_introl eq_refl)).
Defined.

Lemma list_failed_executions_never_returns_witness :
  (forall n req body, exists resp d x l c,
     endless_session n req body = Ok resp /\ status_code resp = 200 /\
     json resp = Ok (VDict d) /\ assoc "data" d = Some (VList (x :: l)) /\
     assoc "nextCursor" d = Some (VStr c) /\ c <> "") /\
  list_failed_executions endless_session no_jitter no_quote
    "https://n8n.example/" "/api/v1" "wf1" 100 1000 initial_world = None.
Proof.
  assert (H : forall n req body, exists resp d x l c,
     endless_session n req body = Ok resp /\ status_code resp = 200 /\
     json resp = Ok (VDict d) /\ assoc "data" d = Some (VList (x :: l)) /\
     assoc "nextCursor" d = Some (VStr c) /\ c <> "").
  { intros n req body. do 5 eexists.
    do 5 (split; [reflexivity|]). intros Hc; discriminate Hc. }
  split; [exact H|].
  exact (list_failed_executions_never_returns endless_session no_jitter no_quote
           "https://n8n.example/" "/api/v1" "wf1" 100 H 1000%nat initial_world).
Defined.

Lemma retry_execution_outcome_witness :
  fst (retry_execution accepting_session no_jitter "https://n8n.example/"
         "/api/v1" "7" true initial_world) = Ok true /\
  exists n : nat,
    (1 <= n <= 10)%nat /\
    exists body resp,
      accepting_session (0 + n - 1)%nat
        (mkRequest "POST" "https://n8n.example/api/v1/executions/7/retry") body
        = Ok resp /\
      200 <= status_code resp < 300.
Proof.
  assert (H : fst (retry_execution accepting_session no_jitter
                     "https://n8n.example/" "/api/v1" "7" true initial_world)
              = Ok true) by reflexivity.
  split; [exact H|].
  destruct (retry_execution_outcome accepting_session no_jitter
              "https://n8n.example/" "/api/v1" "7" true initial_world)
    as (n & Hn & _ & _ & Hok).
  destruct (Hok H) as (body & resp & Hs & Hr & _).
  exists n. split; [exact Hn|]. exists body, resp. split; [exact Hs | exact Hr].
Defined.


Lemma listed_statuses_pass_filters_witness :
  exists all_statuses,
    collect_statuses (Some "966532127070") (Some 1767096000)
      [execution_read; execution_delivered; execution_sent] = Ok all_statuses /\
    length all_statuses = 2%nat /\
    Forall (fun s =>
      truthy (ls_messageId s) = true /\
      (forall t, Some 1767096000 = Some t -> t <> 0 ->
         t <= opt_or_0 (ls_timestamp s)) /\
      (forall w, Some "966532127070" = Some w -> w <> "" ->
         truthy (ls_waId s) = true -> py_eq (ls_waId s) (VStr w) = true) /\
      format_timestamp (ls_timestamp s) = Ok (ls_timestampFormatted s))
      all_statuses.
Proof.
  eexists.
  assert (H : collect_statuses (Some "966532127070") (Some 1767096000)
                [execution_read; execution_delivered; execution_sent] = Ok _)
    by (vm_compute; reflexivity).
  split; [exact H|]. split; [reflexivity|].
  exact (listed_statuses_pass_filters (Some "966532127070") (Some 1767096000)
           [execution_read; execution_delivered; execution_sent] _ H).
Defined.

Lemma listed_messages_invariants_witness :
  exists res w' all_statuses,
    list_recent_messages one_page_session no_jitter no_quote
      (Some "966532127070") "wf1" "https://n8n.example/" "/api/v1" 200 10 None
      5 initial_world = Some (Ok res, w') /\
    collect_statuses (Some "966532127070") None
      [execution_read; execution_delivered; execution_sent] = Ok all_statuses /\
    length (lr_messages res) = 1%nat /\
    Forall (message_ok all_statuses) (lr_messages res).
Proof.
  eexists. eexists.
  assert (H : list_recent_messages one_page_session no_jitter no_quote
                (Some "966532127070") "wf1" "https://n8n.example/" "/api/v1"
                200 10 None 5 initial_world = Some (Ok _, _))
    by (vm_compute; reflexivity).
  destruct (listed_messages_invariants _ _ _ _ _ _ _ _ _ _ _ _ _ _ H)
    as (executions & a & Hf & Hc & Hok).
  assert (He : Some (Ok executions, mkWorld 1 0 [EvRequest (mkRequest "GET"
                 "https://n8n.example/api/v1/executions?workflowId=wf1&limit=100&includeData=true")])
               = Some (Ok [execution_read; execution_delivered; execution_sent],
                       mkWorld 1 0 [EvRequest (mkRequest "GET"
                 "https://n8n.example/api/v1/executions?workflowId=wf1&limit=100&includeData=true")])).
  { rewrite <- Hf. vm_compute. reflexivity. }
  injection He as ->.
  exists a. split; [exact H|]. split; [exact Hc|]. split; [reflexivity|exact Hok].
Defined.

Lemma listing_order_and_limit_witness :
  exists res w',
    list_recent_messages one_page_session no_jitter no_quote None "wf1"
      "https://n8n.example/" "/api/v1" 200 0 None 5 initial_world
      = Some (Ok res, w') /\
    lr_totalMessages res = 1 /\
    lr_messages res = [] /\
    (0 <= 0 ->
     Z.of_nat (length (lr_messages res)) = Z.min 0 (lr_totalMessages res)).
Proof.
  eexists. eexists.
  assert (H : list_recent_messages one_page_session no_jitter no_quote None
                "wf1" "https://n8n.example/" "/api/v1" 200 0 None 5
                initial_world = Some (Ok _, _))
    by (vm_compute; reflexivity).
  destruct (listing_order_and_limit _ _ _ _ _ _ _ _ _ _ _ _ _ _ H)
    as (_ & _ & _ & _ & Hmin & _).
  split; [exact H|]. split; [reflexivity|]. split; [reflexivity|exact Hmin].
Defined.





